(** * Better Daily Notes: date/path derivation and the file intake pipeline

    A shallow embedding of [src/utils.ts] and of the file-handling module
    (handleFiles, handleSingleFile, createAndInsertWithFileReader) of the
    better-diary Obsidian plugin, together with the properties stated about
    them in the design document.

    Conventions.
    - JavaScript strings are [string]; the paths and names handled here are
      ASCII.  [number]s that the code only compares, adds 1 to or prints are
      [Z].
    - The host platform (the time zone, dayjs, the Obsidian vault,
      FileReader, atob, the image compressor) is not part of the plugin.  What the plugin only
      calls is an operation of a type class; each class has one executable
      instance used for the concrete runs at the end of the file. *)

From Stdlib Require Import ZArith Lia Bool Ascii String List.
From stdpp Require Import base option list strings gmap pretty.

Local Open Scope string_scope.
Local Open Scope Z_scope.

(** ** JavaScript strings and arrays *)

Module Js.

(** [s.split(sep)] for a one-character separator: the result is never
    empty, and ["a//b".split("/")] is [["a"; ""; "b"]]. *)
Fixpoint split (sep : ascii) (s : string) : list string :=
  match s with
  | EmptyString => [EmptyString]
  | String c rest =>
      if Ascii.eqb c sep then EmptyString :: split sep rest
      else match split sep rest with
           | seg :: segs => String c seg :: segs
           | [] => [String c EmptyString]
           end
  end.

(** Relative index of [Array.prototype.slice]: negative counts from the end,
    everything is clamped to [0, len]. *)
Definition relIndex (len i : Z) : Z :=
  if i <? 0 then Z.max (len + i) 0 else Z.min i len.

(** [a.slice(start, end)]. *)
Definition slice {A} (start fin : Z) (a : list A) : list A :=
  let len := Z.of_nat (length a) in
  let k := relIndex len start in
  let e := relIndex len fin in
  take (Z.to_nat (e - k)) (drop (Z.to_nat k) a).

(** [a.slice(start)]. *)
Definition sliceFrom {A} (start : Z) (a : list A) : list A :=
  let len := Z.of_nat (length a) in
  drop (Z.to_nat (relIndex len start)) a.

(** [a[i]]: [None] is [undefined]. *)
Definition index {A} (a : list A) (i : nat) : option A := a !! i.

(** ToBoolean.  The empty string and [undefined] are falsy; every object,
    and so every array (the empty one too), is truthy. *)
Definition truthyString (s : string) : bool := negb (String.eqb s "").

Definition truthyOptString (o : option string) : bool :=
  match o with Some s => truthyString s | None => false end.

Definition truthyArray {A} (a : list A) : bool := true.

(** [s.startsWith(p)], [s.endsWith(p)], [s.contains(p)] (Obsidian's alias
    of [includes]). *)
Definition startsWith (p s : string) : bool := String.prefix p s.

Fixpoint contains (p s : string) : bool :=
  String.prefix p s ||
  match s with
  | EmptyString => false
  | String _ rest => contains p rest
  end.

Definition endsWith (p s : string) : bool :=
  String.prefix (String.rev p) (String.rev s).

(** [s[0]] and [s.substring(1)]. *)
Definition charAt0 (s : string) : option ascii :=
  match s with EmptyString => None | String c _ => Some c end.

Definition substring1 (s : string) : string :=
  match s with EmptyString => EmptyString | String _ rest => rest end.

(** Template-literal printing of an integral [number]. *)
Definition ofNumber (n : Z) : string := pretty n.

(** The same for a [number] that may be [NaN], which is [None]. *)
Definition ofNumberOrNaN (n : option Z) : string :=
  match n with Some n => ofNumber n | None => "NaN" end.

(** [String(n).padStart(w, "0")] for a non-negative [n]. *)
Definition padStart0 (w : nat) (s : string) : string :=
  String.concat "" (replicate (w - String.length s)%nat "0") ++ s.

End Js.

(** ** The JavaScript [Date] object

    After ECMA-262, section "Date Objects".  A time value is a number of
    milliseconds since the epoch, in UTC; a [Date] holds a time value or
    [NaN], the invalid date.  The getters and setters read and write it
    through the local time of the host's time zone, and a setter keeps its
    result only when it lies in the time range ([TimeClip]).  A [number]
    that may be [NaN] is an [option Z], [None] being [NaN]. *)

Module JsDate.

Definition msPerDay : Z := 86400000.
Definition msPerHour : Z := 3600000.
Definition HoursPerDay : Z := 24.

Definition Day (t : Z) : Z := t / msPerDay.
Definition TimeWithinDay (t : Z) : Z := t mod msPerDay.

Definition isLeap (y : Z) : bool :=
  ((y mod 4 =? 0) && negb (y mod 100 =? 0)) || (y mod 400 =? 0).

Definition DaysInYear (y : Z) : Z := if isLeap y then 366 else 365.

Definition DayFromYear (y : Z) : Z :=
  365 * (y - 1970) + (y - 1969) / 4 - (y - 1901) / 100 + (y - 1601) / 400.

(** The largest [y] with [DayFromYear y <= Day t]: a first guess from the
    mean length of a year, moved by at most one year either way. *)
Definition YearFromTime (t : Z) : Z :=
  let d := Day t in
  let y := 1970 + (400 * d) / 146097 in
  if d <? DayFromYear y then y - 1
  else if DayFromYear (y + 1) <=? d then y + 1
  else y.

Definition InLeapYear (t : Z) : bool := isLeap (YearFromTime t).

Definition DayWithinYear (t : Z) : Z := Day t - DayFromYear (YearFromTime t).

(** Days of the year that precede month [m] (0 is January). *)
Definition daysBeforeMonth (leap : bool) (m : Z) : Z :=
  let l := if leap then 1 else 0 in
  if m <=? 0 then 0
  else if m =? 1 then 31
  else if m =? 2 then 59 + l
  else if m =? 3 then 90 + l
  else if m =? 4 then 120 + l
  else if m =? 5 then 151 + l
  else if m =? 6 then 181 + l
  else if m =? 7 then 212 + l
  else if m =? 8 then 243 + l
  else if m =? 9 then 273 + l
  else if m =? 10 then 304 + l
  else 334 + l.

Definition MonthFromTime (t : Z) : Z :=
  let d := DayWithinYear t in
  let leap := InLeapYear t in
  if d <? daysBeforeMonth leap 1 then 0
  else if d <? daysBeforeMonth leap 2 then 1
  else if d <? daysBeforeMonth leap 3 then 2
  else if d <? daysBeforeMonth leap 4 then 3
  else if d <? daysBeforeMonth leap 5 then 4
  else if d <? daysBeforeMonth leap 6 then 5
  else if d <? daysBeforeMonth leap 7 then 6
  else if d <? daysBeforeMonth leap 8 then 7
  else if d <? daysBeforeMonth leap 9 then 8
  else if d <? daysBeforeMonth leap 10 then 9
  else if d <? daysBeforeMonth leap 11 then 10
  else 11.

Definition DateFromTime (t : Z) : Z :=
  DayWithinYear t - daysBeforeMonth (InLeapYear t) (MonthFromTime t) + 1.

Definition HourFromTime (t : Z) : Z := (t / msPerHour) mod HoursPerDay.

(** [MakeDay(year, month, date)]: the day number of the first of the month,
    plus [date - 1]; months outside 0..11 carry into the year. *)
Definition MakeDay (year month date : Z) : Z :=
  let ym := year + month / 12 in
  let mn := month mod 12 in
  DayFromYear ym + daysBeforeMonth (isLeap ym) mn + date - 1.

Definition MakeDate (day time : Z) : Z := day * msPerDay + time.

(** The time range: 100,000,000 days on either side of the epoch. *)
Definition maxTime : Z := 8640000000000000.

Definition TimeClip (time : Z) : option Z :=
  if Z.abs time <=? maxTime then Some time else None.

(** The host's time zone.  [LocalTZA t true] is the offset of local time
    from UTC at the UTC time value [t]; [LocalTZA t false] is the offset by
    which the local time value [t] is read, which for a local time that the
    zone skips or repeats is the offset before the transition. *)
Class TimeZone : Type := {
  LocalTZA : Z -> bool -> Z
}.

(** The object: one mutable slot, [[DateValue]].  Functions that mutate a
    [Date] return the object they were given, updated. *)
Record Date : Type := DateOf { dateValue : option Z }.

#[global] Instance Date_eq_dec : EqDecision Date.
Proof. solve_decision. Defined.

Section WithZone.
Context `{!TimeZone}.

Definition LocalTime (t : Z) : Z := t + LocalTZA t true.
Definition UTC (t : Z) : Z := t - LocalTZA t false.

Definition getFullYear (d : Date) : option Z :=
  t ← dateValue d; Some (YearFromTime (LocalTime t)).
Definition getMonth (d : Date) : option Z :=
  t ← dateValue d; Some (MonthFromTime (LocalTime t)).
Definition getDate (d : Date) : option Z :=
  t ← dateValue d; Some (DateFromTime (LocalTime t)).
Definition getHours (d : Date) : option Z :=
  t ← dateValue d; Some (HourFromTime (LocalTime t)).

(** [d.setDate(dt)].  An invalid date stays invalid; [NaN] for [dt], or a
    result outside the time range, makes the date invalid. *)
Definition setDate (dt : option Z) (d : Date) : Date :=
  match dateValue d with
  | None => d
  | Some t =>
      match dt with
      | None => DateOf None
      | Some dt =>
          let t := LocalTime t in
          let newDate :=
            MakeDate (MakeDay (YearFromTime t) (MonthFromTime t) dt)
                     (TimeWithinDay t) in
          DateOf (TimeClip (UTC newDate))
      end
  end.

(** [new Date(year, monthIndex, day)]: local midnight of that day; a year
    from 0 to 99 stands for 1900 to 1999. *)
Definition ofYMD (y m d : Z) : Date :=
  let yr := if (0 <=? y) && (y <=? 99) then 1900 + y else y in
  DateOf (TimeClip (UTC (MakeDate (MakeDay yr m d) 0))).

(** [new Date()] at the time value [now], and [new Date(value)]. *)
Definition ofTimeValue (value : Z) : Date := DateOf (TimeClip value).

(** The local time value of a date, and the calendar date it shows: year,
    month index, day of month. *)
Definition localTimeOf (d : Date) : option Z := LocalTime <$> dateValue d.

Definition calendarDate (d : Date) : option (Z * Z * Z) :=
  t ← localTimeOf d; Some (YearFromTime t, MonthFromTime t, DateFromTime t).

(** The day number of the object's calendar date. *)
Definition dayNumber (d : Date) : option Z := Day <$> localTimeOf d.

End WithZone.

End JsDate.

(** Two zones.  [utcZone] has no offset.  [apiaZone] is Pacific/Apia
    around the end of 2011, when Samoa moved across the date line: at
    10:00 UTC on 30 December the offset went from -10 to +14 hours, so
    that 29 December was followed by 31 December and the local times of
    30 December do not exist; they are read with the offset before the
    change. *)
#[global] Instance utcZone : JsDate.TimeZone := {
  LocalTZA := fun _ _ => 0
}.

Definition apiaChange : Z := 1325239200000.

Definition apiaZone : JsDate.TimeZone := {|
  JsDate.LocalTZA := fun t isUTC =>
    if isUTC then (if t <? apiaChange then -10 * JsDate.msPerHour
                   else 14 * JsDate.msPerHour)
    else (if t <? apiaChange + 14 * JsDate.msPerHour then -10 * JsDate.msPerHour
          else 14 * JsDate.msPerHour)
|}.

(** ** dayjs

    The plugin formats a [Date] with [dayjs(date).format(fmt)] and reads a
    note name back with the strict form [dayjs(name, fmt, true)], asking
    [isValid()] of the result.  Both are library calls; [None] stands for a
    dayjs object that is not valid. *)

Class Dayjs : Type := {
  dayjs_format : string -> JsDate.Date -> string;
  dayjs_parse_strict : string -> string -> option JsDate.Date
}.

(** An executable fragment of dayjs, for formats made of the tokens [YYYY],
    [MM], [DD] and separator characters.  Parsing reads the digits of each
    token, builds the date the way [new Date(y, m - 1, d)] does, and in
    strict mode accepts it only when formatting it gives the input back
    (which is what rejects 2024-02-30).  An invalid date is formatted as
    "Invalid Date". *)
Module DayjsYMD.

Inductive token : Type :=
| TYear4
| TMonth2
| TDay2
| TChar (c : ascii).

Fixpoint tokenize (fmt : string) : list token :=
  match fmt with
  | String "Y" (String "Y" (String "Y" (String "Y" rest))) =>
      TYear4 :: tokenize rest
  | String "M" (String "M" rest) => TMonth2 :: tokenize rest
  | String "D" (String "D" rest) => TDay2 :: tokenize rest
  | String c rest => TChar c :: tokenize rest
  | EmptyString => []
  end.

Section WithZone.
Context `{!JsDate.TimeZone}.

(** A token, for the local time value [t] of a valid date. *)
Definition formatToken (t : Z) (tok : token) : string :=
  match tok with
  | TYear4 => Js.padStart0 4 (Js.ofNumber (JsDate.YearFromTime t))
  | TMonth2 => Js.padStart0 2 (Js.ofNumber (JsDate.MonthFromTime t + 1))
  | TDay2 => Js.padStart0 2 (Js.ofNumber (JsDate.DateFromTime t))
  | TChar c => String c EmptyString
  end.

Definition format (fmt : string) (d : JsDate.Date) : string :=
  match JsDate.localTimeOf d with
  | None => "Invalid Date"
  | Some t => String.concat "" (map (formatToken t) (tokenize fmt))
  end.

End WithZone.

Definition digit (c : ascii) : option Z :=
  let n := Z.of_nat (nat_of_ascii c) in
  if (48 <=? n) && (n <=? 57) then Some (n - 48) else None.

(** Reads exactly [n] decimal digits from the front of [s]. *)
Fixpoint digits (n : nat) (acc : Z) (s : string) : option (Z * string) :=
  match n with
  | O => Some (acc, s)
  | S n' =>
      match s with
      | String c rest =>
          match digit c with
          | Some v => digits n' (10 * acc + v) rest
          | None => None
          end
      | EmptyString => None
      end
  end.

Record fields : Type := mkFields { fy : option Z; fm : option Z; fd : option Z }.

Fixpoint parseTokens (ts : list token) (f : fields) (s : string) : option fields :=
  match ts with
  | [] => Some f
  | TYear4 :: ts' =>
      match digits 4 0 s with
      | Some (v, rest) => parseTokens ts' (mkFields (Some v) (fm f) (fd f)) rest
      | None => None
      end
  | TMonth2 :: ts' =>
      match digits 2 0 s with
      | Some (v, rest) => parseTokens ts' (mkFields (fy f) (Some v) (fd f)) rest
      | None => None
      end
  | TDay2 :: ts' =>
      match digits 2 0 s with
      | Some (v, rest) => parseTokens ts' (mkFields (fy f) (fm f) (Some v)) rest
      | None => None
      end
  | TChar _ :: ts' => parseTokens ts' f (Js.substring1 s)
  end.

Definition parseStrict `{!JsDate.TimeZone} (s fmt : string) : option JsDate.Date :=
  match parseTokens (tokenize fmt) (mkFields None None None) s with
  | Some (mkFields (Some y) (Some m) (Some d)) =>
      let date := JsDate.ofYMD y (m - 1) d in
      if String.eqb (format fmt date) s then Some date else None
  | _ => None
  end.

End DayjsYMD.

#[global] Instance dayjsYMD `{!JsDate.TimeZone} : Dayjs := {
  dayjs_format := DayjsYMD.format;
  dayjs_parse_strict := DayjsYMD.parseStrict
}.

(** [date.toLocaleString('en-GB', { month: 'short' })] is answered by the
    platform's locale data. *)
Class Locale : Type := {
  toLocaleMonthShort : JsDate.Date -> string
}.

(** The three-letter abbreviations the design document speaks of. *)
Definition monthAbbrev (m : Z) : string :=
  match m with
  | 0 => "Jan" | 1 => "Feb" | 2 => "Mar" | 3 => "Apr"
  | 4 => "May" | 5 => "Jun" | 6 => "Jul" | 7 => "Aug"
  | 8 => "Sep" | 9 => "Oct" | 10 => "Nov" | _ => "Dec"
  end.

#[global] Instance localeAbbrev `{!JsDate.TimeZone} : Locale := {
  toLocaleMonthShort := fun d =>
    match JsDate.getMonth d with
    | Some m => monthAbbrev m
    | None => "Invalid Date"
    end
}.

(** ** src/utils.ts

    [now] is the time value of the instant at which a function runs: what
    [new Date()] and [dayjs()] hold inside it.  An optional parameter is an
    [option], [None] being the omitted argument that takes the declared
    default.  A function that may call [date.setDate] returns the date
    object next to its result, so that a caller who passes the same object
    on sees the mutation.  [console.log] is not modelled. *)

Module Utils.
Section WithPlatform.
Context `{!JsDate.TimeZone} `{!Dayjs} `{!Locale}.

Import JsDate.

(** [new Date()]. *)
Definition newDate (now : Z) : Date := DateOf (Some now).

(** [dayjs().get('hour')]. *)
Definition currentHour (now : Z) : Z := HourFromTime (LocalTime now).

Definition formatDate (format : string) (now : Z) (date : option Date) : string :=
  let date := default (newDate now) date in
  dayjs_format format date.

Definition getDailyNoteName (now : Z)
    (assumeSameDayBeforeHour : Z) (dateFormat : string)
    (date : option Date) (considerAssumeSameDayBeforeHour : option bool)
    : string * Date :=
  let date := default (newDate now) date in
  let consider := default false considerAssumeSameDayBeforeHour in
  let date :=
    if (currentHour now <? assumeSameDayBeforeHour) && consider
    then setDate ((fun n => n - 1) <$> getDate date) date
    else date in
  (formatDate dateFormat now (Some date), date).

Definition getMonthDirPath (now : Z)
    (rootDir : string) (assumeSameDayBeforeHour : Z)
    (date : option Date) (considerAssumeSameDayBeforeHour : option bool)
    : string * Date :=
  let date := default (newDate now) date in
  let consider := default false considerAssumeSameDayBeforeHour in
  let date :=
    if (currentHour now + 1 <? assumeSameDayBeforeHour) && consider
    then setDate ((fun n => n - 1) <$> getDate date) date
    else date in
  let year := getFullYear date in
  let monthStr := toLocaleMonthShort date in
  (rootDir ++ "/" ++ Js.ofNumberOrNaN year ++ "/" ++ monthStr, date)%string.

(** The same date object goes to both calls; [getMonthDirPath] is called
    with three arguments. *)
Definition getDailyNotePath (now : Z)
    (rootDir : string) (assumeSameDayBeforeHour : Z) (dateFormat : string)
    (date : option Date) : string * Date :=
  let date := default (newDate now) date in
  let '(noteName, date) :=
    getDailyNoteName now assumeSameDayBeforeHour dateFormat (Some date) (Some true) in
  let '(dirPath, date) :=
    getMonthDirPath now rootDir assumeSameDayBeforeHour (Some date) None in
  (dirPath ++ "/" ++ noteName ++ ".md", date)%string.

Definition checkValidDailyNotePath (notePath dateFormat : string) : option Date :=
  (* notePath.split("/").slice(-1)[0].split(".")[0]; both [0] are defined,
     since split never gives an empty array *)
  lastSeg ← Js.index (Js.sliceFrom (-1) (Js.split "/" notePath)) 0;
  noteName ← Js.index (Js.split "." lastSeg) 0;
  if negb (Js.truthyString noteName) then None
  else
    match dayjs_parse_strict noteName dateFormat with
    | None => None
    | Some date =>
        let monthDir := Js.slice (-2) (-1) (Js.split "/" notePath) in
        if negb (Js.truthyArray monthDir) then None
        else Some date
    end.

(** [bytes[i] = binaryString.charCodeAt(i)] into a [Uint8Array]. *)
Fixpoint charCodes (binaryString : string) : list Z :=
  match binaryString with
  | EmptyString => []
  | String c rest => (Z.of_nat (nat_of_ascii c) mod 256) :: charCodes rest
  end.

End WithPlatform.
End Utils.

(** ** The host: vault, editor, notices, file readers

    The state the file-handling module acts on.  It is threaded through the
    module's functions by the monad [M] below. *)

(** A dropped or pasted [File]. *)
Record File : Type := mkFile {
  file_name : string;
  file_type : string;            (* MIME type *)
  file_bytes : list Z
}.

(** What [vault.getAbstractFileByPath] can find at a path. *)
Inductive Entry : Type :=
| EFile (data : list Z)
| EFolder.

(** [new Notice(message, duration)]; [None] is the omitted duration,
    [Some 0] a notice that stays until dismissed. *)
Record Notice : Type := mkNotice {
  notice_message : string;
  notice_duration : option Z
}.

(** The document around the editor's selection. *)
Record Editor : Type := mkEditor {
  ed_before : string;
  ed_selection : string;
  ed_after : string
}.

(** [editor.replaceSelection(text)]: the selected text gives way to [text],
    and the cursor, an empty selection, comes after it. *)
Definition replaceSelectionIn (text : string) (e : Editor) : Editor :=
  mkEditor (ed_before e ++ text)%string "" (ed_after e).

(** A [FileReader] on which [readAsDataURL] was called and whose
    [onloadend] handler has not run yet.  The record is the handler's
    closure: the file being read, the variables of [handleSingleFile] the
    handler uses, and the [handleSuccess] variable it assigns to. *)
Record Reader : Type := mkReader {
  rd_file : File;
  rd_filePath : string;
  rd_resizeWidth : Z;
  rd_handleSuccess : nat
}.

Record World : Type := mkWorld {
  vault : gmap string Entry;
  editor : Editor;
  notices : list Notice;
  defaultPrevented : bool;       (* evt.preventDefault() was called *)
  readers : list Reader;         (* reads in flight *)
  handleSuccess : list bool;     (* one variable per handleSingleFile call *)
  finished : list (nat * option bool);
      (* handlers that have run, oldest first: whose variable, and the
         value it assigned, [None] if the handler threw *)
  schedule : list (list nat)
      (* which reads complete at each coming suspension point *)
}.

(** Obsidian calls whose outcome the plugin cannot tell in advance. *)
Class Obsidian : Type := {
  normalizePath : string -> string;
  (* the storage adapter refuses to write this file *)
  adapterWriteFails : gmap string Entry -> string -> list Z -> bool
}.

(** Browser calls. *)
Class Browser : Type := {
  (* [reader.result] once a [readAsDataURL] has ended; [None] is [null] *)
  readAsDataURL : File -> option string;
  (* [window.atob]; [None] when it throws *)
  atob : string -> option string
}.

(** [imageCompression(file, { maxSizeMB: size / 1024, useWebWorker,
    preserveExifData })] from browser-image-compression: the file its
    promise resolves to, or [None] when the promise is rejected. *)
Class ImageCompression : Type := {
  imageCompression : File -> Z -> bool -> option File
}.

Record BetterDailyNotesSettings : Type := mkSettings {
  dateFormat : string;
  fileHandlingScenario : string;
  imageSubDir : string;
  otherFilesSubDir : string;
  maxImageSizeKB : Z;
  preserveExifData : bool;
  resizeWidth : Z
}.

Record TFile : Type := mkTFile {
  tf_path : string;
  tf_basename : string;
  tf_parent : option string      (* file.parent?.path *)
}.

Record MarkdownView : Type := mkView { view_file : option TFile }.

Record DataTransfer : Type := mkDataTransfer { dt_files : option (list File) }.

(** *** Computations on the world

    A computation ends normally with a value or throws. *)

Inductive completion (A : Type) : Type :=
| Normal (a : A)
| Throw.
Arguments Normal {A} a.
Arguments Throw {A}.

Definition M (A : Type) : Type := World -> completion A * World.

Definition ret {A} (a : A) : M A := fun w => (Normal a, w).

Definition bind {A B} (m : M A) (k : A -> M B) : M B :=
  fun w => match m w with
           | (Normal a, w') => k a w'
           | (Throw, w') => (Throw, w')
           end.

Definition throw {A} : M A := fun w => (Throw, w).

(** [try { body } catch (e) { handler }]. *)
Definition tryCatch {A} (body handler : M A) : M A :=
  fun w => match body w with
           | (Normal a, w') => (Normal a, w')
           | (Throw, w') => handler w'
           end.

#[global] Instance M_ret : MRet M := @ret.
#[global] Instance M_bind : MBind M := fun A B k m => bind m k.

Definition modify (f : World -> World) : M unit := fun w => (Normal tt, f w).
Definition gets {A} (f : World -> A) : M A := fun w => (Normal (f w), w).

Definition set_vault (v : gmap string Entry) (w : World) : World :=
  mkWorld v (editor w) (notices w) (defaultPrevented w) (readers w)
          (handleSuccess w) (finished w) (schedule w).
Definition set_editor (e : Editor) (w : World) : World :=
  mkWorld (vault w) e (notices w) (defaultPrevented w) (readers w)
          (handleSuccess w) (finished w) (schedule w).
Definition set_notices (n : list Notice) (w : World) : World :=
  mkWorld (vault w) (editor w) n (defaultPrevented w) (readers w)
          (handleSuccess w) (finished w) (schedule w).
Definition set_defaultPrevented (b : bool) (w : World) : World :=
  mkWorld (vault w) (editor w) (notices w) b (readers w)
          (handleSuccess w) (finished w) (schedule w).
Definition set_readers (r : list Reader) (w : World) : World :=
  mkWorld (vault w) (editor w) (notices w) (defaultPrevented w) r
          (handleSuccess w) (finished w) (schedule w).
Definition set_handleSuccess (h : list bool) (w : World) : World :=
  mkWorld (vault w) (editor w) (notices w) (defaultPrevented w) (readers w)
          h (finished w) (schedule w).
Definition set_finished (f : list (nat * option bool)) (w : World) : World :=
  mkWorld (vault w) (editor w) (notices w) (defaultPrevented w) (readers w)
          (handleSuccess w) f (schedule w).
Definition set_schedule (s : list (list nat)) (w : World) : World :=
  mkWorld (vault w) (editor w) (notices w) (defaultPrevented w) (readers w)
          (handleSuccess w) (finished w) s.

(** [new Notice(message)] and [new Notice(message, duration)]. *)
Definition newNotice (message : string) (duration : option Z) : M unit :=
  modify (fun w => set_notices (notices w ++ [mkNotice message duration]) w).

Definition replaceSelection (text : string) : M unit :=
  modify (fun w => set_editor (replaceSelectionIn text (editor w)) w).

Definition preventDefault : M unit := modify (set_defaultPrevented true).

Definition getAbstractFileByPath (path : string) : M (option Entry) :=
  gets (fun w => vault w !! path).

(** [vault.getFiles()]: the paths of the files, folders left out. *)
Definition getFiles (v : gmap string Entry) : list string :=
  omap (fun '(p, e) => match e with EFile _ => Some p | EFolder => None end)
       (map_to_list v).

(** [await vault.createBinary(path, data)]: throws when something is at the
    path already or when the adapter fails, and creates the file
    otherwise. *)
Definition createBinary `{!Obsidian} (path : string) (data : list Z) : M unit :=
  fun w =>
    match vault w !! path with
    | Some _ => (Throw, w)
    | None =>
        if adapterWriteFails (vault w) path data then (Throw, w)
        else (Normal tt, set_vault (<[path := EFile data]> (vault w)) w)
    end.

(** The double quote, for the messages that quote a name. *)
Definition dq : string := String (ascii_of_nat 34) EmptyString.

(** ** The file-handling module

    The parameters [app], [editor] and [evt] of the source are the world:
    its vault, its editor and its [defaultPrevented] flag.  The optional
    [reader] of [handleSingleFile] is left at its default, a new
    [FileReader], which is how [handleFiles] calls it.  [console.log] and
    [console.error] are not modelled. *)

Module FileHandling.
Section WithHost.
Context `{!Dayjs} `{!Obsidian} `{!Browser} `{!ImageCompression}.

(** [`${x}`] of a value that may be [undefined]. *)
Definition template (o : option string) : string := default "undefined" o.

Definition base64ToArrayBuffer (base64 : string) : M (list Z) :=
  match atob base64 with
  | None => throw
  | Some binaryString => mret (Utils.charCodes binaryString)
  end.

Definition countFilesWithSamePrefix (v : gmap string Entry)
    (dirPath prefix : string) : Z :=
  let files := getFiles v in
  Z.of_nat (length
    (filter (fun path => Js.startsWith dirPath path = true
                         ∧ Js.contains prefix path = true
                         ∧ Js.endsWith ".md" path = false)
            (filter (fun path => Js.startsWith dirPath path = true) files))).

Definition createAndInsertWithFileReader
    (readerResult : option string)     (* reader.result *)
    (filePath : string)
    (fileName : string)
    (returnTrueIfExists : bool)
    (resizeWidth : Z) : M bool :=
  let base64 := result ← readerResult; Js.index (Js.split "," result) 1 in
  if negb (Js.truthyOptString base64) then
    newNotice ("Failed to create file " ++ dq ++ filePath ++ dq ++
               ", base64 is empty.")%string None;;
    mret false
  else
    let base64 := default "" base64 in
    let fileLinkResizeString :=
      if negb (resizeWidth =? -1) then ("|" ++ Js.ofNumber resizeWidth)%string
      else "" in
    let fileLink := ("![[" ++ filePath ++ fileLinkResizeString ++ "]]")%string in
    let filePath :=
      if decide (Js.charAt0 filePath = Some "/"%char)
      then Js.substring1 filePath else filePath in
    existing ← getAbstractFileByPath filePath;
    if bool_decide (is_Some existing) && returnTrueIfExists then
      newNotice ("File " ++ dq ++ filePath ++ dq ++
                 " already exists. Inserting link to the existed one.")%string
                None;;
      replaceSelection fileLink;;
      mret true
    else
      fileArrayBuffer ← base64ToArrayBuffer base64;
      tryCatch
        (createBinary filePath fileArrayBuffer;;
         replaceSelection fileLink;;
         mret true)
        (newNotice ("Failed to create file " ++ dq ++ fileName ++ dq ++ ".")%string
                   (Some 0);;
         replaceSelection fileLink;;
         mret false).

(** *** Suspension points

    The [onloadend] handler that [handleSingleFile] installs.  It runs when
    the read has ended, as a task of its own; it is taken to run to its end
    before any other task. *)
Definition onloadend (r : Reader) (w : World) : World :=
  match createAndInsertWithFileReader
          (readAsDataURL (rd_file r)) (rd_filePath r)
          (file_name (rd_file r)) true (rd_resizeWidth r) w with
  | (Normal b, w') =>
      set_finished (finished w' ++ [(rd_handleSuccess r, Some b)])
        (set_handleSuccess (<[rd_handleSuccess r := b]> (handleSuccess w')) w')
  | (Throw, w') =>
      set_finished (finished w' ++ [(rd_handleSuccess r, None)]) w'
  end.

(** The [i]-th read in flight ends now. *)
Definition completeRead (w : World) (i : nat) : World :=
  match readers w !! i with
  | Some r => onloadend r (set_readers (delete i (readers w)) w)
  | None => w
  end.

(** [await]: while the caller is suspended, the reads the schedule names
    for this point end and their handlers run. *)
Definition await : M unit :=
  fun w =>
    match schedule w with
    | [] => (Normal tt, w)
    | picks :: later =>
        (Normal tt, foldl completeRead (set_schedule later w) picks)
    end.

(** After the event handler has returned, the reads still in flight end one
    after the other. *)
Definition settle (w : World) : World :=
  foldl (fun w' r => onloadend r w') (set_readers [] w) (readers w).

Definition limitImageFileSize (file : File) (size : Z) (preserveExif : bool)
    : M File :=
  if size =? -1 then mret file
  else
    newNotice ("Compressing image " ++ dq ++ file_name file ++ dq ++ " to " ++
               Js.ofNumber size ++ "KB")%string None;;
    await;;
    match imageCompression file size preserveExif with
    | Some compressedFile => mret compressedFile
    | None => throw
    end.

Definition shouldHandleAccordingToConfig
    (settings : BetterDailyNotesSettings)
    (markdownView : option MarkdownView) : bool :=
  match markdownView ≫= view_file with
  | None => false
  | Some viewFile =>
      if String.eqb (fileHandlingScenario settings) "disabled" then false
      else
        let date := Utils.checkValidDailyNotePath (tf_path viewFile) (dateFormat settings) in
        if String.eqb (fileHandlingScenario settings) "daily notes only"
           && negb (bool_decide (is_Some date))
        then false
        else true
  end.

(** Modelled from the spec: [createDirsIfNotExists] of ./fileSystem, which
    is not among the sources.  It ensures that the directory exists,
    creating the intermediate directories as needed; a directory that is
    there already is not an error.  It returns nothing. *)
Definition createDirsIfNotExists (dirPath : string) : M unit :=
  modify (fun w =>
    let step (acc : string * gmap string Entry) (seg : string) :=
      let '(parent, v) := acc in
      let path := if String.eqb parent "" then seg
                  else (parent ++ "/" ++ seg)%string in
      if String.eqb seg "" then (parent, v)
      else (path, match v !! path with
                  | None => <[path := EFolder]> v
                  | Some _ => v
                  end) in
    set_vault (snd (foldl step ("", vault w) (Js.split "/" dirPath))) w).

(** [let handleSuccess = true]: a fresh variable, named by its position. *)
Definition declareHandleSuccess (init : bool) : M nat :=
  fun w => (Normal (length (handleSuccess w)),
            set_handleSuccess (handleSuccess w ++ [init]) w).

(** [reader.onloadend = ...; reader.readAsDataURL(file)] on a new reader. *)
Definition startRead (r : Reader) : M unit :=
  modify (fun w => set_readers (readers w ++ [r]) w).

Definition handleSingleFile
    (settings : BetterDailyNotesSettings)
    (file : File)
    (markdownView : option MarkdownView) : M bool :=
  match markdownView ≫= view_file with
  | None => mret false
  | Some viewFile =>
      let viewParentPath := default "" (tf_parent viewFile) in
      let viewParentPath :=
        if String.eqb viewParentPath "/" then "" else viewParentPath in
      let fileSaveSubDir := "" in
      let viewFileName := tf_basename viewFile in
      let filePrefix := viewFileName in
      let fileSuffix := "" in
      '(file, fileSaveSubDir, filePrefix, fileSuffix) ←
        (if Js.startsWith "image" (file_type file) then
           file ← limitImageFileSize file (maxImageSizeKB settings)
                                     (preserveExifData settings);
           await;;
           countPrefix ← gets (fun w =>
             countFilesWithSamePrefix (vault w) fileSaveSubDir filePrefix);
           mret (file,
                 (viewParentPath ++ "/" ++ imageSubDir settings)%string,
                 (filePrefix ++ "-image")%string,
                 if countPrefix =? 0 then ""
                 else ("-" ++ Js.ofNumber countPrefix)%string)
         else
           mret (file,
                 (viewParentPath ++ "/" ++ otherFilesSubDir settings)%string,
                 (filePrefix ++ "-" ++
                  template (Js.index (Js.split "." (file_name file)) 0))%string,
                 fileSuffix));
      let fileSaveSubDir := normalizePath fileSaveSubDir in
      let ext := Js.index (Js.sliceFrom (-1) (Js.split "." (file_name file))) 0 in
      let fileName := (filePrefix ++ fileSuffix ++ "." ++ template ext)%string in
      let filePath := normalizePath (fileSaveSubDir ++ "/" ++ fileName)%string in
      handleSuccessVar ← declareHandleSuccess true;
      createDirsIfNotExists fileSaveSubDir;;
      await;;
      startRead (mkReader file filePath (resizeWidth settings) handleSuccessVar);;
      gets (fun w => default true (handleSuccess w !! handleSuccessVar))
  end.

Definition supportedType (file : File) : bool :=
  Js.startsWith "image" (file_type file)
  || String.eqb (file_type file) "application/zip"
  || String.eqb (file_type file) "application/pdf".

(** The second loop of [handleFiles]. *)
Fixpoint handleEach (settings : BetterDailyNotesSettings)
    (markdownView : option MarkdownView) (files : list File) : M unit :=
  match files with
  | [] => mret tt
  | file :: rest =>
      handleSingleFile settings file markdownView;;
      await;;
      handleEach settings markdownView rest
  end.

Definition handleFiles
    (dataTransfer : option DataTransfer)
    (settings : BetterDailyNotesSettings)
    (markdownView : option MarkdownView) : M unit :=
  match dataTransfer ≫= dt_files with
  | None => mret tt
  | Some files =>
      if negb (shouldHandleAccordingToConfig settings markdownView) then mret tt
      else if (length files =? 0)%nat then mret tt
      else
        (* the first loop returns at the first unsupported file *)
        match find (fun file => negb (supportedType file)) files with
        | Some file =>
            newNotice ("Only image, pdf, and zip files are supported. " ++
                       "Get " ++ file_type file ++ " instead.")%string None
        | None =>
            preventDefault;;
            handleEach settings markdownView files
        end
  end.

End WithHost.
End FileHandling.

(** ** An executable host

    One instance of each host class, used for the concrete runs. *)

Module SampleHost.

(** Obsidian's [normalizePath] on ASCII paths with forward slashes: runs of
    slashes become one, leading and trailing slashes go, and the empty path
    is the root ["/"]. *)
Definition normalizePath (path : string) : string :=
  let segs := List.filter (fun seg => negb (String.eqb seg ""))
                          (Js.split "/" path) in
  let joined := String.concat "/" segs in
  if String.eqb joined "" then "/" else joined.

(** An adapter that refuses the characters a file name may not have on the
    desktop. *)
Definition adapterWriteFails (v : gmap string Entry) (path : string)
    (data : list Z) : bool :=
  Js.contains ":" path || Js.contains "?" path || Js.contains "*" path
  || Js.contains "|" path || Js.contains "<" path || Js.contains ">" path.

Definition alphabet : string :=
  "ABCDEFGHIJKLMNOPQRSTUVWXYZabcdefghijklmnopqrstuvwxyz0123456789+/".

Definition sextetChar (n : Z) : string :=
  match String.get (Z.to_nat n) alphabet with
  | Some c => String c EmptyString
  | None => ""
  end.

(** Base64 of a byte sequence, three bytes to four characters. *)
Fixpoint btoaBytes (bs : list Z) : string :=
  match bs with
  | a :: b :: c :: rest =>
      (sextetChar (a / 4)
       ++ sextetChar ((a mod 4) * 16 + b / 16)
       ++ sextetChar ((b mod 16) * 4 + c / 64)
       ++ sextetChar (c mod 64)
       ++ btoaBytes rest)%string
  | [a; b] =>
      (sextetChar (a / 4)
       ++ sextetChar ((a mod 4) * 16 + b / 16)
       ++ sextetChar ((b mod 16) * 4) ++ "=")%string
  | [a] =>
      (sextetChar (a / 4) ++ sextetChar ((a mod 4) * 16) ++ "==")%string
  | [] => ""
  end.

(** [reader.readAsDataURL(file)] that succeeds: ["data:" type ";base64,"]
    and the payload. *)
Definition readAsDataURL (file : File) : option string :=
  Some ("data:" ++ file_type file ++ ";base64," ++ btoaBytes (file_bytes file))%string.

Fixpoint indexIn (c : ascii) (s : string) (i : Z) : option Z :=
  match s with
  | EmptyString => None
  | String c' rest => if Ascii.eqb c c' then Some i else indexIn c rest (i + 1)
  end.

Fixpoint sextets (s : string) : option (list Z) :=
  match s with
  | EmptyString => Some []
  | String c rest =>
      v ← indexIn c alphabet 0;
      vs ← sextets rest;
      Some (v :: vs)
  end.

Definition byteChar (n : Z) : string :=
  String (ascii_of_nat (Z.to_nat (n mod 256))) EmptyString.

Fixpoint decodeSextets (vs : list Z) : string :=
  match vs with
  | a :: b :: c :: d :: rest =>
      (byteChar (a * 4 + b / 16)
       ++ byteChar ((b mod 16) * 16 + c / 4)
       ++ byteChar ((c mod 4) * 64 + d)
       ++ decodeSextets rest)%string
  | [a; b; c] =>
      (byteChar (a * 4 + b / 16) ++ byteChar ((b mod 16) * 16 + c / 4))%string
  | [a; b] => byteChar (a * 4 + b / 16)
  | _ => ""
  end.

Definition isAsciiWhitespace (c : ascii) : bool :=
  let n := nat_of_ascii c in
  (n =? 9)%nat || (n =? 10)%nat || (n =? 12)%nat || (n =? 13)%nat || (n =? 32)%nat.

Fixpoint removeWhitespace (s : string) : string :=
  match s with
  | EmptyString => EmptyString
  | String c rest =>
      if isAsciiWhitespace c then removeWhitespace rest
      else String c (removeWhitespace rest)
  end.

(** Drops one trailing ["="] if there is one. *)
Definition dropPad (s : string) : string :=
  match String.rev s with
  | String "=" rest => String.rev rest
  | _ => s
  end.

(** [window.atob], the forgiving-base64 decoder. *)
Definition atob (data : string) : option string :=
  let data := removeWhitespace data in
  let data :=
    if (String.length data mod 4 =? 0)%nat then dropPad (dropPad data)
    else data in
  if (String.length data mod 4 =? 1)%nat then None
  else decodeSextets <$> sextets data.

#[global] Instance obsidian : Obsidian := {
  normalizePath := SampleHost.normalizePath;
  adapterWriteFails := SampleHost.adapterWriteFails
}.

#[global] Instance browser : Browser := {
  readAsDataURL := SampleHost.readAsDataURL;
  atob := SampleHost.atob
}.

(** A compressor that gives the file back as it is, and that fails on a
    file without bytes, which it cannot decode. *)
#[global] Instance compressor : ImageCompression := {
  imageCompression := fun file _ _ =>
    match file_bytes file with
    | [] => None
    | _ => Some file
    end
}.

Definition emptyWorld : World :=
  mkWorld ∅ (mkEditor "" "" "") [] false [] [] [] [].

End SampleHost.

(** ** The design document's wording, where it is compared with the code *)

Module Spec.
Section WithPlatform.
Context `{!JsDate.TimeZone} `{!Dayjs} `{!Locale}.

(** "computeDailyNotePath composes the two above, always applying the
    boundary rule": both computations are asked to apply their rule, on the
    date object they share. *)
Definition computeDailyNotePath (now : Z) (rootDir : string)
    (boundaryHour : Z) (format : string) (timestamp : option JsDate.Date)
    : string * JsDate.Date :=
  let date := default (Utils.newDate now) timestamp in
  let '(noteName, date) :=
    Utils.getDailyNoteName now boundaryHour format (Some date) (Some true) in
  let '(monthDir, date) :=
    Utils.getMonthDirPath now rootDir boundaryHour (Some date) (Some true) in
  (monthDir ++ "/" ++ noteName ++ ".md", date)%string.

End WithPlatform.

(** The extension of a file name: what follows its last dot. *)
Definition extensionOf (name : string) : string :=
  match Js.split "." name with
  | (_ :: _ :: _) as segs => List.last segs ""
  | _ => ""
  end.

(** The file name with its extension, and the dot before it, taken off. *)
Definition withoutExtension (name : string) : string :=
  match Js.split "." name with
  | (_ :: _ :: _) as segs => String.concat "." (removelast segs)
  | _ => name
  end.

(** "{documentBaseName}-{originalBaseNameWithoutExtension}.{ext}". *)
Definition otherFileName (documentBaseName name : string) : string :=
  (documentBaseName ++ "-" ++ withoutExtension name ++ "." ++ extensionOf name)%string.

End Spec.

(** ** Predicates and sample data used by the statements *)

(** [date.setDate(date.getDate() - 1)], the call by which the two date
    functions move a date back. *)
Definition dayBefore `{!JsDate.TimeZone} (date : JsDate.Date) : JsDate.Date :=
  JsDate.setDate ((fun n => n - 1) <$> JsDate.getDate date) date.

(** For the time value [t]: the same local time one day earlier lies in
    the time range and is a local time of the zone, one that the zone gives
    back when it is read. *)
Definition hasDayBefore `{!JsDate.TimeZone} (t : Z) : Prop :=
  let earlier := JsDate.LocalTime t - JsDate.msPerDay in
  Z.abs (JsDate.UTC earlier) <= JsDate.maxTime
  /\ JsDate.LocalTime (JsDate.UTC earlier) = earlier.

(** The compression of [file] is asked for and fails: the file is an
    image, a size limit is set, and the compressor's promise is
    rejected. *)
Definition compressionFails `{!ImageCompression}
    (settings : BetterDailyNotesSettings) (file : File) : Prop :=
  Js.startsWith "image" (file_type file) = true
  /\ (maxImageSizeKB settings =? -1) = false
  /\ imageCompression file (maxImageSizeKB settings) (preserveExifData settings) = None.

(** What [limitImageFileSize] resolves to for [file]: the file itself
    without a size limit, the compressor's output with one, and [None]
    when the compressor's promise is rejected. *)
Definition limitedImage `{!ImageCompression}
    (settings : BetterDailyNotesSettings) (file : File) : option File :=
  if maxImageSizeKB settings =? -1 then Some file
  else imageCompression file (maxImageSizeKB settings) (preserveExifData settings).

(** Every read in flight belongs to a [handleSuccess] variable that has
    been declared.  It holds of the empty world and is kept by every
    operation of the module. *)
Definition readersDeclared (w : World) : Prop :=
  Forall (fun r => (rd_handleSuccess r < length (handleSuccess w))%nat) (readers w).

(** The world after [text] was inserted at the selection and [n] shown. *)
Definition insertedAndNotified (text : string) (n : Notice) (w : World) : World :=
  set_editor (replaceSelectionIn text (editor w))
             (set_notices (notices w ++ [n]) w).

(** The reference the module inserts for [filePath]. *)
Definition fileLinkOf (filePath : string) (resizeWidth : Z) : string :=
  ("![[" ++ filePath ++
   (if (resizeWidth =? -1)%Z then "" else "|" ++ Js.ofNumber resizeWidth) ++ "]]")%string.

(** The path [createAndInsertWithFileReader] looks up and writes: its
    [filePath] argument without one leading slash. *)
Definition storagePathOf (filePath : string) : string :=
  if decide (Js.charAt0 filePath = Some "/"%char)
  then Js.substring1 filePath else filePath.

(** The base64 payload of a reader result: what follows the first comma of
    the data URL, up to the next one. *)
Definition payloadOf (readerResult : option string) : option string :=
  result ← readerResult; Js.index (Js.split "," result) 1.

Definition failedToCreate (fileName : string) : Notice :=
  mkNotice ("Failed to create file " ++ dq ++ fileName ++ dq ++ ".")%string (Some 0).

Definition alreadyExists (path : string) : Notice :=
  mkNotice ("File " ++ dq ++ path ++ dq ++
            " already exists. Inserting link to the existed one.")%string None.

Definition base64IsEmpty (filePath : string) : Notice :=
  mkNotice ("Failed to create file " ++ dq ++ filePath ++ dq ++
            ", base64 is empty.")%string None.

(** The part of a file name before its first dot, and the part after its
    last dot; for a name without a dot both are the whole name. *)
Definition beforeFirstDot (name : string) : string :=
  FileHandling.template (Js.index (Js.split "." name) 0).

Definition afterLastDot (name : string) : string :=
  FileHandling.template (Js.index (Js.sliceFrom (-1) (Js.split "." name)) 0).

(** [viewParentPath] of [handleSingleFile]: the path of the folder of the
    note, empty for the root and for a note without a parent. *)
Definition viewParentPathOf (viewFile : TFile) : string :=
  let viewParentPath := default "" (tf_parent viewFile) in
  if String.eqb viewParentPath "/" then "" else viewParentPath.

(** Reads started so far: those in flight and those whose handler ran. *)
Definition readsStarted (w : World) : nat :=
  (length (readers w) + length (finished w))%nat.

(** What the loop of [handleFiles] keeps count of: [n] reads started and
    [m] variables declared so far, the event's default prevented, and the
    entries of the vault [v0] all there. *)
Definition counted (n m : nat) (v0 : gmap string Entry) (w : World) : Prop :=
  (readsStarted w = n /\ length (handleSuccess w) = m)
  /\ (defaultPrevented w = true /\ v0 ⊆ vault w).

(** [triple P m Q]: from a world in [P], [m] ends normally, with a value
    and a world in [Q]. *)
Definition triple {A} (P : World -> Prop) (m : M A) (Q : A -> World -> Prop) : Prop :=
  forall w, P w -> exists a w', m w = (Normal a, w') /\ Q a w'.

(** A property of worlds that survives a suspension: it does not depend on
    the schedule, and it is kept when a read in flight ends and its handler
    runs. *)
Definition stable `{!Obsidian} `{!Browser} (Q : World -> Prop) : Prop :=
  (forall w s, Q w -> Q (set_schedule s w))
  /\ (forall w i r, Q w -> readers w !! i = Some r ->
        Q (FileHandling.onloadend r (set_readers (delete i (readers w)) w))).

(** The variable [k] holds [true] and no read in flight can assign to it. *)
Definition untouched (k : nat) (w : World) : Prop :=
  Forall (fun r => (rd_handleSuccess r < k)%nat) (readers w)
  /\ handleSuccess w !! k = Some true.

Fixpoint hasChar (c : ascii) (s : string) : bool :=
  match s with
  | EmptyString => false
  | String c' rest => Ascii.eqb c c' || hasChar c rest
  end.

Module Sample.

(** The time value of [h]:[mi] UTC on the given day; [m] is the month
    index. *)
Definition at_ (y m d h mi : Z) : Z :=
  JsDate.MakeDate (JsDate.MakeDay y m d) (h * JsDate.msPerHour + mi * 60000).

(** [new Date(-8.64e15)], the first instant of the time range. *)
Definition firstInstant : JsDate.Date := JsDate.DateOf (Some (- JsDate.maxTime)).

(** 10:00 on 31 December 2011 in Apia, 20:00 UTC on 30 December. *)
Definition apiaNewYearsEve : Z := at_ 2011 11 30 20 0.

Definition settings : BetterDailyNotesSettings :=
  mkSettings "YYYY-MM-DD" "all notes" "images" "files" (-1) false (-1).

(** The same settings with images limited to 100 KB. *)
Definition limited : BetterDailyNotesSettings :=
  mkSettings "YYYY-MM-DD" "all notes" "images" "files" 100 false (-1).

Definition note : TFile :=
  mkTFile "notes/2024/Jan/2024-01-15.md" "2024-01-15" (Some "notes/2024/Jan").

Definition view : option MarkdownView := Some (mkView (Some note)).

Definition png : File := mkFile "image.png" "image/png" [137; 80; 78; 71].
Definition emptyPng : File := mkFile "blank.png" "image/png" [].
Definition pdf : File := mkFile "report.pdf" "application/pdf" [37; 80; 68; 70].
Definition pdfV2 : File := mkFile "report.v2.pdf" "application/pdf" [37; 80; 68; 70].
Definition emptyPdf : File := mkFile "report.pdf" "application/pdf" [].
Definition badName : File := mkFile "a:b.pdf" "application/pdf" [37; 80; 68; 70].
Definition txt : File := mkFile "todo.txt" "text/plain" [104; 105].

Definition drop (files : list File) : option DataTransfer :=
  Some (mkDataTransfer (Some files)).

(** A vault that already holds the attachment [report.pdf] of the note. *)
Definition withReport : World :=
  set_vault {[ "notes/2024/Jan/files/2024-01-15-report.pdf" := EFile [1; 2; 3] ]}
            SampleHost.emptyWorld.

End Sample.

(** * Properties *)

(** ** Strings *)

Module StringFacts.

Lemma append_nil (b : string) : ("" ++ b = b)%string.
Proof. reflexivity. Qed.

Lemma append_cons (ch : ascii) (a b : string) :
  (String ch a ++ b = String ch (a ++ b))%string.
Proof. reflexivity. Qed.

Lemma append_assoc (a b c : string) : ((a ++ b) ++ c = a ++ (b ++ c))%string.
Proof.
  induction a as [|ch a IH]; [reflexivity|].
  rewrite !append_cons. now rewrite IH.
Qed.

End StringFacts.

(** ** The [Date] model *)

Module DateFacts.
Import JsDate.

Lemma MonthFromTime_range t : 0 <= MonthFromTime t < 12.
Proof.
  unfold MonthFromTime.
  repeat match goal with |- context [if ?b then _ else _] => destruct b end; lia.
Qed.

Lemma HourFromTime_range t : 0 <= HourFromTime t < 24.
Proof. unfold HourFromTime, HoursPerDay. apply Z.mod_pos_bound. lia. Qed.

(** [YearFromTime] is the year the specification asks for: the year whose
    first day is the last one not after the day of [t]. *)
Lemma YearFromTime_spec t :
  DayFromYear (YearFromTime t) <= Day t < DayFromYear (YearFromTime t + 1).
Proof.
  unfold YearFromTime. generalize (Day t). intros d.
  destruct (Z.ltb_spec d (DayFromYear (1970 + 400 * d / 146097))) as [Hlo|Hlo].
  - unfold DayFromYear in *. Z.div_mod_to_equations. lia.
  - destruct (Z.leb_spec (DayFromYear (1970 + 400 * d / 146097 + 1)) d) as [Hhi|Hhi].
    + unfold DayFromYear in *. Z.div_mod_to_equations. lia.
    + lia.
Qed.

(** [MakeDay] on the year and month of [t] counts from the first day of the
    month of [t]. *)
Lemma MakeDay_of_fields t dt :
  MakeDay (YearFromTime t) (MonthFromTime t) dt = Day t - DateFromTime t + dt.
Proof.
  pose proof (MonthFromTime_range t) as Hm.
  unfold MakeDay, DateFromTime, DayWithinYear, InLeapYear.
  rewrite (Z.div_small (MonthFromTime t) 12) by lia.
  rewrite (Z.mod_small (MonthFromTime t) 12) by lia.
  rewrite Z.add_0_r. lia.
Qed.

(** The local time [setDate] computes for the day of month of [t] less
    one: the same time of day, one day earlier. *)
Lemma MakeDate_previous t :
  MakeDate (MakeDay (YearFromTime t) (MonthFromTime t) (DateFromTime t - 1))
           (TimeWithinDay t)
  = t - msPerDay.
Proof.
  rewrite MakeDay_of_fields. unfold MakeDate, Day, TimeWithinDay.
  pose proof (Z.div_mod t msPerDay ltac:(unfold msPerDay; lia)). lia.
Qed.

Lemma Day_previous t : Day (t - msPerDay) = Day t - 1.
Proof.
  unfold Day.
  replace (t - msPerDay) with (t + (-1) * msPerDay) by lia.
  rewrite Z.div_add by (unfold msPerDay; lia). lia.
Qed.

Section WithZone.
Context `{!TimeZone}.

(** The calendar date fixes the day number, so two objects on different
    days show different calendar dates. *)
Lemma calendarDate_dayNumber d y m dt :
  calendarDate d = Some (y, m, dt) -> dayNumber d = Some (MakeDay y m dt).
Proof.
  unfold calendarDate, dayNumber.
  destruct (localTimeOf d) as [t|]; [|discriminate]. cbn.
  intros [= <- <- <-]. rewrite MakeDay_of_fields. f_equal. lia.
Qed.

Lemma calendarDate_inj d1 d2 :
  is_Some (calendarDate d1) ->
  calendarDate d1 = calendarDate d2 -> dayNumber d1 = dayNumber d2.
Proof.
  intros [[[y m] dt] H1] Heq.
  rewrite (calendarDate_dayNumber d1 y m dt H1).
  rewrite Heq in H1. now rewrite (calendarDate_dayNumber d2 y m dt H1).
Qed.

(** [date.setDate(date.getDate() - 1)]: an invalid date stays invalid; a
    valid one gets the time value of the same local time one day earlier,
    if that is in the time range, and becomes invalid if not. *)
Lemma dayBefore_value d :
  dateValue (dayBefore d)
  = (u ← dateValue d; TimeClip (UTC (LocalTime u - msPerDay))).
Proof.
  unfold dayBefore, setDate, getDate. destruct d as [[u|]]; cbn; [|reflexivity].
  now rewrite MakeDate_previous.
Qed.

Lemma dayBefore_invalid : dayBefore (DateOf None) = DateOf None.
Proof. reflexivity. Qed.

Lemma dayBefore_valid d u :
  dateValue d = Some u -> hasDayBefore u ->
  dayBefore d = DateOf (Some (UTC (LocalTime u - msPerDay))).
Proof.
  intros Hd [Hrange _].
  pose proof (dayBefore_value d) as Hv. rewrite Hd in Hv. cbn in Hv.
  unfold TimeClip in Hv.
  destruct (Z.leb_spec (Z.abs (UTC (LocalTime u - msPerDay))) maxTime); [|lia].
  destruct (dayBefore d) as [v]. cbn in Hv. now rewrite Hv.
Qed.

Lemma dayBefore_localTime d u :
  dateValue d = Some u -> hasDayBefore u ->
  localTimeOf (dayBefore d) = Some (LocalTime u - msPerDay).
Proof.
  intros Hd Hu. rewrite (dayBefore_valid d u Hd Hu).
  destruct Hu as [_ Hback]. unfold localTimeOf. cbn. now rewrite Hback.
Qed.

Lemma dayBefore_dayNumber d u :
  dateValue d = Some u -> hasDayBefore u ->
  dayNumber (dayBefore d) = Some (Day (LocalTime u) - 1).
Proof.
  intros Hd Hu. unfold dayNumber. rewrite (dayBefore_localTime d u Hd Hu).
  cbn. now rewrite Day_previous.
Qed.

Lemma dayNumber_valid d u :
  dateValue d = Some u -> dayNumber d = Some (Day (LocalTime u)).
Proof. intros Hd. unfold dayNumber, localTimeOf. now rewrite Hd. Qed.

Lemma localTimeOf_valid d u :
  dateValue d = Some u -> localTimeOf d = Some (LocalTime u).
Proof. intros Hd. unfold localTimeOf. now rewrite Hd. Qed.

Lemma dayBefore_neq d u :
  dateValue d = Some u -> hasDayBefore u -> dayBefore d <> d.
Proof.
  intros Hd Hu Heq.
  pose proof (dayBefore_localTime d u Hd Hu) as Hl.
  rewrite Heq, (localTimeOf_valid d u Hd) in Hl.
  injection Hl. unfold msPerDay. lia.
Qed.

End WithZone.

(** Without an offset the day before exists for every time value from the
    second day of the time range on. *)
Lemma hasDayBefore_utc u :
  msPerDay - maxTime <= u <= maxTime -> hasDayBefore u.
Proof.
  intros Hu. unfold hasDayBefore, LocalTime, UTC; cbn.
  split; [unfold msPerDay, maxTime in *; lia | lia].
Qed.

(** The day before 1 March is 29 February in a leap year, and the day
    before 1 January is 31 December of the year before. *)
Example setDate_into_february :
  calendarDate (dayBefore (ofYMD 2024 2 1)) = Some (2024, 1, 29)
  /\ calendarDate (dayBefore (ofYMD 2023 2 1)) = Some (2023, 1, 28).
Proof. split; reflexivity. Qed.

Example setDate_into_last_year :
  calendarDate (dayBefore (ofYMD 2024 0 1)) = Some (2023, 11, 31).
Proof. reflexivity. Qed.

Example epoch_is_1970 :
  calendarDate (ofTimeValue 0) = Some (1970, 0, 1)
  /\ calendarDate (ofTimeValue (-1)) = Some (1969, 11, 31)
  /\ dateValue (ofYMD 2024 0 15) = Some 1705276800000.
Proof. repeat split; reflexivity. Qed.

(** The time range: its first instant is 20 April of the year -271821,
    and no date lies before it. *)
Example first_instant_has_no_day_before :
  calendarDate Sample.firstInstant = Some (-271821, 3, 20)
  /\ dayBefore Sample.firstInstant = DateOf None
  /\ ofTimeValue (- maxTime - 1) = DateOf None.
Proof. repeat split; reflexivity. Qed.

(** Apia skipped 30 December 2011.  At 10:00 on 31 December the local
    time one day earlier does not exist; read with the offset before the
    change it is the instant the date already holds, and the date is not
    moved. *)
Example dayBefore_over_skipped_day :
  let d := DateOf (Some Sample.apiaNewYearsEve) in
  @calendarDate apiaZone d = Some (2011, 11, 31)
  /\ @getHours apiaZone d = Some 10
  /\ @dayBefore apiaZone d = d
  /\ @calendarDate apiaZone (DateOf (Some (Sample.apiaNewYearsEve - msPerDay)))
     = Some (2011, 11, 29).
Proof. repeat split; reflexivity. Qed.

End DateFacts.

(** ** src/utils.ts *)

Module UtilsFacts.
Import JsDate Utils DateFacts.

Section WithPlatform.
Context `{!TimeZone} `{!Dayjs} `{!Locale}.

(** What [getDailyNoteName] computes, in one equation. *)
Lemma getDailyNoteName_eq now h fmt date flag :
  getDailyNoteName now h fmt date flag =
    let d0 := default (newDate now) date in
    let d1 := if (currentHour now <? h) && default false flag
              then dayBefore d0 else d0 in
    (dayjs_format fmt d1, d1).
Proof. reflexivity. Qed.

Lemma getMonthDirPath_eq now root h date flag :
  getMonthDirPath now root h date flag =
    let d0 := default (newDate now) date in
    let d1 := if (currentHour now + 1 <? h) && default false flag
              then dayBefore d0 else d0 in
    ((root ++ "/" ++ Js.ofNumberOrNaN (getFullYear d1) ++ "/"
      ++ toLocaleMonthShort d1)%string, d1).
Proof. reflexivity. Qed.

Lemma getDailyNotePath_eq now root h fmt date :
  getDailyNotePath now root h fmt date =
    let d0 := default (newDate now) date in
    let d1 := if currentHour now <? h then dayBefore d0 else d0 in
    ((root ++ "/" ++ Js.ofNumberOrNaN (getFullYear d1) ++ "/" ++ toLocaleMonthShort d1
      ++ "/" ++ dayjs_format fmt d1 ++ ".md")%string, d1).
Proof.
  unfold getDailyNotePath.
  rewrite getDailyNoteName_eq. cbn beta iota zeta. rewrite getMonthDirPath_eq.
  cbn beta iota zeta. cbn [default].
  rewrite andb_true_r, andb_false_r.
  rewrite !StringFacts.append_assoc. reflexivity.
Qed.

(** The date after a test of the boundary rule, when the day before
    exists: where it is in local time, and on which day. *)
Lemma moved_or_kept (fired : bool) (d0 : Date) (u : Z) :
  dateValue d0 = Some u -> hasDayBefore u ->
  let d1 := if fired then dayBefore d0 else d0 in
  localTimeOf d1 = Some (if fired then LocalTime u - msPerDay else LocalTime u)
  /\ dayNumber d1 = Some (if fired then Day (LocalTime u) - 1 else Day (LocalTime u))
  /\ (d1 = d0 <-> fired = false).
Proof.
  intros Hd Hu. destruct fired; cbv zeta.
  - split; [now apply dayBefore_localTime|]. split; [now apply dayBefore_dayNumber|].
    split; [|discriminate]. intros Heq. exfalso. now apply (dayBefore_neq d0 u).
  - split; [now apply localTimeOf_valid|]. split; [now apply dayNumber_valid|].
    split; reflexivity.
Qed.

(** The last test of [checkValidDailyNotePath] never fails: the function
    is the strict parse of the note name, whatever directories the path
    has. *)
Lemma checkValidDailyNotePath_eq notePath dateFormat :
  checkValidDailyNotePath notePath dateFormat =
    (lastSeg ← Js.index (Js.sliceFrom (-1) (Js.split "/" notePath)) 0;
     noteName ← Js.index (Js.split "." lastSeg) 0;
     if Js.truthyString noteName then dayjs_parse_strict noteName dateFormat
     else None).
Proof.
  unfold checkValidDailyNotePath.
  destruct (Js.index (Js.sliceFrom (-1) (Js.split "/" notePath)) 0) as [lastSeg|];
    [|reflexivity]; cbn [mbind option_bind].
  destruct (Js.index (Js.split "." lastSeg) 0) as [noteName|]; [|reflexivity].
  cbn [mbind option_bind].
  destruct (Js.truthyString noteName); cbn [negb]; [|reflexivity].
  destruct (dayjs_parse_strict noteName dateFormat); reflexivity.
Qed.



(** C3, as the code has it.  [getDailyNotePath] asks for the boundary rule
    in the note-name computation only; the month directory is computed
    with its rule off from the date object that [getDailyNoteName] left.
    So both parts are those of one date: the given one when the hour of the
    wall clock is not less than the boundary hour, and otherwise that date
    after [date.setDate(date.getDate() - 1)], which for a valid date that
    has a day before is the calendar day before it.  The path is
    monthDir + "/" + noteName + ".md". *)
Theorem getDailyNotePath_composition
    (now : Z) (root : string) (h : Z) (fmt : string) (date : option Date) :
  let d0 := default (newDate now) date in
  let named := getDailyNoteName now h fmt (Some d0) (Some true) in
  let dir := getMonthDirPath now root h (Some (snd named)) (Some false) in
  getDailyNotePath now root h fmt date =
    ((fst dir ++ "/" ++ fst named ++ ".md")%string, snd dir)
  /\ getMonthDirPath now root h (Some (snd named)) None = dir
  /\ snd dir = snd named
  /\ snd named = (if currentHour now <? h then dayBefore d0 else d0)
  /\ fst named = dayjs_format fmt (snd named)
  /\ fst dir = (root ++ "/" ++ Js.ofNumberOrNaN (getFullYear (snd named)) ++ "/"
                ++ toLocaleMonthShort (snd named))%string
  /\ forall u, dateValue d0 = Some u -> hasDayBefore u ->
       dayNumber (snd named)
       = Some (if currentHour now <? h then Day (LocalTime u) - 1
               else Day (LocalTime u)).
Proof.
  cbn zeta.
  rewrite getDailyNotePath_eq, getDailyNoteName_eq, !getMonthDirPath_eq.
  cbn zeta. cbn [fst snd default]. unfold id.
  rewrite andb_true_r, !andb_false_r.
  split; [rewrite !StringFacts.append_assoc; reflexivity|].
  repeat (split; [reflexivity|]).
  intros u Hd Hu.
  now destruct (moved_or_kept (currentHour now <? h) _ u Hd Hu) as (_ & Hn & _).
Qed.

End WithPlatform.

(** *** Runs with the executable dayjs fragment, in a zone without offset *)

Example parse_in_directory :
  checkValidDailyNotePath "notes/2024-01-15.md" "YYYY-MM-DD"
  = Some (ofYMD 2024 0 15).
Proof. reflexivity. Qed.

Example parse_rejects_impossible_day :
  checkValidDailyNotePath "notes/2024-02-30.md" "YYYY-MM-DD" = None.
Proof. reflexivity. Qed.

Example parse_rejects_other_name :
  checkValidDailyNotePath "notes/shopping.md" "YYYY-MM-DD" = None.
Proof. reflexivity. Qed.

(** C1, the code at the failing input.  For the path "2024-01-15.md", which
    has a single segment, and the format "YYYY-MM-DD" the claim expects no
    date.  The array [slice(-2, -1)] gives for it is empty, but an array is
    never falsy, so the month-directory test does not fire and the code
    returns the date 2024-01-15, as it does for "notes/2024-01-15.md". *)
Theorem checkValidDailyNotePath_single_segment :
  checkValidDailyNotePath "2024-01-15.md" "YYYY-MM-DD" = Some (ofYMD 2024 0 15)
  /\ calendarDate (ofYMD 2024 0 15) = Some (2024, 0, 15)
  /\ Js.slice (-2) (-1) (Js.split "/" "2024-01-15.md") = @nil string
  /\ checkValidDailyNotePath "notes/2024-01-15.md" "YYYY-MM-DD"
     = Some (ofYMD 2024 0 15).
Proof. repeat split; reflexivity. Qed.

(** At half past midnight on 2 March 2024, with boundary hour 5, the note
    is that of 1 March and lies in the directory of March. *)
Example path_after_midnight :
  fst (getDailyNotePath (Sample.at_ 2024 2 2 0 30) "notes" 5 "YYYY-MM-DD" None)
  = "notes/2024/Mar/2024-03-01.md".
Proof. reflexivity. Qed.

(** C3, counterexample.  At half past midnight on 2 March 2024, with
    boundary hour 5, [getDailyNotePath] differs from the composition that
    applies the boundary rule in both computations: that one moves the
    shared date a second time and names the directory of February. *)
Lemma getDailyNotePath_rule_not_on_both :
  getDailyNotePath (Sample.at_ 2024 2 2 0 30) "notes" 5 "YYYY-MM-DD" None
  <> Spec.computeDailyNotePath (Sample.at_ 2024 2 2 0 30) "notes" 5 "YYYY-MM-DD" None.
Proof. intros Heq. vm_compute in Heq. discriminate Heq. Qed.

Example rule_on_both_names_february :
  fst (Spec.computeDailyNotePath (Sample.at_ 2024 2 2 0 30) "notes" 5 "YYYY-MM-DD" None)
  = "notes/2024/Feb/2024-03-01.md".
Proof. reflexivity. Qed.

Lemma getDailyNotePath_composition_witness :
  let now := Sample.at_ 2024 2 2 0 30 in
  (dateValue (newDate now) = Some now /\ hasDayBefore now)
  /\ dayNumber (snd (getDailyNoteName now 5 "YYYY-MM-DD" (Some (newDate now)) (Some true)))
     = Some (Day now - 1)
  /\ calendarDate (snd (getDailyNotePath now "notes" 5 "YYYY-MM-DD" None))
     = Some (2024, 2, 1).
Proof.
  cbv zeta.
  assert (hasDayBefore (Sample.at_ 2024 2 2 0 30)) as Hu
    by (apply hasDayBefore_utc; vm_compute; split; discriminate).
  split; [split; [reflexivity | exact Hu]|].
  destruct (getDailyNotePath_composition (Sample.at_ 2024 2 2 0 30) "notes" 5
              "YYYY-MM-DD" None) as (Hpath & _ & Hdir & _ & _ & _ & Hday).
  split.
  - exact (Hday (Sample.at_ 2024 2 2 0 30) eq_refl Hu).
  - rewrite Hpath. reflexivity.
Defined.





(** In Apia at 10:00 on 31 December 2011, with boundary hour 12, the rule
    fires and the date is not moved: the day before was skipped.  This is
    why the statements above ask for a day before. *)
Example rule_fires_over_skipped_day :
  let now := Sample.apiaNewYearsEve in
  let run := @getDailyNoteName apiaZone (@dayjsYMD apiaZone) now 12 "YYYY-MM-DD"
               None (Some true) in
  @currentHour apiaZone now = 10
  /\ run = ("2011-12-31", newDate now).
Proof. cbv zeta. split; reflexivity. Qed.

End UtilsFacts.
(** ** The file-handling module *)

Module PipelineFacts.
Import FileHandling.

Section WithHost.
Context `{!Dayjs} `{!Obsidian} `{!Browser} `{!ImageCompression}.

Ltac unfoldM :=
  cbv beta iota delta [mbind M_bind bind mret M_ret ret throw tryCatch modify gets
    newNotice replaceSelection preventDefault getAbstractFileByPath].

(** *** The cases of [createAndInsertWithFileReader] *)

Lemma fileLink_eq p (rw : Z) :
  ("![[" ++ p ++ (if negb (rw =? -1)%Z then ("|" ++ Js.ofNumber rw) else "") ++ "]]")%string
  = fileLinkOf p rw.
Proof. unfold fileLinkOf. destruct (rw =? -1); reflexivity. Qed.

Lemma createAndInsert_empty rr p n flag rw w :
  Js.truthyOptString (payloadOf rr) = false ->
  createAndInsertWithFileReader rr p n flag rw w
  = (Normal false, set_notices (notices w ++ [base64IsEmpty p]) w).
Proof.
  intros Hp. unfold createAndInsertWithFileReader. fold (payloadOf rr).
  rewrite Hp. reflexivity.
Qed.

Lemma createAndInsert_exists rr p n rw w e :
  Js.truthyOptString (payloadOf rr) = true ->
  vault w !! storagePathOf p = Some e ->
  createAndInsertWithFileReader rr p n true rw w
  = (Normal true,
     insertedAndNotified (fileLinkOf p rw) (alreadyExists (storagePathOf p)) w).
Proof.
  intros Hp Hv. unfold createAndInsertWithFileReader. fold (payloadOf rr).
  rewrite Hp. cbn [negb]. cbv zeta. rewrite fileLink_eq. fold (storagePathOf p).
  unfoldM. rewrite Hv. reflexivity.
Qed.

Lemma createAndInsert_attempt rr p n flag rw w b64 bin :
  payloadOf rr = Some b64 -> Js.truthyString b64 = true ->
  bool_decide (is_Some (vault w !! storagePathOf p)) && flag = false ->
  atob b64 = Some bin ->
  createAndInsertWithFileReader rr p n flag rw w
  = match createBinary (storagePathOf p) (Utils.charCodes bin) w with
    | (Normal _, w') =>
        (Normal true, set_editor (replaceSelectionIn (fileLinkOf p rw) (editor w')) w')
    | (Throw, w') =>
        (Normal false, insertedAndNotified (fileLinkOf p rw) (failedToCreate n) w')
    end.
Proof.
  intros Hp Ht Hv Ha. unfold createAndInsertWithFileReader. fold (payloadOf rr).
  rewrite Hp. cbn [Js.truthyOptString default]. rewrite Ht. cbn [negb]. cbv zeta.
  rewrite fileLink_eq. fold (storagePathOf p).
  unfold base64ToArrayBuffer, id. rewrite Ha.
  unfoldM. rewrite Hv.
  destruct (createBinary (storagePathOf p) (Utils.charCodes bin) w) as [[[]|] w']; reflexivity.
Qed.

Lemma createBinary_control path data w :
  let w' := snd (createBinary path data w) in
  readers w' = readers w /\ handleSuccess w' = handleSuccess w
  /\ finished w' = finished w /\ schedule w' = schedule w
  /\ defaultPrevented w' = defaultPrevented w.
Proof.
  unfold createBinary. destruct (vault w !! path); [cbn; auto 6|].
  destruct (adapterWriteFails _ _ _); cbn; auto 6.
Qed.

Lemma createAndInsert_control rr p n flag rw w :
  let w' := snd (createAndInsertWithFileReader rr p n flag rw w) in
  readers w' = readers w /\ handleSuccess w' = handleSuccess w
  /\ finished w' = finished w /\ schedule w' = schedule w
  /\ defaultPrevented w' = defaultPrevented w.
Proof.
  unfold createAndInsertWithFileReader.
  destruct (negb _); [cbn; auto 6|]. cbv zeta.
  unfoldM.
  destruct (bool_decide _ && flag); [cbn; auto 6|].
  destruct (base64ToArrayBuffer _ w) as [[buf|] w1] eqn:Hb.
  - assert (w1 = w) as ->.
    { unfold base64ToArrayBuffer in Hb. destruct (atob _); cbv in Hb; congruence. }
    pose proof (createBinary_control
      (if decide (Js.charAt0 p = Some "/"%char) then Js.substring1 p else p) buf w) as Hc.
    destruct (createBinary _ buf w) as [[[]|] w2]; cbn in *; auto.
  - unfold base64ToArrayBuffer in Hb. destruct (atob _); cbv in Hb; [congruence|].
    injection Hb as <-. cbn. auto 6.
Qed.

Lemma onloadend_control r w :
  let w' := onloadend r w in
  readers w' = readers w
  /\ length (handleSuccess w') = length (handleSuccess w)
  /\ length (finished w') = S (length (finished w))
  /\ schedule w' = schedule w.
Proof.
  unfold onloadend.
  pose proof (createAndInsert_control (readAsDataURL (rd_file r)) (rd_filePath r)
                (file_name (rd_file r)) true (rd_resizeWidth r) w) as Hc.
  destruct (createAndInsertWithFileReader _ _ _ _ _ w) as [[b|] w1]; cbn in *;
    destruct Hc as (Hr & Hh & Hf & Hs & _);
    rewrite ?length_insert, ?length_app, Hf; cbn; rewrite ?Hh; repeat split; auto; lia.
Qed.

Lemma onloadend_other_variable r w k :
  rd_handleSuccess r <> k ->
  handleSuccess (onloadend r w) !! k = handleSuccess w !! k.
Proof.
  intros Hne. unfold onloadend.
  pose proof (createAndInsert_control (readAsDataURL (rd_file r)) (rd_filePath r)
                (file_name (rd_file r)) true (rd_resizeWidth r) w) as Hc.
  destruct (createAndInsertWithFileReader _ _ _ _ _ w) as [[b|] w1]; cbn in *;
    destruct Hc as (_ & Hh & _); rewrite Hh; [|reflexivity].
  now apply list_lookup_insert_ne.
Qed.

(** *** Rules for triples *)

Lemma triple_ret {A} (a : A) (Q : A -> World -> Prop) (P : World -> Prop) :
  (forall w, P w -> Q a w) -> triple P (mret a) Q.
Proof. intros HQ w Hw. exists a, w. split; [reflexivity | auto]. Qed.

Lemma triple_bind {A B} (P : World -> Prop) (m : M A) (Q : A -> World -> Prop)
    (k : A -> M B) (R : B -> World -> Prop) :
  triple P m Q -> (forall a, triple (Q a) (k a) R) -> triple P (m ≫= k) R.
Proof.
  intros Hm Hk w Hw. destruct (Hm w Hw) as (a & w1 & Hrun & Hq).
  destruct (Hk a w1 Hq) as (b & w2 & Hrun2 & Hr).
  exists b, w2. split; [|assumption].
  unfold mbind, M_bind, bind. now rewrite Hrun.
Qed.

Lemma triple_weaken {A} (P P' : World -> Prop) (m : M A) (Q Q' : A -> World -> Prop) :
  triple P' m Q' -> (forall w, P w -> P' w) -> (forall a w, Q' a w -> Q a w) ->
  triple P m Q.
Proof.
  intros Hm HP HQ w Hw. destruct (Hm w (HP w Hw)) as (a & w' & Hrun & Hq). eauto.
Qed.

Lemma triple_pure {A} (P : World -> Prop) (phi : Prop) (m : M A) (Q : A -> World -> Prop) :
  (phi -> triple P m Q) -> triple (fun w => P w /\ phi) m Q.
Proof. intros Hm w [Hw Hphi]. now apply Hm. Qed.

Lemma triple_pure_l {A} (P : World -> Prop) (phi : Prop) (m : M A) (Q : A -> World -> Prop) :
  (phi -> triple P m Q) -> triple (fun w => phi /\ P w) m Q.
Proof. intros Hm w [Hphi Hw]. now apply Hm. Qed.

Lemma triple_modify (f : World -> World) (P : World -> Prop) (Q : unit -> World -> Prop) :
  (forall w, P w -> Q tt (f w)) -> triple P (modify f) Q.
Proof. intros HQ w Hw. exists tt, (f w). split; [reflexivity | auto]. Qed.

Lemma triple_gets {A} (f : World -> A) (P : World -> Prop) (Q : A -> World -> Prop) :
  (forall w, P w -> Q (f w) w) -> triple P (gets f) Q.
Proof. intros HQ w Hw. exists (f w), w. split; [reflexivity | auto]. Qed.

(** *** Suspension points keep stable properties *)

Lemma completeRead_stable (Q : World -> Prop) w i :
  stable Q -> Q w -> Q (completeRead w i).
Proof.
  intros [_ Hfire] Hw. unfold completeRead.
  destruct (readers w !! i) as [r|] eqn:Hr; [eauto | assumption].
Qed.

Lemma triple_await (Q : World -> Prop) :
  stable Q -> triple Q await (fun _ => Q).
Proof.
  intros Hst w Hw. exists tt. unfold await.
  destruct (schedule w) as [|picks later]; [eauto|].
  eexists. split; [reflexivity|].
  assert (Q (set_schedule later w)) as Hw' by (destruct Hst as [Hs _]; auto).
  revert Hw'. generalize (set_schedule later w). clear w Hw.
  induction picks as [|i picks IH]; intros w Hw; cbn [foldl]; [assumption|].
  apply IH. now apply completeRead_stable.
Qed.

Lemma stable_and (Q1 Q2 : World -> Prop) :
  stable Q1 -> stable Q2 -> stable (fun w => Q1 w /\ Q2 w).
Proof.
  intros [Hs1 Hf1] [Hs2 Hf2]. split.
  - intros w s [? ?]; auto.
  - intros w i r [? ?] Hr; auto.
Qed.

Lemma stable_readsStarted n : stable (fun w => readsStarted w = n).
Proof.
  split; [intros w s Hw; exact Hw|].
  intros w i r Hw Hr. unfold readsStarted in *.
  destruct (onloadend_control r (set_readers (delete i (readers w)) w))
    as (Hrd & _ & Hfin & _).
  rewrite Hrd, Hfin. cbn.
  pose proof (length_delete (readers w) i (ex_intro _ r Hr)) as Hd.
  pose proof (lookup_lt_Some _ _ _ Hr). lia.
Qed.

Lemma stable_variables m : stable (fun w => length (handleSuccess w) = m).
Proof.
  split; [intros w s Hw; exact Hw|].
  intros w i r Hw Hr.
  destruct (onloadend_control r (set_readers (delete i (readers w)) w))
    as (_ & Hh & _). now rewrite Hh.
Qed.

Lemma stable_readersDeclared : stable readersDeclared.
Proof.
  split; [intros w s Hw; exact Hw|].
  intros w i r Hw Hr. unfold readersDeclared in *.
  destruct (onloadend_control r (set_readers (delete i (readers w)) w))
    as (Hrd & Hh & _).
  rewrite Hrd, Hh. cbn. now apply Forall_delete.
Qed.

Lemma stable_untouched k : stable (untouched k).
Proof.
  split; [intros w s Hw; exact Hw|].
  intros w i r [Hall Hk] Hr. unfold untouched.
  destruct (onloadend_control r (set_readers (delete i (readers w)) w))
    as (Hrd & _).
  rewrite Hrd. cbn. split; [now apply Forall_delete|].
  rewrite onloadend_other_variable; [exact Hk|].
  rewrite Forall_forall in Hall.
  assert (rd_handleSuccess r < k)%nat; [|lia].
  apply Hall. eapply list_elem_of_lookup_2. exact Hr.
Qed.

(** *** The image compressor *)

Lemma compressionFails_limitedImage settings file :
  compressionFails settings file
  <-> Js.startsWith "image" (file_type file) = true
      /\ limitedImage settings file = None.
Proof.
  unfold compressionFails, limitedImage. split.
  - intros (Hi & Hs & Hc). rewrite Hs. auto.
  - intros [Hi Hl]. destruct (maxImageSizeKB settings =? -1); [discriminate | auto].
Qed.

Lemma compressionFails_dec settings file :
  compressionFails settings file \/ ~ compressionFails settings file.
Proof.
  rewrite compressionFails_limitedImage.
  destruct (Js.startsWith "image" (file_type file));
    [|right; intros [? _]; discriminate].
  destruct (limitedImage settings file);
    [right; intros [_ ?]; discriminate | left; auto].
Qed.

(** [limitImageFileSize] when the compression is not asked for or
    succeeds, and when it fails. *)
Lemma limitImageFileSize_resolves (Q : World -> Prop) file size exif file' :
  stable Q -> (forall w n, Q w -> Q (set_notices n w)) ->
  (if size =? -1 then Some file else imageCompression file size exif) = Some file' ->
  triple Q (limitImageFileSize file size exif) (fun f w => Q w /\ f = file').
Proof.
  intros Hst Hn Hres. unfold limitImageFileSize.
  destruct (size =? -1).
  - injection Hres as <-. apply triple_ret; auto.
  - rewrite Hres.
    eapply triple_bind; [apply triple_modify with (Q := fun _ => Q); auto|].
    intros ?. cbv beta. eapply triple_bind; [apply triple_await; exact Hst|].
    intros ?. cbv beta. apply triple_ret; auto.
Qed.

Lemma limitImageFileSize_rejects (Q : World -> Prop) file size exif w :
  stable Q -> (forall w n, Q w -> Q (set_notices n w)) ->
  (size =? -1) = false -> imageCompression file size exif = None ->
  Q w ->
  exists w', limitImageFileSize file size exif w = (Throw, w') /\ Q w'.
Proof.
  intros Hst Hn Hsize Hnone Hw. unfold limitImageFileSize. rewrite Hsize, Hnone.
  unfoldM.
  match goal with
  | |- context [await ?w1] =>
      destruct (triple_await Q Hst w1) as ([] & w' & Hrun & Hw'); [auto|];
      rewrite Hrun
  end.
  eauto.
Qed.

(** *** A call of [handleSingleFile] *)

(** What a call of [handleSingleFile] for a note does when the compression
    does not fail, for an invariant [Q0] that holds up to the declaration
    of [handleSuccess] and an invariant [Q1] that holds from there on. *)
Lemma handleSingleFile_run (Q0 Q1 : World -> Prop) (m : nat)
    settings file viewFile :
  stable Q0 -> (forall w n, Q0 w -> Q0 (set_notices n w)) ->
  (forall w, Q0 w -> length (handleSuccess w) = m) ->
  (forall w, Q0 w -> Q1 (set_handleSuccess (handleSuccess w ++ [true]) w)) ->
  stable Q1 -> (forall w dir, Q1 w -> Q1 (snd (createDirsIfNotExists dir w))) ->
  ~ compressionFails settings file ->
  triple Q0 (handleSingleFile settings file (Some (mkView (Some viewFile))))
    (fun b w' => exists w1 file' path,
       Q1 w1
       /\ w' = set_readers
                 (readers w1 ++ [mkReader file' path (resizeWidth settings) m]) w1
       /\ b = default true (handleSuccess w1 !! m)
       /\ (Js.startsWith "image" (file_type file) = false ->
           file' = file
           /\ path = normalizePath
                (normalizePath (viewParentPathOf viewFile ++ "/" ++ otherFilesSubDir settings)
                 ++ "/" ++ (tf_basename viewFile ++ "-" ++ beforeFirstDot (file_name file))
                 ++ "" ++ "." ++ afterLastDot (file_name file))%string)
       /\ (Js.startsWith "image" (file_type file) = true ->
           exists wc,
             Q0 wc
             /\ limitedImage settings file = Some file'
             /\ path = normalizePath
                  (normalizePath (viewParentPathOf viewFile ++ "/" ++ imageSubDir settings)
                   ++ "/" ++ (tf_basename viewFile ++ "-image")
                   ++ (if (countFilesWithSamePrefix (vault wc) "" (tf_basename viewFile) =? 0)%Z
                       then ""
                       else "-" ++ Js.ofNumber
                              (countFilesWithSamePrefix (vault wc) "" (tf_basename viewFile)))
                   ++ "." ++ afterLastDot (file_name file'))%string)).
Proof.
  intros Hst0 Hn0 Hlen Hdecl Hst1 Hv1 Hok.
  unfold handleSingleFile. cbn [mbind option_bind view_file]. cbv zeta.
  fold (viewParentPathOf viewFile).
  eapply triple_bind with
    (Q := fun x w =>
       Q0 w
       /\ ((Js.startsWith "image" (file_type file) = false ->
            x = (file,
                 (viewParentPathOf viewFile ++ "/" ++ otherFilesSubDir settings)%string,
                 (tf_basename viewFile ++ "-" ++ beforeFirstDot (file_name file))%string,
                 ""))
           /\ (Js.startsWith "image" (file_type file) = true ->
               exists wc file',
                 Q0 wc /\ limitedImage settings file = Some file'
                 /\ x = (file',
                         (viewParentPathOf viewFile ++ "/" ++ imageSubDir settings)%string,
                         (tf_basename viewFile ++ "-image")%string,
                         (if (countFilesWithSamePrefix (vault wc) "" (tf_basename viewFile) =? 0)%Z
                          then ""
                          else "-" ++ Js.ofNumber
                                 (countFilesWithSamePrefix (vault wc) ""
                                    (tf_basename viewFile)))%string)))).
  - destruct (Js.startsWith "image" (file_type file)) eqn:Himage.
    + destruct (limitedImage settings file) as [file'|] eqn:Hlim.
      2:{ exfalso. apply Hok. apply compressionFails_limitedImage. auto. }
      eapply triple_bind; [apply (limitImageFileSize_resolves Q0 _ _ _ file'); eassumption|].
      intros f. cbv beta. apply triple_pure. intros ->.
      eapply triple_bind; [apply triple_await; exact Hst0|].
      intros ?. cbv beta.
      intros w Hw. eexists _, _. split; [reflexivity|]. split; [exact Hw|].
      split; [discriminate|]. intros _. exists w, file'. auto.
    + apply triple_ret. intros w Hw. split; [exact Hw|].
      split; [reflexivity | discriminate].
  - intros [[[file' dir] prefix] suffix]. cbv beta iota zeta.
    apply triple_pure. intros [Hother Himage].
    eapply triple_bind with (Q := fun cell w => cell = m /\ Q1 w).
    { intros w Hw. eexists _, _. split; [reflexivity|]. cbn beta. auto. }
    intros cell. apply triple_pure_l. intros ->.
    eapply triple_bind with (Q := fun _ => Q1).
    { apply triple_modify. intros w Hw. apply (Hv1 w _ Hw). }
    intros ?. cbv beta.
    eapply triple_bind; [apply triple_await; exact Hst1|].
    intros ?. cbv beta.
    intros w1 Hw1. eexists _, _. split; [reflexivity|].
    exists w1, file'. eexists. split; [exact Hw1|]. split; [reflexivity|].
    split; [reflexivity|]. split.
    + intros Hni. specialize (Hother Hni). injection Hother as -> -> -> ->.
      split; reflexivity.
    + intros Hi. destruct (Himage Hi) as (wc & f & Hwc & Hlim & Heq).
      injection Heq as -> -> -> ->. exists wc. auto.
Qed.

(** When the compression fails the call throws: nothing is declared, no
    directory is created and no read is started. *)
Lemma handleSingleFile_rejects (Q : World -> Prop) settings file viewFile w :
  stable Q -> (forall w n, Q w -> Q (set_notices n w)) ->
  compressionFails settings file ->
  Q w ->
  exists w',
    handleSingleFile settings file (Some (mkView (Some viewFile))) w = (Throw, w')
    /\ Q w'.
Proof.
  intros Hst Hn (Himage & Hsize & Hnone) Hw.
  destruct (limitImageFileSize_rejects Q file (maxImageSizeKB settings)
              (preserveExifData settings) w Hst Hn Hsize Hnone Hw)
    as (w' & Hrun & Hw').
  exists w'. split; [|exact Hw'].
  unfold handleSingleFile. cbn [mbind option_bind view_file]. cbv zeta.
  rewrite Himage. unfold mbind, M_bind, bind. now rewrite Hrun.
Qed.

(** *** Counting reads *)

(** A call of [handleSingleFile] for a note whose compression does not
    fail starts exactly one read and declares exactly one variable,
    whatever happens at its suspension points. *)
Lemma handleSingleFile_starts_one_read settings file viewFile n m :
  ~ compressionFails settings file ->
  triple (fun w => readsStarted w = n /\ length (handleSuccess w) = m)
    (handleSingleFile settings file (Some (mkView (Some viewFile))))
    (fun _ w' => readsStarted w' = S n /\ length (handleSuccess w') = S m).
Proof.
  intros Hok. eapply triple_weaken.
  - apply (handleSingleFile_run
             (fun w => readsStarted w = n /\ length (handleSuccess w) = m)
             (fun w => readsStarted w = n /\ length (handleSuccess w) = S m) m).
    + apply stable_and; [apply stable_readsStarted | apply stable_variables].
    + intros w ns Hw. exact Hw.
    + intros w [_ Hm]. exact Hm.
    + intros w [Hn Hm]. split; [exact Hn|]. cbn. rewrite length_app, Hm. cbn. lia.
    + apply stable_and; [apply stable_readsStarted | apply stable_variables].
    + intros w dir Hw. exact Hw.
    + exact Hok.
  - auto.
  - intros b w' (w1 & file' & path & [Hn Hm] & -> & _).
    unfold readsStarted in *. cbn. rewrite length_app. cbn. split; lia.
Qed.

Lemma handleEach_starts_all settings viewFile files : forall n m,
  Forall (fun file => ~ compressionFails settings file) files ->
  triple (fun w => readsStarted w = n /\ length (handleSuccess w) = m)
    (handleEach settings (Some (mkView (Some viewFile))) files)
    (fun _ w' => readsStarted w' = (n + length files)%nat
                 /\ length (handleSuccess w') = (m + length files)%nat).
Proof.
  induction files as [|file rest IH]; intros n m Hok; cbn [handleEach length].
  - apply triple_ret. intros w [Hn Hm]. split; lia.
  - apply Forall_cons in Hok as [Hfile Hrest].
    eapply triple_bind; [apply handleSingleFile_starts_one_read; exact Hfile|].
    intros ?. cbv beta.
    eapply triple_bind.
    { apply triple_await.
      apply stable_and; [apply stable_readsStarted | apply stable_variables]. }
    intros ?. cbv beta.
    eapply triple_weaken; [apply (IH (S n) (S m) Hrest) | auto |].
    intros ? w [Hn Hm]. split; lia.
Qed.

(** Once the event handler has returned, every read still in flight ends:
    none is left, and every read ever started has had its handler run. *)
Lemma settle_all w :
  readers (settle w) = []
  /\ length (finished (settle w)) = readsStarted w
  /\ length (handleSuccess (settle w)) = length (handleSuccess w).
Proof.
  unfold settle, readsStarted.
  assert (forall rs w0, readers w0 = [] ->
            readers (foldl (fun w' r => onloadend r w') w0 rs) = []
            /\ length (finished (foldl (fun w' r => onloadend r w') w0 rs))
               = (length rs + length (finished w0))%nat
            /\ length (handleSuccess (foldl (fun w' r => onloadend r w') w0 rs))
               = length (handleSuccess w0)) as Hgen.
  { induction rs as [|r rs IH]; intros w0 Hw0; cbn [foldl length]; [auto|].
    destruct (onloadend_control r w0) as (Hrd & Hh & Hf & _).
    destruct (IH (onloadend r w0)) as (IH1 & IH2 & IH3); [congruence|].
    rewrite IH1, IH2, IH3, Hf, Hh. repeat split; lia. }
  apply (Hgen (readers w) (set_readers [] w)). reflexivity.
Qed.

(** *** The gate and the type filter *)

Lemma find_unsupported files f :
  f ∈ files -> supportedType f = false ->
  exists f', find (fun file => negb (supportedType file)) files = Some f'.
Proof.
  intros Hin Hf.
  destruct (find (fun file => negb (supportedType file)) files) as [f'|] eqn:Hfind;
    [eauto|].
  apply list_elem_of_In in Hin.
  pose proof (find_none _ _ Hfind f Hin) as Hn. cbn in Hn.
  rewrite Hf in Hn. discriminate.
Qed.

Lemma supportedType_false f :
  Js.startsWith "image" (file_type f) = false ->
  file_type f <> "application/zip" -> file_type f <> "application/pdf" ->
  supportedType f = false.
Proof.
  intros Hi Hz Hp. unfold supportedType. rewrite Hi. cbn [orb].
  apply String.eqb_neq in Hz, Hp. now rewrite Hz, Hp.
Qed.

(** *** Splitting a file name at its dots *)

Lemma split_without_separator c s :
  hasChar c s = false -> Js.split c s = [s].
Proof.
  induction s as [|ch s IH]; cbn [hasChar Js.split]; [reflexivity|].
  intros Hno. apply orb_false_elim in Hno as [Hch Hs].
  rewrite Ascii.eqb_sym in Hch. rewrite Hch, (IH Hs). reflexivity.
Qed.

Lemma split_at_first_separator c a b :
  hasChar c a = false ->
  Js.split c (a ++ String c b)%string = a :: Js.split c b.
Proof.
  induction a as [|ch a IH]; intros Hno.
  - rewrite StringFacts.append_nil. cbn [Js.split]. now rewrite Ascii.eqb_refl.
  - cbn [hasChar] in Hno. apply orb_false_elim in Hno as [Hch Ha].
    rewrite StringFacts.append_cons. cbn [Js.split].
    rewrite Ascii.eqb_sym in Hch. rewrite Hch, (IH Ha). reflexivity.
Qed.

Lemma split_stem_ext stem ext :
  hasChar "." stem = false -> hasChar "." ext = false ->
  Js.split "." (stem ++ "." ++ ext)%string = [stem; ext].
Proof.
  intros Hs He.
  change ("." ++ ext)%string with (String "."%char ext).
  rewrite split_at_first_separator by exact Hs.
  now rewrite split_without_separator.
Qed.

(** For a name with exactly one dot the code's two parts are the name
    without its extension and the extension. *)
Lemma one_dot_name stem ext :
  hasChar "." stem = false -> hasChar "." ext = false ->
  let name := (stem ++ "." ++ ext)%string in
  beforeFirstDot name = stem /\ afterLastDot name = ext
  /\ Spec.withoutExtension name = stem /\ Spec.extensionOf name = ext.
Proof.
  intros Hs He. cbv zeta.
  unfold beforeFirstDot, afterLastDot, Spec.withoutExtension, Spec.extensionOf.
  rewrite split_stem_ext by assumption. repeat split; reflexivity.
Qed.

(** *** The claims about the handlers *)

Lemma createBinary_throw_keeps_world path data w :
  fst (createBinary path data w) = Throw -> snd (createBinary path data w) = w.
Proof.
  unfold createBinary. destruct (vault w !! path); [reflexivity|].
  destruct (adapterWriteFails _ _ _); [reflexivity | discriminate].
Qed.

(** What the handler of a read does when the storage write of its file
    fails ([createBinary] throws): it inserts the reference at the
    selection, shows the failure notice with duration 0, and ends normally
    with the value false, which it assigns to [handleSuccess]; the vault is
    as before.  Nothing is thrown into the batch: the files that remain are
    handled, each starts its read, unless the compression of one of them
    fails. *)
Lemma write_failure_in_handler
    (r : Reader) (w : World) (b64 bin : string)
    (settings : BetterDailyNotesSettings) (viewFile : TFile) (rest : list File) :
  payloadOf (readAsDataURL (rd_file r)) = Some b64 ->
  Js.truthyString b64 = true ->
  vault w !! storagePathOf (rd_filePath r) = None ->
  atob b64 = Some bin ->
  fst (createBinary (storagePathOf (rd_filePath r)) (Utils.charCodes bin) w) = Throw ->
  let link := fileLinkOf (rd_filePath r) (rd_resizeWidth r) in
  let notice := failedToCreate (file_name (rd_file r)) in
  let failed := insertedAndNotified link notice w in
  createAndInsertWithFileReader (readAsDataURL (rd_file r)) (rd_filePath r)
      (file_name (rd_file r)) true (rd_resizeWidth r) w
    = (Normal false, failed)
  /\ editor failed = replaceSelectionIn link (editor w)
  /\ notices failed = (notices w ++ [notice])%list
  /\ notice_duration notice = Some 0
  /\ vault failed = vault w
  /\ onloadend r w
     = set_finished (finished w ++ [(rd_handleSuccess r, Some false)])%list
         (set_handleSuccess (<[rd_handleSuccess r := false]> (handleSuccess w)) failed)
  /\ (Forall (fun file => ~ compressionFails settings file) rest ->
      exists w',
        handleEach settings (Some (mkView (Some viewFile))) rest (onloadend r w)
          = (Normal tt, w')
        /\ readers (settle w') = []
        /\ length (finished (settle w'))
           = (readsStarted (onloadend r w) + length rest)%nat).
Proof.
  intros Hp Ht Hv Ha Hthrow. cbv zeta.
  assert (createAndInsertWithFileReader (readAsDataURL (rd_file r)) (rd_filePath r)
            (file_name (rd_file r)) true (rd_resizeWidth r) w
          = (Normal false,
             insertedAndNotified (fileLinkOf (rd_filePath r) (rd_resizeWidth r))
               (failedToCreate (file_name (rd_file r))) w)) as Hrun.
  { rewrite (createAndInsert_attempt _ _ _ _ _ _ b64 bin Hp Ht) by
      (try assumption; rewrite Hv; reflexivity).
    pose proof (createBinary_throw_keeps_world _ _ _ Hthrow) as Hsame.
    destruct (createBinary _ _ w) as [[[]|] w1]; cbn in *; [discriminate|].
    now subst w1. }
  split; [exact Hrun|].
  repeat (split; [reflexivity|]).
  split; [unfold onloadend; rewrite Hrun; reflexivity|].
  intros Hrest.
  destruct (handleEach_starts_all settings viewFile rest
              (readsStarted (onloadend r w)) (length (handleSuccess (onloadend r w)))
              Hrest (onloadend r w) (conj eq_refl eq_refl))
    as ([] & w' & Hloop & Hn & _).
  exists w'. split; [exact Hloop|].
  destruct (settle_all w') as (Hrd & Hfin & _).
  split; [exact Hrd|]. now rewrite Hfin.
Qed.

(** C6.  If some file of the batch has a MIME type that does not start
    with "image" and is neither "application/zip" nor "application/pdf",
    [handleFiles] returns before it handles any file: the vault is as
    before (no file is written), the editor is as before (no reference is
    inserted), no read is started and no [handleSuccess] variable is
    declared, and the event's default is not prevented, also for the files
    of the batch that have an allowed type. *)
Theorem handleFiles_rejects_whole_batch
    (dataTransfer : option DataTransfer) (settings : BetterDailyNotesSettings)
    (markdownView : option MarkdownView) (files : list File) (f : File) (w : World) :
  dataTransfer ≫= dt_files = Some files ->
  f ∈ files ->
  Js.startsWith "image" (file_type f) = false ->
  file_type f <> "application/zip" ->
  file_type f <> "application/pdf" ->
  exists w',
    handleFiles dataTransfer settings markdownView w = (Normal tt, w')
    /\ vault w' = vault w
    /\ editor w' = editor w
    /\ readers w' = readers w
    /\ handleSuccess w' = handleSuccess w
    /\ finished w' = finished w
    /\ schedule w' = schedule w
    /\ defaultPrevented w' = defaultPrevented w.
Proof.
  intros Hfiles Hin Hi Hz Hp.
  destruct (find_unsupported files f Hin (supportedType_false f Hi Hz Hp)) as [f' Hfind].
  unfold handleFiles. rewrite Hfiles.
  destruct (negb (shouldHandleAccordingToConfig settings markdownView));
    [exists w; repeat split; reflexivity|].
  destruct (length files =? 0)%nat; [exists w; repeat split; reflexivity|].
  rewrite Hfind. eexists. split; [reflexivity|]. repeat split; reflexivity.
Qed.

Lemma fileName_assoc base first ext :
  ((base ++ "-" ++ first) ++ "" ++ "." ++ ext = base ++ "-" ++ first ++ "." ++ ext)%string.
Proof. rewrite !StringFacts.append_assoc. reflexivity. Qed.

(** The name [handleSingleFile] gives a file whose type is not an image
    type: the note's base name, "-", the part of the file's name before its
    first dot, ".", and the part after its last dot, in the folder for
    other files.  It does not depend on the vault, so no collision suffix
    is ever added.  For a file name with exactly one dot this is
    {documentBaseName}-{name without extension}.{extension}. *)
Lemma otherFile_stored_as
    (settings : BetterDailyNotesSettings) (file : File) (viewFile : TFile) (w : World) :
  Js.startsWith "image" (file_type file) = false ->
  let fileName :=
    (tf_basename viewFile ++ "-" ++ beforeFirstDot (file_name file)
     ++ "." ++ afterLastDot (file_name file))%string in
  let dir :=
    normalizePath (viewParentPathOf viewFile ++ "/" ++ otherFilesSubDir settings)%string in
  (exists b w',
     handleSingleFile settings file (Some (mkView (Some viewFile))) w = (Normal b, w')
     /\ last (readers w')
        = Some (mkReader file (normalizePath (dir ++ "/" ++ fileName)%string)
                         (resizeWidth settings) (length (handleSuccess w))))
  /\ (forall stem ext,
        file_name file = (stem ++ "." ++ ext)%string ->
        hasChar "." stem = false -> hasChar "." ext = false ->
        fileName = (tf_basename viewFile ++ "-" ++ stem ++ "." ++ ext)%string
        /\ fileName = Spec.otherFileName (tf_basename viewFile) (file_name file)).
Proof.
  intros Hni. cbv zeta. split.
  - destruct (handleSingleFile_run
                (fun w0 => length (handleSuccess w0) = length (handleSuccess w))
                (fun w0 => length (handleSuccess w0) = S (length (handleSuccess w)))
                (length (handleSuccess w)) settings file viewFile) with (w := w)
      as (b & w' & Hrun & w1 & file' & path & _ & -> & _ & Hother & _).
    + apply stable_variables.
    + intros w0 ns Hw0. exact Hw0.
    + auto.
    + intros w0 Hw0. cbn. rewrite length_app, Hw0. cbn. lia.
    + apply stable_variables.
    + intros w0 dir Hw0. exact Hw0.
    + intros (Hi & _). congruence.
    + reflexivity.
    + destruct (Hother Hni) as [-> ->].
      exists b. eexists. split; [exact Hrun|]. cbn [readers set_readers].
      rewrite last_snoc, fileName_assoc. reflexivity.
  - intros stem ext Hname Hs He.
    destruct (one_dot_name stem ext Hs He) as (Hb & Ha & Hw & Hx).
    unfold Spec.otherFileName. rewrite Hname, Hb, Ha, Hw, Hx. split; reflexivity.
Qed.

(** C8, as the code has it.  For a file that was read back with a
    non-empty payload and whose target path already has a storage entry,
    the handler writes nothing (the vault, and so the entry, is as before),
    inserts the reference, shows a notice and returns true. *)
Theorem existing_target_is_reused
    (readerResult : option string) (filePath fileName : string) (resizeWidth : Z)
    (w : World) (e : Entry) :
  Js.truthyOptString (payloadOf readerResult) = true ->
  vault w !! storagePathOf filePath = Some e ->
  exists w',
    createAndInsertWithFileReader readerResult filePath fileName true resizeWidth w
      = (Normal true, w')
    /\ vault w' = vault w
    /\ vault w' !! storagePathOf filePath = Some e
    /\ editor w' = replaceSelectionIn (fileLinkOf filePath resizeWidth) (editor w)
    /\ notices w' = (notices w ++ [alreadyExists (storagePathOf filePath)])%list.
Proof.
  intros Hp Hv. eexists. split; [apply (createAndInsert_exists _ _ _ _ _ e Hp Hv)|].
  repeat split; [exact Hv].
Qed.

(** C9, amended.  For a view that is backed by a file, [handleSingleFile]
    returns true whenever it returns, with every host: whether the payload
    will decode and whether the write will succeed plays no part.  The
    variable [handleSuccess] is set to true when it is declared, and the
    only assignment to it is in the [onloadend] handler of the read that
    the call starts last; when the call returns that read is still in
    flight and the variable still holds true.  The call does not return
    but throws exactly when the compression of the file fails: the file is
    an image, a size limit is set, and the compressor's promise is
    rejected.  Then no variable has been declared and no read started. *)
Theorem handleSingleFile_returns_true
    (settings : BetterDailyNotesSettings) (file : File) (viewFile : TFile) (w : World) :
  readersDeclared w ->
  let call := handleSingleFile settings file (Some (mkView (Some viewFile))) w in
  (~ compressionFails settings file ->
     exists w' r,
       call = (Normal true, w')
       /\ last (readers w') = Some r
       /\ rd_handleSuccess r = length (handleSuccess w)
       /\ handleSuccess w' !! rd_handleSuccess r = Some true
       /\ readersDeclared w')
  /\ (compressionFails settings file ->
        exists w',
          call = (Throw, w')
          /\ readsStarted w' = readsStarted w
          /\ length (handleSuccess w') = length (handleSuccess w)
          /\ readersDeclared w')
  /\ (forall b w', call = (Normal b, w') -> b = true)
  /\ (fst call = Throw <-> compressionFails settings file).
Proof.
  intros Hdecl. cbv zeta.
  assert (~ compressionFails settings file ->
     exists w' r,
       handleSingleFile settings file (Some (mkView (Some viewFile))) w = (Normal true, w')
       /\ last (readers w') = Some r
       /\ rd_handleSuccess r = length (handleSuccess w)
       /\ handleSuccess w' !! rd_handleSuccess r = Some true
       /\ readersDeclared w') as Hreturns.
  { intros Hok.
    destruct (handleSingleFile_run
                (fun w0 => readersDeclared w0
                           /\ length (handleSuccess w0) = length (handleSuccess w))
                (fun w0 => untouched (length (handleSuccess w)) w0
                           /\ length (handleSuccess w0) = S (length (handleSuccess w)))
                (length (handleSuccess w)) settings file viewFile) with (w := w)
      as (b & w' & Hrun & w1 & file' & path & [[Hall Hk] Hlen] & -> & -> & _).
    - apply stable_and; [apply stable_readersDeclared | apply stable_variables].
    - intros w0 ns Hw0. exact Hw0.
    - intros w0 [_ Hm]. exact Hm.
    - intros w0 [Hd Hm]. split; [split|].
      + unfold readersDeclared in Hd. rewrite Hm in Hd. exact Hd.
      + cbn. rewrite <- Hm. apply list_lookup_middle. reflexivity.
      + cbn. rewrite length_app, Hm. cbn. lia.
    - apply stable_and; [apply stable_untouched | apply stable_variables].
    - intros w0 dir Hw0. exact Hw0.
    - exact Hok.
    - split; [exact Hdecl | reflexivity].
    - rewrite Hk in Hrun. cbn [default] in Hrun.
      eexists _, _. split; [exact Hrun|]. cbn [readers set_readers handleSuccess].
      rewrite last_snoc. cbn [rd_handleSuccess].
      split; [reflexivity|]. split; [reflexivity|]. split; [exact Hk|].
      unfold readersDeclared. cbn [readers set_readers handleSuccess].
      rewrite Hlen. apply Forall_app. split.
      + eapply Forall_impl; [exact Hall|]. cbn. intros; lia.
      + apply Forall_singleton. cbn. lia. }
  assert (compressionFails settings file ->
     exists w',
       handleSingleFile settings file (Some (mkView (Some viewFile))) w = (Throw, w')
       /\ readsStarted w' = readsStarted w
       /\ length (handleSuccess w') = length (handleSuccess w)
       /\ readersDeclared w') as Hthrows.
  { intros Hfails.
    destruct (handleSingleFile_rejects
                (fun w0 => (readsStarted w0 = readsStarted w
                            /\ length (handleSuccess w0) = length (handleSuccess w))
                           /\ readersDeclared w0)
                settings file viewFile w) as (w' & Hrun & [[Hn Hm] Hd]).
    - apply stable_and; [apply stable_and|];
        [apply stable_readsStarted | apply stable_variables | apply stable_readersDeclared].
    - intros w0 ns Hw0. exact Hw0.
    - exact Hfails.
    - auto.
    - exists w'. auto. }
  split; [exact Hreturns|]. split; [exact Hthrows|]. split.
  - intros b w' Hcall.
    destruct (compressionFails_dec settings file) as [Hfails|Hok].
    + destruct (Hthrows Hfails) as (w1 & Hrun & _). congruence.
    + destruct (Hreturns Hok) as (w1 & r & Hrun & _). congruence.
  - split.
    + intros Hthrow. destruct (compressionFails_dec settings file) as [Hfails|Hok];
        [exact Hfails|].
      destruct (Hreturns Hok) as (w1 & r & Hrun & _). rewrite Hrun in Hthrow.
      discriminate.
    + intros Hfails. destruct (Hthrows Hfails) as (w1 & Hrun & _). now rewrite Hrun.
Qed.

Lemma cons_neq (c : ascii) (s : string) : String c s <> s.
Proof.
  intros Heq. apply (f_equal String.length) in Heq. cbn in Heq. lia.
Qed.

(** C10.  For a [filePath] that begins with "/", the reference is built
    from the path as given, slash included, while the lookup and the write
    use the path without that slash.  So when the file is found the
    reference inserted is ![[/...]] although the entry found is at the
    path without the slash, and when the file is created it is created at
    the path without the slash although the reference names the path with
    it; the two paths differ. *)
Theorem link_keeps_leading_slash
    (readerResult : option string) (rest fileName : string) (resizeWidth : Z)
    (w : World) (b64 : string) :
  payloadOf readerResult = Some b64 ->
  Js.truthyString b64 = true ->
  let filePath := String "/" rest in
  let link := fileLinkOf filePath resizeWidth in
  storagePathOf filePath = rest
  /\ filePath <> rest
  /\ link = ("![[/" ++ rest
             ++ (if (resizeWidth =? -1)%Z then "" else "|" ++ Js.ofNumber resizeWidth)
             ++ "]]")%string
  /\ (forall e, vault w !! rest = Some e ->
        createAndInsertWithFileReader readerResult filePath fileName true resizeWidth w
        = (Normal true, insertedAndNotified link (alreadyExists rest) w))
  /\ (forall flag bin,
        vault w !! rest = None ->
        atob b64 = Some bin ->
        adapterWriteFails (vault w) rest (Utils.charCodes bin) = false ->
        createAndInsertWithFileReader readerResult filePath fileName flag resizeWidth w
        = (Normal true,
           set_editor (replaceSelectionIn link (editor w))
             (set_vault (<[rest := EFile (Utils.charCodes bin)]> (vault w)) w))).
Proof.
  intros Hp Ht. cbv zeta.
  assert (storagePathOf (String "/" rest) = rest) as Hsp by reflexivity.
  split; [exact Hsp|]. split; [apply cons_neq|]. split; [reflexivity|]. split.
  - intros e He.
    rewrite <- Hsp in He.
    rewrite (createAndInsert_exists _ _ _ _ _ e) by (rewrite ?Hp; cbn; assumption).
    now rewrite Hsp.
  - intros flag bin Hnone Ha Hok.
    rewrite (createAndInsert_attempt _ _ _ _ _ _ b64 bin Hp Ht) by
      (try assumption; rewrite Hsp, Hnone; reflexivity).
    rewrite Hsp. unfold createBinary. rewrite Hnone, Hok. reflexivity.
Qed.

End WithHost.

(** *** Runs on the executable host *)

(** The read of [a:b.pdf], whose name the adapter refuses. *)
Example failing_read_payload :
  payloadOf (readAsDataURL Sample.badName) = Some "JVBERg=="
  /\ atob "JVBERg==" = Some "%PDF"
  /\ Utils.charCodes "%PDF" = file_bytes Sample.badName.
Proof. repeat split; reflexivity. Qed.

Example write_failure_in_handler_at_sample :
  let r := mkReader Sample.badName "notes/2024/Jan/files/2024-01-15-a:b.pdf" (-1) 0 in
  let w := set_handleSuccess [true] SampleHost.emptyWorld in
  fst (createAndInsertWithFileReader (readAsDataURL (rd_file r)) (rd_filePath r)
         (file_name (rd_file r)) true (rd_resizeWidth r) w) = Normal false
  /\ handleSuccess (onloadend r w) = [false]
  /\ ed_before (editor (onloadend r w)) = "![[notes/2024/Jan/files/2024-01-15-a:b.pdf]]"
  /\ notice_duration <$> notices (onloadend r w) = [Some 0].
Proof.
  cbv zeta.
  assert (payloadOf (readAsDataURL Sample.badName) = Some "JVBERg==") as H1
    by (vm_compute; reflexivity).
  assert (Js.truthyString "JVBERg==" = true) as H2 by reflexivity.
  assert (vault (set_handleSuccess [true] SampleHost.emptyWorld)
            !! storagePathOf "notes/2024/Jan/files/2024-01-15-a:b.pdf" = None) as H3
    by (vm_compute; reflexivity).
  assert (atob "JVBERg==" = Some "%PDF") as H4 by (vm_compute; reflexivity).
  assert (fst (createBinary (storagePathOf "notes/2024/Jan/files/2024-01-15-a:b.pdf")
                 (Utils.charCodes "%PDF") (set_handleSuccess [true] SampleHost.emptyWorld))
          = Throw) as H5 by (vm_compute; reflexivity).
  destruct (write_failure_in_handler
              (mkReader Sample.badName "notes/2024/Jan/files/2024-01-15-a:b.pdf" (-1) 0)
              (set_handleSuccess [true] SampleHost.emptyWorld) "JVBERg==" "%PDF"
              Sample.settings Sample.note [Sample.png] H1 H2 H3 H4 H5)
    as (Hrun & _ & _ & _ & _ & Hend & _).
  split; [rewrite Hrun; reflexivity|].
  rewrite Hend. repeat split; reflexivity.
Qed.

(** C2, the code at the failing input.  The files a:b.pdf, whose name the
    storage adapter refuses, and report.pdf are dropped on the note
    2024-01-15.  The write of a:b.pdf fails: its reference is inserted, the
    failure notice with duration 0 is shown, and the handler of its read
    ends with false; the batch goes on and report.pdf is written.  But the
    per-file call, [handleSingleFile], has returned true for a:b.pdf: it
    returns the variable [handleSuccess] before the handler, which runs
    when the read has ended, assigns false to it. *)
Theorem write_failure_not_reported :
  let call := handleSingleFile Sample.settings Sample.badName Sample.view
                               SampleHost.emptyWorld in
  let batch := handleFiles (Sample.drop [Sample.badName; Sample.pdf])
                           Sample.settings Sample.view SampleHost.emptyWorld in
  let w' := settle (snd batch) in
  fst call = Normal true
  /\ handleSuccess (snd call) = [true]
  /\ rd_filePath <$> readers (snd call) = ["notes/2024/Jan/files/2024-01-15-a:b.pdf"]
  /\ finished (settle (snd call)) = [(0%nat, Some false)]
  /\ handleSuccess (settle (snd call)) = [false]
  /\ fst batch = Normal tt
  /\ finished w' = [(0%nat, Some false); (1%nat, Some true)]
  /\ vault w' !! "notes/2024/Jan/files/2024-01-15-a:b.pdf" = None
  /\ vault w' !! "notes/2024/Jan/files/2024-01-15-report.pdf"
     = Some (EFile (file_bytes Sample.pdf))
  /\ ed_before (editor w')
     = ("![[notes/2024/Jan/files/2024-01-15-a:b.pdf]]"
        ++ "![[notes/2024/Jan/files/2024-01-15-report.pdf]]")%string
  /\ notices w' = [failedToCreate "a:b.pdf"]
  /\ notice_duration (failedToCreate "a:b.pdf") = Some 0.
Proof. vm_compute. repeat split; reflexivity. Qed.

Lemma handleFiles_rejects_whole_batch_witness :
  (Sample.drop [Sample.png; Sample.txt] ≫= dt_files = Some [Sample.png; Sample.txt]
   /\ Sample.txt ∈ [Sample.png; Sample.txt]
   /\ Js.startsWith "image" (file_type Sample.txt) = false
   /\ file_type Sample.txt <> "application/zip"
   /\ file_type Sample.txt <> "application/pdf")
  /\ exists w',
       handleFiles (Sample.drop [Sample.png; Sample.txt]) Sample.settings Sample.view
                   SampleHost.emptyWorld = (Normal tt, w')
       /\ vault w' = ∅ /\ editor w' = mkEditor "" "" "" /\ readers w' = [].
Proof.
  assert (Sample.txt ∈ [Sample.png; Sample.txt]) as Hin by (repeat constructor).
  assert (file_type Sample.txt <> "application/zip") as Hz by (vm_compute; discriminate).
  assert (file_type Sample.txt <> "application/pdf") as Hp by (vm_compute; discriminate).
  split; [repeat split; solve [reflexivity | assumption]|].
  destruct (handleFiles_rejects_whole_batch
              (Sample.drop [Sample.png; Sample.txt]) Sample.settings Sample.view
              [Sample.png; Sample.txt] Sample.txt SampleHost.emptyWorld
              eq_refl Hin eq_refl Hz Hp)
    as (w' & Hrun & Hv & He & Hr & _).
  exists w'. repeat split; assumption.
Defined.

(** The batch of the design document: an image and a text file. *)
Example image_and_text_rejected :
  let w' := settle (snd (handleFiles (Sample.drop [Sample.png; Sample.txt])
                           Sample.settings Sample.view SampleHost.emptyWorld)) in
  vault w' = ∅ /\ editor w' = mkEditor "" "" "" /\ finished w' = []
  /\ notice_message <$> notices w'
     = ["Only image, pdf, and zip files are supported. Get text/plain instead."].
Proof. vm_compute. repeat split; reflexivity. Qed.

Example otherFile_stored_as_at_sample :
  exists b w',
    handleSingleFile Sample.settings Sample.pdf Sample.view SampleHost.emptyWorld = (Normal b, w')
    /\ rd_filePath <$> last (readers w')
       = Some "notes/2024/Jan/files/2024-01-15-report.pdf".
Proof.
  destruct (otherFile_stored_as Sample.settings Sample.pdf Sample.note SampleHost.emptyWorld eq_refl)
    as [(b & w' & Hrun & Hlast) _].
  exists b, w'. split; [exact Hrun|]. rewrite Hlast. reflexivity.
Qed.

(** C7, the code at the failing input.  Dropped on the note 2024-01-15,
    the file report.v2.pdf is stored as 2024-01-15-report.pdf: the code
    takes the part of the name before its first dot, so ".v2" is lost.
    The claim's {documentBaseName}-{name without extension}.{extension} is
    2024-01-15-report.v2.pdf. *)
Theorem otherFile_name_two_dots :
  let w' := snd (handleSingleFile Sample.settings Sample.pdfV2 Sample.view SampleHost.emptyWorld) in
  rd_filePath <$> last (readers w') = Some "notes/2024/Jan/files/2024-01-15-report.pdf"
  /\ Spec.otherFileName "2024-01-15" "report.v2.pdf" = "2024-01-15-report.v2.pdf"
  /\ rd_filePath <$> last (readers w')
     <> Some (normalizePath ("notes/2024/Jan/files" ++ "/"
                             ++ Spec.otherFileName "2024-01-15" "report.v2.pdf")%string).
Proof.
  cbv zeta. split; [vm_compute; reflexivity|]. split; [vm_compute; reflexivity|].
  intros Heq. vm_compute in Heq. discriminate Heq.
Qed.

Lemma existing_target_is_reused_witness :
  (Js.truthyOptString (payloadOf (readAsDataURL Sample.pdf)) = true
   /\ vault Sample.withReport
        !! storagePathOf "notes/2024/Jan/files/2024-01-15-report.pdf"
      = Some (EFile [1; 2; 3]))
  /\ exists w',
       createAndInsertWithFileReader (readAsDataURL Sample.pdf)
         "notes/2024/Jan/files/2024-01-15-report.pdf" "report.pdf" true (-1)
         Sample.withReport = (Normal true, w')
       /\ vault w' = vault Sample.withReport
       /\ ed_before (editor w') = "![[notes/2024/Jan/files/2024-01-15-report.pdf]]".
Proof.
  assert (Js.truthyOptString (payloadOf (readAsDataURL Sample.pdf)) = true) as H1
    by (vm_compute; reflexivity).
  assert (vault Sample.withReport
            !! storagePathOf "notes/2024/Jan/files/2024-01-15-report.pdf"
          = Some (EFile [1; 2; 3])) as H2 by (vm_compute; reflexivity).
  split; [split; assumption|].
  destruct (existing_target_is_reused (readAsDataURL Sample.pdf)
              "notes/2024/Jan/files/2024-01-15-report.pdf" "report.pdf" (-1)
              Sample.withReport (EFile [1; 2; 3]) H1 H2)
    as (w' & Hrun & Hv & _ & He & _).
  exists w'. split; [exact Hrun|]. split; [exact Hv|]. rewrite He. reflexivity.
Defined.

(** C8, counterexample.  The vault holds the attachment
    2024-01-15-report.pdf of the note; an empty file report.pdf is dropped
    on the note.  Its target path is that of the entry, but its payload is
    empty: the handler returns false and the document is left without a
    reference. *)
Lemma existing_target_empty_payload :
  let dropped := handleFiles (Sample.drop [Sample.emptyPdf]) Sample.settings Sample.view
                             Sample.withReport in
  let w' := settle (snd dropped) in
  rd_filePath <$> readers (snd dropped) = ["notes/2024/Jan/files/2024-01-15-report.pdf"]
  /\ vault Sample.withReport !! "notes/2024/Jan/files/2024-01-15-report.pdf"
     = Some (EFile [1; 2; 3])
  /\ payloadOf (readAsDataURL Sample.emptyPdf) = Some ""
  /\ finished w' = [(0%nat, Some false)]
  /\ editor w' = editor Sample.withReport
  /\ fst (createAndInsertWithFileReader (readAsDataURL Sample.emptyPdf)
            "notes/2024/Jan/files/2024-01-15-report.pdf" "report.pdf" true (-1)
            Sample.withReport) = Normal false.
Proof. cbv zeta. repeat split; vm_compute; reflexivity. Qed.

(** C9, counterexample.  With images limited to 100 KB, the image
    blank.png, which has no bytes and which the compressor cannot decode,
    is dropped on the note: the file is an image, the view is backed by a
    file, and [handleSingleFile] does not return true but throws, after
    the notice of the compression; no variable is declared and no read is
    started.  [handleFiles] throws with it. *)
Lemma handleSingleFile_throws_on_failed_compression :
  let call := handleSingleFile Sample.limited Sample.emptyPng Sample.view
                               SampleHost.emptyWorld in
  Js.startsWith "image" (file_type Sample.emptyPng) = true
  /\ maxImageSizeKB Sample.limited = 100
  /\ imageCompression Sample.emptyPng 100 false = None
  /\ fst call = Throw
  /\ fst call <> Normal true
  /\ notices (snd call)
     = [mkNotice ("Compressing image " ++ dq ++ "blank.png" ++ dq ++ " to 100KB") None]
  /\ readers (snd call) = [] /\ handleSuccess (snd call) = []
  /\ fst (handleFiles (Sample.drop [Sample.emptyPng]) Sample.limited Sample.view
                      SampleHost.emptyWorld) = Throw.
Proof.
  cbv zeta. repeat split; try (vm_compute; reflexivity).
  intros Heq. vm_compute in Heq. discriminate Heq.
Qed.

Lemma handleSingleFile_returns_true_witness :
  readersDeclared SampleHost.emptyWorld
  /\ fst (handleSingleFile Sample.settings Sample.badName Sample.view SampleHost.emptyWorld)
     = Normal true
  /\ fst (handleSingleFile Sample.limited Sample.emptyPng Sample.view SampleHost.emptyWorld)
     = Throw.
Proof.
  assert (readersDeclared SampleHost.emptyWorld) as Hd by (apply Forall_nil; exact I).
  split; [exact Hd|]. split.
  - destruct (handleSingleFile_returns_true Sample.settings Sample.badName Sample.note
                SampleHost.emptyWorld Hd) as (Hreturns & _).
    destruct Hreturns as (w' & r & Hrun & _).
    + intros (Hi & _). vm_compute in Hi. discriminate Hi.
    + unfold Sample.view. rewrite Hrun. reflexivity.
  - destruct (handleSingleFile_returns_true Sample.limited Sample.emptyPng Sample.note
                SampleHost.emptyWorld Hd) as (_ & Hthrows & _).
    destruct Hthrows as (w' & Hrun & _).
    + repeat split; vm_compute; reflexivity.
    + unfold Sample.view. rewrite Hrun. reflexivity.
Defined.

(** The call returns true for [a:b.pdf]; when its read has ended, the write
    has failed and the variable holds false. *)
Example returned_before_the_failure :
  let call := handleSingleFile Sample.settings Sample.badName Sample.view
                               SampleHost.emptyWorld in
  fst call = Normal true
  /\ handleSuccess (snd call) = [true]
  /\ handleSuccess (settle (snd call)) = [false]
  /\ finished (settle (snd call)) = [(0%nat, Some false)].
Proof. vm_compute. repeat split; reflexivity. Qed.

(** A file that succeeds and a file whose write fails, in one drop: the
    first is written, both references are inserted, and the failure is
    shown in a notice that stays. *)
Example batch_with_failing_write :
  let w' := settle (snd (handleFiles (Sample.drop [Sample.pdf; Sample.badName])
                           Sample.settings Sample.view SampleHost.emptyWorld)) in
  vault w' !! "notes/2024/Jan/files/2024-01-15-report.pdf"
    = Some (EFile (file_bytes Sample.pdf))
  /\ vault w' !! "notes/2024/Jan/files/2024-01-15-a:b.pdf" = None
  /\ ed_before (editor w')
     = ("![[notes/2024/Jan/files/2024-01-15-report.pdf]]"
        ++ "![[notes/2024/Jan/files/2024-01-15-a:b.pdf]]")%string
  /\ notice_duration <$> notices w' = [Some 0]
  /\ finished w' = [(0%nat, Some true); (1%nat, Some false)]
  /\ defaultPrevented w' = true.
Proof. vm_compute. repeat split; reflexivity. Qed.

(** Two images in one drop.  When the first read ends only after the call
    for the second image has counted the files, both get the same name and
    the second is taken for the first; when it ends before, the second gets
    the suffix -1. *)
Example two_images_late_read :
  let w' := settle (snd (handleFiles (Sample.drop [Sample.png; Sample.png])
                           Sample.settings Sample.view SampleHost.emptyWorld)) in
  ed_before (editor w')
  = ("![[notes/2024/Jan/images/2024-01-15-image.png]]"
     ++ "![[notes/2024/Jan/images/2024-01-15-image.png]]")%string.
Proof. vm_compute. reflexivity. Qed.

Example two_images_early_read :
  let w' := settle (snd (handleFiles (Sample.drop [Sample.png; Sample.png])
                           Sample.settings Sample.view
                           (set_schedule [[]; []; [0%nat]] SampleHost.emptyWorld))) in
  ed_before (editor w')
  = ("![[notes/2024/Jan/images/2024-01-15-image.png]]"
     ++ "![[notes/2024/Jan/images/2024-01-15-image-1.png]]")%string.
Proof. vm_compute. reflexivity. Qed.

Lemma link_keeps_leading_slash_witness :
  (payloadOf (readAsDataURL Sample.pdf) = Some "JVBERg=="
   /\ Js.truthyString "JVBERg==" = true)
  /\ storagePathOf "/files/report.pdf" = "files/report.pdf"
  /\ exists w',
       createAndInsertWithFileReader (readAsDataURL Sample.pdf) "/files/report.pdf"
         "report.pdf" true (-1) SampleHost.emptyWorld = (Normal true, w')
       /\ ed_before (editor w') = "![[/files/report.pdf]]"
       /\ vault w' !! "files/report.pdf" = Some (EFile (file_bytes Sample.pdf))
       /\ vault w' !! "/files/report.pdf" = None.
Proof.
  assert (payloadOf (readAsDataURL Sample.pdf) = Some "JVBERg==") as H1
    by (vm_compute; reflexivity).
  assert (Js.truthyString "JVBERg==" = true) as H2 by reflexivity.
  split; [split; assumption|].
  destruct (link_keeps_leading_slash (readAsDataURL Sample.pdf) "files/report.pdf"
              "report.pdf" (-1) SampleHost.emptyWorld "JVBERg==" H1 H2)
    as (Hsp & _ & _ & _ & Hwrite).
  split; [exact Hsp|].
  eexists. split.
  - apply (Hwrite true "%PDF"); vm_compute; reflexivity.
  - repeat split; vm_compute; reflexivity.
Defined.

End PipelineFacts.

(** ** More about src/utils.ts *)

Module UtilsMore.
Import JsDate Utils DateFacts UtilsFacts.

Section WithPlatform.
Context `{!TimeZone} `{!Dayjs} `{!Locale}.

(** The day before the day before. *)
Lemma dayBefore_twice d u :
  dateValue d = Some u -> hasDayBefore u ->
  hasDayBefore (UTC (LocalTime u - msPerDay)) ->
  localTimeOf (dayBefore (dayBefore d)) = Some (LocalTime u - 2 * msPerDay)
  /\ dayNumber (dayBefore (dayBefore d)) = Some (Day (LocalTime u) - 2).
Proof.
  intros Hd Hu Hu1.
  rewrite (dayBefore_valid d u Hd Hu).
  pose proof (dayBefore_localTime (DateOf (Some (UTC (LocalTime u - msPerDay)))) _
                eq_refl Hu1) as Hl.
  pose proof (dayBefore_dayNumber (DateOf (Some (UTC (LocalTime u - msPerDay)))) _
                eq_refl Hu1) as Hn.
  destruct Hu as [_ Hback]. rewrite Hback in Hl, Hn.
  rewrite Hl, Hn, Day_previous. split; f_equal; lia.
Qed.

(** X1.  [getMonthDirPath] works with the date it was given when its rule
    is not asked for or the hour of the wall clock plus one is not less
    than the boundary hour, and otherwise with that date after
    [date.setDate(date.getDate() - 1)]; the directory is rootDir/year/month
    of the resulting date, and with a boundary hour of 1 or less the date
    is never moved.  For a valid date that has a day before, the date is
    moved back by exactly one day if and only if the rule is asked for and
    the hour of the wall clock plus one is less than the boundary hour. *)
Theorem getMonthDirPath_boundary_rule
    (now : Z) (root : string) (h : Z) (date : option Date) (flag : option bool) :
  let d0 := default (newDate now) date in
  let applyRule := default false flag in
  let dir := fst (getMonthDirPath now root h date flag) in
  let d1 := snd (getMonthDirPath now root h date flag) in
  d1 = (if applyRule && (currentHour now + 1 <? h) then dayBefore d0 else d0)
  /\ dir = (root ++ "/" ++ Js.ofNumberOrNaN (getFullYear d1) ++ "/"
            ++ toLocaleMonthShort d1)%string
  /\ (h <= 1 -> d1 = d0)
  /\ forall u, dateValue d0 = Some u -> hasDayBefore u ->
       (dayNumber d1 = Some (Day (LocalTime u) - 1)
        <-> applyRule = true /\ currentHour now + 1 < h)
       /\ (d1 = d0 <-> ~ (applyRule = true /\ currentHour now + 1 < h))
       /\ localTimeOf d1
          = Some (if applyRule && (currentHour now + 1 <? h)
                  then LocalTime u - msPerDay else LocalTime u).
Proof.
  cbn zeta. rewrite getMonthDirPath_eq. cbn zeta. cbn [fst snd].
  rewrite (andb_comm (currentHour now + 1 <? h)).
  pose proof (HourFromTime_range (LocalTime now)) as Hh. fold (currentHour now) in Hh.
  split; [reflexivity|]. split; [reflexivity|]. split.
  - intros Hle. destruct (Z.ltb_spec (currentHour now + 1) h); [lia|].
    now rewrite andb_false_r.
  - intros u Hd Hu.
    destruct (moved_or_kept (default false flag && (currentHour now + 1 <? h))
                (default (newDate now) date) u Hd Hu) as (Hl & Hn & Hsame).
    cbv zeta in Hl, Hn, Hsame. rewrite Hn.
    split; [|split; [|exact Hl]].
    + destruct (default false flag); destruct (Z.ltb_spec (currentHour now + 1) h);
        cbn [andb]; split; try tauto; try (intros [? ?]; first [discriminate | lia]);
        intros [= Heq]; lia.
    + rewrite Hsame.
      destruct (default false flag); destruct (Z.ltb_spec (currentHour now + 1) h);
        cbn [andb]; split; try tauto; try discriminate;
        try (intros _ [? ?]; first [discriminate | lia]);
        intros Hno; exfalso; apply Hno; auto.
Qed.

(** X2.  When [getDailyNoteName] and then [getMonthDirPath] are both asked
    to apply their rule to one date object, the moves add up: the object
    goes through [date.setDate(date.getDate() - 1)] once for each of the
    two tests that holds.  More than an hour before the boundary the
    directory is that of the date moved twice, which for a valid date with
    two days before it is the day before the note's day, two days before
    the given date; in the last hour before the boundary only the first
    call moves the date. *)
Theorem both_rules_on_one_date
    (now : Z) (root : string) (h : Z) (fmt : string) (date : option Date) :
  let d0 := default (newDate now) date in
  let named := getDailyNoteName now h fmt (Some d0) (Some true) in
  let dir := getMonthDirPath now root h (Some (snd named)) (Some true) in
  snd named = (if currentHour now <? h then dayBefore d0 else d0)
  /\ snd dir = (if currentHour now + 1 <? h then dayBefore (snd named) else snd named)
  /\ (currentHour now + 1 < h -> snd dir = dayBefore (dayBefore d0))
  /\ (currentHour now + 1 = h -> snd named = dayBefore d0 /\ snd dir = snd named)
  /\ (h <= currentHour now -> snd named = d0 /\ snd dir = d0)
  /\ forall u, dateValue d0 = Some u -> hasDayBefore u ->
       (currentHour now < h -> dayNumber (snd named) = Some (Day (LocalTime u) - 1))
       /\ (currentHour now + 1 = h -> dayNumber (snd dir) = Some (Day (LocalTime u) - 1))
       /\ (currentHour now + 1 < h ->
           hasDayBefore (UTC (LocalTime u - msPerDay)) ->
           localTimeOf (snd dir) = Some (LocalTime u - 2 * msPerDay)
           /\ dayNumber (snd dir) = Some (Day (LocalTime u) - 2)).
Proof.
  cbn zeta. rewrite getDailyNoteName_eq. cbn zeta. cbn [fst snd default].
  rewrite getMonthDirPath_eq. cbn zeta. cbn [fst snd default].
  unfold id. rewrite !andb_true_r.
  split; [reflexivity|]. split; [reflexivity|].
  destruct (Z.ltb_spec (currentHour now) h); destruct (Z.ltb_spec (currentHour now + 1) h);
    try (exfalso; lia).
  - repeat split; intros; try (exfalso; lia).
    + now apply dayBefore_dayNumber.
    + now apply dayBefore_twice.
    + now apply dayBefore_twice.
  - repeat split; intros; try (exfalso; lia); now apply dayBefore_dayNumber.
  - repeat split; intros; exfalso; lia.
Qed.

(** X3.  [getDailyNotePath] leaves its date argument changed.  Before the
    boundary hour a second call on the date object of the first one works
    with the date moved twice and gives its path, which for a valid date
    with two days before it is that of the day two days before the given
    date; from the boundary hour on the date is untouched and the second
    call gives the same result. *)
Theorem getDailyNotePath_moves_its_argument
    (now : Z) (root : string) (h : Z) (fmt : string) (d : Date) :
  let first := getDailyNotePath now root h fmt (Some d) in
  let second := getDailyNotePath now root h fmt (Some (snd first)) in
  (currentHour now < h ->
     snd first = dayBefore d
     /\ snd second = dayBefore (dayBefore d)
     /\ fst second
        = (root ++ "/" ++ Js.ofNumberOrNaN (getFullYear (snd second)) ++ "/"
           ++ toLocaleMonthShort (snd second) ++ "/"
           ++ dayjs_format fmt (snd second) ++ ".md")%string
     /\ forall u, dateValue d = Some u -> hasDayBefore u ->
          hasDayBefore (UTC (LocalTime u - msPerDay)) ->
          dayNumber (snd first) = Some (Day (LocalTime u) - 1)
          /\ dayNumber (snd second) = Some (Day (LocalTime u) - 2))
  /\ (h <= currentHour now -> snd first = d /\ second = first).
Proof.
  cbn zeta. rewrite !getDailyNotePath_eq. cbn zeta. cbn [fst snd default].
  unfold id.
  destruct (Z.ltb_spec (currentHour now) h); split; intros; try (exfalso; lia).
  - repeat split; intros.
    + now apply dayBefore_dayNumber.
    + now apply dayBefore_twice.
  - split; reflexivity.
Qed.

(** X17.  With a boundary hour of 24 or more the wall clock is always
    before it: [getDailyNoteName] with its rule on and [getDailyNotePath]
    always put the date through [date.setDate(date.getDate() - 1)].
    [getMonthDirPath] with its rule on does so from 25 on; with 24 it
    leaves the date as it is between 23:00 and midnight. *)
Theorem boundary_hour_past_the_day
    (now : Z) (root : string) (h : Z) (fmt : string) (date : option Date) :
  let d0 := default (newDate now) date in
  0 <= currentHour now <= 23
  /\ (24 <= h -> snd (getDailyNoteName now h fmt date (Some true)) = dayBefore d0)
  /\ (25 <= h -> snd (getMonthDirPath now root h date (Some true)) = dayBefore d0)
  /\ (h = 24 ->
        (currentHour now = 23 ->
           snd (getMonthDirPath now root h date (Some true)) = d0)
        /\ (currentHour now < 23 ->
              snd (getMonthDirPath now root h date (Some true)) = dayBefore d0))
  /\ (24 <= h -> snd (getDailyNotePath now root h fmt date) = dayBefore d0).
Proof.
  cbn zeta. rewrite getDailyNoteName_eq, getMonthDirPath_eq, getDailyNotePath_eq.
  cbn zeta. cbn [snd default]. rewrite !andb_true_r.
  pose proof (HourFromTime_range (LocalTime now)) as Hh. fold (currentHour now) in Hh.
  split; [lia|].
  repeat split; intros;
    repeat match goal with
           | |- context [Z.ltb ?a ?b] => destruct (Z.ltb_spec a b)
           end; try reflexivity; exfalso; lia.
Qed.

(** *** Path segments *)

Lemma split_nonempty c s : exists seg segs, Js.split c s = seg :: segs.
Proof.
  induction s as [|ch s (seg & segs & IH)]; cbn [Js.split]; [eauto|].
  destruct (Ascii.eqb ch c); [eauto|]. rewrite IH. eauto.
Qed.

Lemma split_app_separator c a b :
  Js.split c (a ++ String c b)%string = (Js.split c a ++ Js.split c b)%list.
Proof.
  induction a as [|ch a IH].
  - rewrite StringFacts.append_nil. cbn [Js.split]. now rewrite Ascii.eqb_refl.
  - rewrite StringFacts.append_cons. cbn [Js.split]. rewrite IH.
    destruct (Ascii.eqb ch c); [reflexivity|].
    destruct (split_nonempty c a) as (seg & segs & ->). reflexivity.
Qed.

Lemma sliceFrom_last {A} (l : list A) (x : A) : Js.sliceFrom (-1) (l ++ [x]) = [x].
Proof.
  unfold Js.sliceFrom, Js.relIndex. rewrite length_app. cbn [length Z.ltb Z.compare].
  replace (Z.to_nat (Z.max (Z.of_nat (length l + 1) + -1) 0)) with (length l) by lia.
  now rewrite drop_app_length.
Qed.

Lemma hasChar_app c a b : hasChar c (a ++ b)%string = hasChar c a || hasChar c b.
Proof.
  induction a as [|ch a IH]; [reflexivity|].
  rewrite StringFacts.append_cons. cbn [hasChar]. rewrite IH. now rewrite orb_assoc.
Qed.

(** The last segment of a path, as [checkValidDailyNotePath] takes it. *)
Lemma last_segment_in_directory dir seg :
  hasChar "/" seg = false ->
  Js.index (Js.sliceFrom (-1) (Js.split "/" (dir ++ "/" ++ seg)%string)) 0 = Some seg.
Proof.
  intros Hseg. change ("/" ++ seg)%string with (String "/"%char seg).
  rewrite split_app_separator, (PipelineFacts.split_without_separator _ _ Hseg).
  now rewrite sliceFrom_last.
Qed.

Lemma last_segment_alone seg :
  hasChar "/" seg = false ->
  Js.index (Js.sliceFrom (-1) (Js.split "/" seg)) 0 = Some seg.
Proof.
  intros Hseg. rewrite (PipelineFacts.split_without_separator _ _ Hseg). reflexivity.
Qed.

Lemma first_part_before_dot name ext :
  hasChar "." name = false ->
  Js.index (Js.split "." (name ++ "." ++ ext)%string) 0 = Some name.
Proof.
  intros Hname. change ("." ++ ext)%string with (String "."%char ext).
  now rewrite (PipelineFacts.split_at_first_separator _ _ _ Hname).
Qed.

Lemma first_part_without_dot name :
  hasChar "." name = false -> Js.index (Js.split "." name) 0 = Some name.
Proof. intros Hname. now rewrite (PipelineFacts.split_without_separator _ _ Hname). Qed.

Lemma checkValid_of_last_segment notePath seg name fmt :
  Js.index (Js.sliceFrom (-1) (Js.split "/" notePath)) 0 = Some seg ->
  Js.index (Js.split "." seg) 0 = Some name ->
  checkValidDailyNotePath notePath fmt
  = if Js.truthyString name then dayjs_parse_strict name fmt else None.
Proof.
  intros Hseg Hname. rewrite checkValidDailyNotePath_eq, Hseg. cbn [mbind option_bind].
  rewrite Hname. reflexivity.
Qed.

(** X4.  [checkValidDailyNotePath] reads only the last segment of the
    path, up to its first dot: the directories and whatever follows that
    dot play no part.  With or without directories and extension the
    result is the strict parse of that note name, and no date when the
    name is empty (a path that ends in a slash, a last segment that begins
    with a dot). *)
Theorem checkValidDailyNotePath_reads_note_name (dir name ext fmt : string) :
  hasChar "/" name = false -> hasChar "." name = false -> hasChar "/" ext = false ->
  let expected := if Js.truthyString name then dayjs_parse_strict name fmt else None in
  checkValidDailyNotePath (dir ++ "/" ++ name ++ "." ++ ext) fmt = expected
  /\ checkValidDailyNotePath (name ++ "." ++ ext) fmt = expected
  /\ checkValidDailyNotePath (dir ++ "/" ++ name) fmt = expected
  /\ checkValidDailyNotePath name fmt = expected.
Proof.
  intros Hs Hd He. cbv zeta.
  assert (hasChar "/" (name ++ "." ++ ext)%string = false) as Hseg.
  { rewrite !hasChar_app, Hs, He. reflexivity. }
  repeat split.
  - apply (checkValid_of_last_segment _ (name ++ "." ++ ext)%string);
      [now apply last_segment_in_directory | now apply first_part_before_dot].
  - apply (checkValid_of_last_segment _ (name ++ "." ++ ext)%string);
      [now apply last_segment_alone | now apply first_part_before_dot].
  - apply (checkValid_of_last_segment _ name);
      [now apply last_segment_in_directory | now apply first_part_without_dot].
  - apply (checkValid_of_last_segment _ name);
      [now apply last_segment_alone | now apply first_part_without_dot].
Qed.

(** X5.  The path [getDailyNotePath] builds is taken for a daily note by
    [checkValidDailyNotePath]: when the formatted note name is not empty,
    has no slash and no dot, and parses strictly to a date, that date is
    returned, whatever the root directory is. *)
Theorem daily_note_path_is_recognised
    (now : Z) (root : string) (h : Z) (fmt : string) (date : option Date) (d : Date) :
  let built := getDailyNotePath now root h fmt date in
  let noteName := dayjs_format fmt (snd built) in
  hasChar "/" noteName = false -> hasChar "." noteName = false ->
  Js.truthyString noteName = true ->
  dayjs_parse_strict noteName fmt = Some d ->
  checkValidDailyNotePath (fst built) fmt = Some d.
Proof.
  cbv zeta. rewrite getDailyNotePath_eq. cbn zeta. cbn [fst snd].
  set (d1 := if currentHour now <? h
             then dayBefore (default (newDate now) date)
             else default (newDate now) date).
  intros Hs Hd Ht Hp.
  replace (root ++ "/" ++ Js.ofNumberOrNaN (getFullYear d1) ++ "/" ++ toLocaleMonthShort d1
           ++ "/" ++ dayjs_format fmt d1 ++ ".md")%string
    with ((root ++ "/" ++ Js.ofNumberOrNaN (getFullYear d1) ++ "/" ++ toLocaleMonthShort d1)
          ++ "/" ++ dayjs_format fmt d1 ++ "." ++ "md")%string
    by (rewrite !StringFacts.append_assoc; reflexivity).
  rewrite (checkValid_of_last_segment _ (dayjs_format fmt d1 ++ "." ++ "md")%string
             (dayjs_format fmt d1)).
  - now rewrite Ht.
  - apply last_segment_in_directory. rewrite hasChar_app, Hs. reflexivity.
  - now apply first_part_before_dot.
Qed.

End WithPlatform.

(** *** Runs with the executable dayjs fragment, in a zone without offset *)

Lemma getMonthDirPath_boundary_rule_witness :
  let now := Sample.at_ 2024 2 2 0 30 in
  let given := ofYMD 2024 2 1 in
  (dateValue given = Some (Sample.at_ 2024 2 1 0 0)
   /\ hasDayBefore (Sample.at_ 2024 2 1 0 0))
  /\ getMonthDirPath now "notes" 5 (Some given) (Some true)
     = ("notes/2024/Feb", dayBefore given)
  /\ dayNumber (snd (getMonthDirPath now "notes" 5 (Some given) (Some true)))
     = Some (Day (Sample.at_ 2024 2 1 0 0) - 1)
  /\ snd (getMonthDirPath now "notes" 1 (Some given) (Some true)) = given.
Proof.
  cbv zeta.
  assert (hasDayBefore (Sample.at_ 2024 2 1 0 0)) as Hu
    by (apply hasDayBefore_utc; vm_compute; split; discriminate).
  split; [split; [reflexivity | exact Hu]|].
  destruct (getMonthDirPath_boundary_rule (Sample.at_ 2024 2 2 0 30) "notes" 5
              (Some (ofYMD 2024 2 1)) (Some true)) as (_ & _ & _ & Hvalid).
  destruct (Hvalid (Sample.at_ 2024 2 1 0 0) eq_refl Hu) as (Hday & _ & _).
  split; [reflexivity|].
  split; [apply Hday; split; reflexivity|].
  destruct (getMonthDirPath_boundary_rule (Sample.at_ 2024 2 2 0 30) "notes" 1
              (Some (ofYMD 2024 2 1)) (Some true)) as (_ & _ & Hone & _).
  apply Hone. lia.
Defined.

Lemma both_rules_on_one_date_witness :
  let now := Sample.at_ 2024 2 2 0 30 in
  (dateValue (newDate now) = Some now /\ hasDayBefore now
   /\ hasDayBefore (UTC (LocalTime now - msPerDay)))
  /\ calendarDate (snd (getMonthDirPath now "notes" 5
       (Some (snd (getDailyNoteName now 5 "YYYY-MM-DD" (Some (newDate now)) (Some true))))
       (Some true))) = Some (2024, 1, 29)
  /\ dayNumber (snd (getMonthDirPath now "notes" 5
       (Some (snd (getDailyNoteName now 5 "YYYY-MM-DD" (Some (newDate now)) (Some true))))
       (Some true))) = Some (Day now - 2).
Proof.
  cbv zeta.
  assert (hasDayBefore (Sample.at_ 2024 2 2 0 30)) as Hu
    by (apply hasDayBefore_utc; vm_compute; split; discriminate).
  assert (hasDayBefore (UTC (LocalTime (Sample.at_ 2024 2 2 0 30) - msPerDay))) as Hu1
    by (apply hasDayBefore_utc; vm_compute; split; discriminate).
  split; [split; [reflexivity | split; assumption]|].
  destruct (both_rules_on_one_date (Sample.at_ 2024 2 2 0 30) "notes" 5 "YYYY-MM-DD" None)
    as (_ & _ & _ & _ & _ & Hvalid).
  destruct (Hvalid (Sample.at_ 2024 2 2 0 30) eq_refl Hu) as (_ & _ & Htwice).
  split; [reflexivity|].
  apply Htwice; [reflexivity | exact Hu1].
Defined.

Lemma getDailyNotePath_moves_its_argument_witness :
  let now := Sample.at_ 2024 2 2 0 30 in
  let given := ofYMD 2024 2 1 in
  let first := getDailyNotePath now "notes" 5 "YYYY-MM-DD" (Some given) in
  currentHour now < 5
  /\ fst first = "notes/2024/Feb/2024-02-29.md"
  /\ fst (getDailyNotePath now "notes" 5 "YYYY-MM-DD" (Some (snd first)))
     = "notes/2024/Feb/2024-02-28.md"
  /\ snd (getDailyNotePath now "notes" 5 "YYYY-MM-DD" (Some (snd first)))
     = dayBefore (dayBefore given).
Proof.
  cbv zeta.
  assert (currentHour (Sample.at_ 2024 2 2 0 30) < 5) as Hh by reflexivity.
  split; [exact Hh|].
  destruct (getDailyNotePath_moves_its_argument (Sample.at_ 2024 2 2 0 30) "notes" 5
              "YYYY-MM-DD" (ofYMD 2024 2 1)) as [Hbefore _].
  destruct (Hbefore Hh) as (_ & Hsecond & _).
  split; [reflexivity|]. split; [reflexivity | exact Hsecond].
Defined.

Lemma checkValidDailyNotePath_reads_note_name_witness :
  (hasChar "/" "2024-01-15" = false /\ hasChar "." "2024-01-15" = false
   /\ hasChar "/" "v2.md" = false)
  /\ checkValidDailyNotePath "notes/2024/Jan/2024-01-15.v2.md" "YYYY-MM-DD"
     = Some (ofYMD 2024 0 15)
  /\ checkValidDailyNotePath "2024-01-15" "YYYY-MM-DD" = Some (ofYMD 2024 0 15).
Proof.
  split; [repeat split; reflexivity|].
  destruct (checkValidDailyNotePath_reads_note_name "notes/2024/Jan" "2024-01-15"
              "v2.md" "YYYY-MM-DD" eq_refl eq_refl eq_refl) as (Hfull & _ & _ & Hbare).
  split; [exact Hfull | exact Hbare].
Defined.

Lemma daily_note_path_is_recognised_witness :
  let built := getDailyNotePath (Sample.at_ 2024 2 2 0 30) "notes" 5 "YYYY-MM-DD" None in
  (hasChar "/" (dayjs_format "YYYY-MM-DD" (snd built)) = false
   /\ hasChar "." (dayjs_format "YYYY-MM-DD" (snd built)) = false
   /\ Js.truthyString (dayjs_format "YYYY-MM-DD" (snd built)) = true
   /\ dayjs_parse_strict (dayjs_format "YYYY-MM-DD" (snd built)) "YYYY-MM-DD"
      = Some (ofYMD 2024 2 1))
  /\ checkValidDailyNotePath (fst built) "YYYY-MM-DD" = Some (ofYMD 2024 2 1).
Proof.
  cbv zeta.
  assert (hasChar "/" (dayjs_format "YYYY-MM-DD"
            (snd (getDailyNotePath (Sample.at_ 2024 2 2 0 30) "notes" 5 "YYYY-MM-DD" None)))
          = false) as H1 by (vm_compute; reflexivity).
  assert (hasChar "." (dayjs_format "YYYY-MM-DD"
            (snd (getDailyNotePath (Sample.at_ 2024 2 2 0 30) "notes" 5 "YYYY-MM-DD" None)))
          = false) as H2 by (vm_compute; reflexivity).
  assert (Js.truthyString (dayjs_format "YYYY-MM-DD"
            (snd (getDailyNotePath (Sample.at_ 2024 2 2 0 30) "notes" 5 "YYYY-MM-DD" None)))
          = true) as H3 by (vm_compute; reflexivity).
  assert (dayjs_parse_strict (dayjs_format "YYYY-MM-DD"
            (snd (getDailyNotePath (Sample.at_ 2024 2 2 0 30) "notes" 5 "YYYY-MM-DD" None)))
            "YYYY-MM-DD" = Some (ofYMD 2024 2 1)) as H4 by (vm_compute; reflexivity).
  split; [repeat split; assumption|].
  exact (daily_note_path_is_recognised (Sample.at_ 2024 2 2 0 30) "notes" 5
           "YYYY-MM-DD" None (ofYMD 2024 2 1) H1 H2 H3 H4).
Defined.

(** A format with a dot: the note is named 2024.03.01, only "2024" is
    parsed, and the path that was just built is not taken for a daily
    note. *)
Example dotted_format_is_not_recognised :
  let built := getDailyNotePath (Sample.at_ 2024 2 2 0 30) "notes" 5 "YYYY.MM.DD" None in
  fst built = "notes/2024/Mar/2024.03.01.md"
  /\ checkValidDailyNotePath (fst built) "YYYY.MM.DD" = None.
Proof. split; reflexivity. Qed.

(** Within the first two days of the time range a second call leaves an
    invalid date. *)
Example second_call_near_first_instant :
  let now := Sample.at_ 2024 2 2 0 30 in
  let given := ofTimeValue (msPerDay - maxTime) in
  let first := getDailyNotePath now "notes" 5 "YYYY-MM-DD" (Some given) in
  snd first = Sample.firstInstant
  /\ snd (getDailyNotePath now "notes" 5 "YYYY-MM-DD" (Some (snd first))) = DateOf None.
Proof. cbv zeta. split; reflexivity. Qed.

End UtilsMore.
(** ** More about the file-handling module *)

Module PipelineMore.
Import FileHandling PipelineFacts.

Section WithHost.
Context `{!Dayjs} `{!Obsidian} `{!Browser} `{!ImageCompression}.

Lemma charCodes_length bin : length (Utils.charCodes bin) = String.length bin.
Proof. induction bin as [|c bin IH]; cbn; [reflexivity | now rewrite IH]. Qed.

Lemma charCodes_range bin : Forall (fun b => 0 <= b < 256) (Utils.charCodes bin).
Proof.
  induction bin as [|c bin IH]; cbn [Utils.charCodes]; constructor; [|exact IH].
  apply Z.mod_pos_bound. lia.
Qed.

Lemma charCodes_lookup bin : forall i c,
  String.get i bin = Some c ->
  Utils.charCodes bin !! i = Some (Z.of_nat (nat_of_ascii c)).
Proof.
  induction bin as [|ch bin IH]; intros i c Hget; [discriminate|].
  destruct i as [|i]; cbn in Hget |- *.
  - injection Hget as ->. f_equal. apply Z.mod_small.
    pose proof (nat_ascii_bounded c). lia.
  - now apply IH.
Qed.

(** X6.  [base64ToArrayBuffer] has one byte for each character of the
    string [atob] returns, in the same order, the byte being the character
    code, between 0 and 255; when [atob] throws it throws, and the world
    is left as it was. *)
Theorem base64ToArrayBuffer_bytes (base64 : string) (w : World) :
  (forall bin, atob base64 = Some bin ->
     base64ToArrayBuffer base64 w = (Normal (Utils.charCodes bin), w)
     /\ length (Utils.charCodes bin) = String.length bin
     /\ Forall (fun b => 0 <= b < 256) (Utils.charCodes bin)
     /\ forall i c, String.get i bin = Some c ->
          Utils.charCodes bin !! i = Some (Z.of_nat (nat_of_ascii c)))
  /\ (atob base64 = None -> base64ToArrayBuffer base64 w = (Throw, w)).
Proof.
  unfold base64ToArrayBuffer. split.
  - intros bin ->. split; [reflexivity|]. split; [apply charCodes_length|].
    split; [apply charCodes_range | apply charCodes_lookup].
  - intros ->. reflexivity.
Qed.

(** *** Counting siblings *)

Lemma getFiles_insert v p e :
  v !! p = None ->
  getFiles (<[p := e]> v)
  ≡ₚ (match e with EFile _ => [p] | EFolder => [] end ++ getFiles v)%list.
Proof.
  intros Hnone. unfold getFiles.
  rewrite (map_to_list_insert v p e Hnone). cbn [omap list_omap].
  destruct e; reflexivity.
Qed.

Lemma count_permutation (v v' : gmap string Entry) dir prefix extra :
  getFiles v' ≡ₚ (extra ++ getFiles v)%list ->
  countFilesWithSamePrefix v' dir prefix
  = Z.of_nat (length
      (filter (fun path => Js.startsWith dir path = true
                           ∧ Js.contains prefix path = true
                           ∧ Js.endsWith ".md" path = false)
              (filter (fun path => Js.startsWith dir path = true) extra)))
    + countFilesWithSamePrefix v dir prefix.
Proof.
  intros Hperm. unfold countFilesWithSamePrefix. cbv zeta.
  rewrite Hperm, !filter_app, length_app. lia.
Qed.

Lemma getFiles_length v : (length (getFiles v) <= size v)%nat.
Proof.
  unfold getFiles. rewrite <- length_map_to_list.
  induction (map_to_list v) as [|[p e] l IH]; cbn; [lia|].
  destruct e; cbn; lia.
Qed.

(** X7.  A new file whose path starts with the directory, contains the
    prefix and does not end in ".md" raises [countFilesWithSamePrefix] by
    exactly one. *)
Theorem count_after_new_attachment
    (v : gmap string Entry) (dir prefix p : string) (data : list Z) :
  v !! p = None ->
  Js.startsWith dir p = true -> Js.contains prefix p = true ->
  Js.endsWith ".md" p = false ->
  countFilesWithSamePrefix (<[p := EFile data]> v) dir prefix
  = countFilesWithSamePrefix v dir prefix + 1.
Proof.
  intros Hnone Hd Hc Hm.
  rewrite (count_permutation v _ dir prefix [p]) by now apply getFiles_insert.
  rewrite !filter_cons, !filter_nil.
  rewrite decide_True by assumption. rewrite filter_cons, filter_nil.
  rewrite decide_True by auto. cbn. lia.
Qed.

(** X8.  [countFilesWithSamePrefix] leaves out folders, paths that end in
    ".md", paths outside the directory and paths without the prefix: a new
    entry of one of these kinds does not change the count.  The count is
    between 0 and the number of entries of the vault, and 0 for the empty
    vault. *)
Theorem count_leaves_out
    (v : gmap string Entry) (dir prefix p : string) (e : Entry) :
  v !! p = None ->
  e = EFolder \/ Js.startsWith dir p = false \/ Js.contains prefix p = false
    \/ Js.endsWith ".md" p = true ->
  countFilesWithSamePrefix (<[p := e]> v) dir prefix
    = countFilesWithSamePrefix v dir prefix
  /\ 0 <= countFilesWithSamePrefix v dir prefix <= Z.of_nat (size v)
  /\ countFilesWithSamePrefix ∅ dir prefix = 0.
Proof.
  intros Hnone Hwhy. split; [|split].
  - rewrite (count_permutation v _ dir prefix
               (match e with EFile _ => [p] | EFolder => [] end))
      by now apply getFiles_insert.
    destruct e as [data|]; [|reflexivity].
    rewrite !filter_cons, !filter_nil.
    destruct Hwhy as [Hf|[Hd|[Hc|Hm]]]; [discriminate| | |].
    + rewrite decide_False by congruence. reflexivity.
    + destruct (decide (Js.startsWith dir p = true)); [|reflexivity].
      rewrite filter_cons, filter_nil.
      rewrite decide_False by (intros (_ & Hc' & _); congruence). reflexivity.
    + destruct (decide (Js.startsWith dir p = true)); [|reflexivity].
      rewrite filter_cons, filter_nil.
      rewrite decide_False by (intros (_ & _ & Hm'); congruence). reflexivity.
  - unfold countFilesWithSamePrefix. cbv zeta.
    pose proof (getFiles_length v).
    pose proof (length_filter (fun path => Js.startsWith dir path = true) (getFiles v)).
    pose proof (length_filter (fun path => Js.startsWith dir path = true
                           ∧ Js.contains prefix path = true
                           ∧ Js.endsWith ".md" path = false)
              (filter (fun path => Js.startsWith dir path = true) (getFiles v))).
    lia.
  - reflexivity.
Qed.


(** *** The handler of a read *)

Ltac runM :=
  cbv beta iota delta [mbind M_bind bind mret M_ret ret throw tryCatch modify gets
    newNotice replaceSelection preventDefault getAbstractFileByPath].

Lemma payload_without_comma s :
  hasChar "," s = false -> payloadOf (Some s) = None.
Proof.
  intros Hs. unfold payloadOf. cbn [mbind option_bind].
  now rewrite (split_without_separator _ _ Hs).
Qed.

Lemma payload_after_comma h rest :
  hasChar "," h = false ->
  payloadOf (Some (h ++ "," ++ rest)%string) = Js.index (Js.split "," rest) 0.
Proof.
  intros Hh. unfold payloadOf. cbn [mbind option_bind].
  change ("," ++ rest)%string with (String ","%char rest).
  now rewrite (split_at_first_separator _ _ _ Hh).
Qed.

(** X9.  When the reader has no result, or a result without a comma, or a
    data URL with nothing after its comma, [createAndInsertWithFileReader]
    returns false and does nothing but show one notice, with the default
    duration: the vault and the editor are as before. *)
Theorem empty_payload_is_refused
    (readerResult : option string) (filePath fileName : string)
    (flag : bool) (resizeWidth : Z) (w : World) :
  readerResult = None
  \/ (exists s, readerResult = Some s /\ hasChar "," s = false)
  \/ (exists h, readerResult = Some (h ++ ",")%string /\ hasChar "," h = false) ->
  createAndInsertWithFileReader readerResult filePath fileName flag resizeWidth w
    = (Normal false, set_notices (notices w ++ [base64IsEmpty filePath]) w)
  /\ notice_duration (base64IsEmpty filePath) = None.
Proof.
  intros Hcases. split; [|reflexivity].
  apply createAndInsert_empty.
  destruct Hcases as [->|[(s & -> & Hs)|(h & -> & Hh)]].
  - reflexivity.
  - now rewrite payload_without_comma.
  - change (h ++ ",")%string with (h ++ "," ++ "")%string.
    now rewrite payload_after_comma.
Qed.

Lemma createBinary_vault path data w :
  let '(c, w') := createBinary path data w in
  (c = Throw /\ w' = w)
  \/ (c = Normal tt /\ vault w !! path = None
      /\ w' = set_vault (<[path := EFile data]> (vault w)) w).
Proof.
  unfold createBinary. destruct (vault w !! path); [left; auto|].
  destruct (adapterWriteFails _ _ _); [left; auto | right; auto].
Qed.

(** Every way [createAndInsertWithFileReader] can end. *)
Lemma createAndInsert_cases rr p n flag rw w :
  let run := createAndInsertWithFileReader rr p n flag rw w in
  let sp := storagePathOf p in
  let link := fileLinkOf p rw in
  (Js.truthyOptString (payloadOf rr) = false
   /\ run = (Normal false, set_notices (notices w ++ [base64IsEmpty p]) w))
  \/ (is_Some (vault w !! sp) /\ flag = true
      /\ run = (Normal true, insertedAndNotified link (alreadyExists sp) w))
  \/ ((exists b64, payloadOf rr = Some b64 /\ atob b64 = None) /\ run = (Throw, w))
  \/ ((exists b64 bin, payloadOf rr = Some b64 /\ atob b64 = Some bin
        /\ fst (createBinary sp (Utils.charCodes bin) w) = Throw)
      /\ run = (Normal false, insertedAndNotified link (failedToCreate n) w))
  \/ (exists b64 bin, payloadOf rr = Some b64 /\ atob b64 = Some bin
        /\ vault w !! sp = None
        /\ run = (Normal true,
                  set_editor (replaceSelectionIn link (editor w))
                    (set_vault (<[sp := EFile (Utils.charCodes bin)]> (vault w)) w))).
Proof.
  cbv zeta.
  destruct (Js.truthyOptString (payloadOf rr)) eqn:Ht.
  2:{ left. split; [reflexivity|]. now apply createAndInsert_empty. }
  right.
  destruct (payloadOf rr) as [b64|] eqn:Hp; [|discriminate]. cbn in Ht.
  destruct (bool_decide (is_Some (vault w !! storagePathOf p)) && flag) eqn:Hex.
  { left. apply andb_prop in Hex as [Hsome ->]. apply bool_decide_eq_true in Hsome.
    split; [exact Hsome|]. split; [reflexivity|].
    destruct Hsome as [e He]. apply (createAndInsert_exists _ _ _ _ _ e); [|exact He].
    rewrite Hp. exact Ht. }
  right.
  destruct (atob b64) as [bin|] eqn:Ha.
  2:{ left. split; [eauto|].
      unfold createAndInsertWithFileReader. fold (payloadOf rr). rewrite Hp.
      cbn [Js.truthyOptString default]. rewrite Ht. cbn [negb]. cbv zeta.
      fold (storagePathOf p). unfold base64ToArrayBuffer, id. rewrite Ha.
      runM. rewrite Hex. reflexivity. }
  right.
  rewrite (createAndInsert_attempt _ _ _ _ _ _ b64 bin Hp Ht Hex Ha).
  pose proof (createBinary_vault (storagePathOf p) (Utils.charCodes bin) w) as Hc.
  destruct (createBinary _ _ w) as [c w1] eqn:Hcb.
  destruct Hc as [[-> ->]|(-> & Hnone & ->)].
  - left. split; [|reflexivity]. exists b64, bin. repeat split; auto.
    now rewrite Hcb.
  - right. exists b64, bin. repeat split; auto.
Qed.


Lemma createAndInsert_vault_grows rr p n flag rw w :
  vault w ⊆ vault (snd (createAndInsertWithFileReader rr p n flag rw w)).
Proof.
  destruct (createAndInsert_cases rr p n flag rw w)
    as [[_ ->]|[(_ & _ & ->)|[[_ ->]|[[_ ->]|(b64 & bin & _ & _ & Hnone & ->)]]]];
    cbn; try reflexivity.
  now apply insert_subseteq.
Qed.

(** X10.  What the result of [createAndInsertWithFileReader] tells.  True:
    the vault has an entry at the storage path and the reference was
    inserted.  False: the vault is as it was.  An exception: the world is
    as it was. *)
Theorem handler_result_meaning
    (readerResult : option string) (filePath fileName : string)
    (flag : bool) (resizeWidth : Z) (w w' : World) (c : completion bool) :
  createAndInsertWithFileReader readerResult filePath fileName flag resizeWidth w
    = (c, w') ->
  (c = Normal true ->
     is_Some (vault w' !! storagePathOf filePath)
     /\ editor w' = replaceSelectionIn (fileLinkOf filePath resizeWidth) (editor w))
  /\ (c = Normal false -> vault w' = vault w)
  /\ (c = Throw -> w' = w).
Proof.
  intros Hrun.
  destruct (createAndInsert_cases readerResult filePath fileName flag resizeWidth w)
    as [[_ Hc]|[(Hex & _ & Hc)|[[_ Hc]|[[_ Hc]|(b64 & bin & _ & _ & Hnone & Hc)]]]];
    rewrite Hc in Hrun; injection Hrun as <- <-;
    (split; [|split]); intros Heq; try discriminate Heq; try reflexivity.
  - split; [exact Hex | reflexivity].
  - split; [|reflexivity]. cbn. rewrite lookup_insert_eq. eauto.
Qed.

(** X11.  [createAndInsertWithFileReader] never changes or removes an
    entry of the vault: every entry that was there is there afterwards,
    every path but the storage path is as before, and the vault is either
    unchanged or has one new file, at the storage path, where nothing
    was. *)
Theorem handler_keeps_entries
    (readerResult : option string) (filePath fileName : string)
    (flag : bool) (resizeWidth : Z) (w : World) :
  let w' := snd (createAndInsertWithFileReader readerResult filePath fileName
                   flag resizeWidth w) in
  vault w ⊆ vault w'
  /\ (forall q e, vault w !! q = Some e -> vault w' !! q = Some e)
  /\ (forall q, q <> storagePathOf filePath -> vault w' !! q = vault w !! q)
  /\ (vault w' = vault w
      \/ exists data, vault w !! storagePathOf filePath = None
                      /\ vault w' = <[storagePathOf filePath := EFile data]> (vault w)).
Proof.
  cbv zeta.
  assert (vault (snd (createAndInsertWithFileReader readerResult filePath fileName
                        flag resizeWidth w)) = vault w
          \/ exists data, vault w !! storagePathOf filePath = None
               /\ vault (snd (createAndInsertWithFileReader readerResult filePath fileName
                               flag resizeWidth w))
                  = <[storagePathOf filePath := EFile data]> (vault w)) as Hshape.
  { destruct (createAndInsert_cases readerResult filePath fileName flag resizeWidth w)
      as [[_ ->]|[(_ & _ & ->)|[[_ ->]|[[_ ->]|(b64 & bin & _ & _ & Hnone & ->)]]]];
      cbn; eauto. }
  split; [|split; [|split]]; [| | |exact Hshape].
  - destruct Hshape as [->|(data & Hnone & ->)]; [reflexivity | now apply insert_subseteq].
  - intros q e Hq. destruct Hshape as [->|(data & Hnone & ->)]; [exact Hq|].
    rewrite lookup_insert_ne; [exact Hq | congruence].
  - intros q Hne. destruct Hshape as [->|(data & Hnone & ->)]; [reflexivity|].
    now rewrite lookup_insert_ne.
Qed.

(** X12.  After a file was written at a path, a second file that comes to
    the same path is not written, whatever its bytes: the handler returns
    true, inserts a reference, shows the notice of the existing file, and
    the vault still holds the bytes of the first. *)
Theorem second_drop_reuses_first
    (first second : option string) (filePath name1 name2 : string) (rw1 rw2 : Z)
    (w : World) (b64 bin : string) :
  payloadOf first = Some b64 -> Js.truthyString b64 = true ->
  atob b64 = Some bin ->
  vault w !! storagePathOf filePath = None ->
  adapterWriteFails (vault w) (storagePathOf filePath) (Utils.charCodes bin) = false ->
  Js.truthyOptString (payloadOf second) = true ->
  let w1 := snd (createAndInsertWithFileReader first filePath name1 true rw1 w) in
  let run2 := createAndInsertWithFileReader second filePath name2 true rw2 w1 in
  vault w1 !! storagePathOf filePath = Some (EFile (Utils.charCodes bin))
  /\ fst run2 = Normal true
  /\ vault (snd run2) = vault w1
  /\ editor (snd run2) = replaceSelectionIn (fileLinkOf filePath rw2) (editor w1)
  /\ notices (snd run2) = (notices w1 ++ [alreadyExists (storagePathOf filePath)])%list.
Proof.
  intros Hp Ht Ha Hnone Hok Hp2. cbv zeta.
  remember (set_editor (replaceSelectionIn (fileLinkOf filePath rw1) (editor w))
              (set_vault (<[storagePathOf filePath := EFile (Utils.charCodes bin)]>
                            (vault w)) w)) as w1 eqn:Hw1.
  assert (createAndInsertWithFileReader first filePath name1 true rw1 w
          = (Normal true, w1)) as Hrun1.
  { rewrite (createAndInsert_attempt _ _ _ _ _ _ b64 bin Hp Ht) by
      (try assumption; rewrite Hnone; reflexivity).
    unfold createBinary. rewrite Hnone, Hok, Hw1. reflexivity. }
  rewrite Hrun1. cbn [snd].
  assert (vault w1 !! storagePathOf filePath = Some (EFile (Utils.charCodes bin)))
    as Hstored by (rewrite Hw1; cbn; apply lookup_insert_eq).
  split; [exact Hstored|].
  rewrite (createAndInsert_exists _ _ _ _ _ _ Hp2 Hstored). repeat split; reflexivity.
Qed.


(** *** Invariants of the event loop *)

Lemma onloadend_vault_grows r w : vault w ⊆ vault (onloadend r w).
Proof.
  unfold onloadend.
  pose proof (createAndInsert_vault_grows (readAsDataURL (rd_file r)) (rd_filePath r)
                (file_name (rd_file r)) true (rd_resizeWidth r) w) as Hg.
  destruct (createAndInsertWithFileReader _ _ _ _ _ w) as [[b|] w1]; exact Hg.
Qed.

Lemma onloadend_defaultPrevented r w :
  defaultPrevented (onloadend r w) = defaultPrevented w.
Proof.
  unfold onloadend.
  pose proof (createAndInsert_control (readAsDataURL (rd_file r)) (rd_filePath r)
                (file_name (rd_file r)) true (rd_resizeWidth r) w) as (_ & _ & _ & _ & Hd).
  destruct (createAndInsertWithFileReader _ _ _ _ _ w) as [[b|] w1]; exact Hd.
Qed.

Lemma stable_vault_grows v0 : stable (fun w => v0 ⊆ vault w).
Proof.
  split; [intros w s Hw; exact Hw|].
  intros w i r Hw Hr. etransitivity; [exact Hw|].
  apply (onloadend_vault_grows r (set_readers (delete i (readers w)) w)).
Qed.

Lemma stable_defaultPrevented b : stable (fun w => defaultPrevented w = b).
Proof.
  split; [intros w s Hw; exact Hw|].
  intros w i r Hw Hr. now rewrite onloadend_defaultPrevented.
Qed.

Lemma stable_quiet v : stable (fun w => readers w = [] /\ vault w = v).
Proof.
  split; [intros w s Hw; exact Hw|].
  intros w i r [Hnil _] Hr. rewrite Hnil in Hr. discriminate.
Qed.

Lemma settle_vault_grows w : vault w ⊆ vault (settle w).
Proof.
  unfold settle.
  change (vault w) with (vault (set_readers [] w)).
  generalize (set_readers [] w). induction (readers w) as [|r rs IH]; intros w0;
    cbn [foldl]; [reflexivity|].
  etransitivity; [apply (onloadend_vault_grows r w0) | apply IH].
Qed.


(** Creating the directories only adds folders where nothing was. *)
Lemma createDirs_vault_grows dir w :
  vault w ⊆ vault (snd (createDirsIfNotExists dir w)).
Proof.
  unfold createDirsIfNotExists, modify. cbn [snd vault set_vault].
  generalize (Js.split "/" dir). intros segs.
  assert (forall parent v, vault w ⊆ v ->
            vault w ⊆ snd (foldl
              (fun (acc : string * gmap string Entry) (seg : string) =>
                 let '(parent, v) := acc in
                 let path := if String.eqb parent "" then seg
                             else (parent ++ "/" ++ seg)%string in
                 if String.eqb seg "" then (parent, v)
                 else (path, match v !! path with
                             | None => <[path := EFolder]> v
                             | Some _ => v
                             end)) (parent, v) segs)) as Hgen.
  { induction segs as [|seg segs IH]; intros parent v Hv; cbn [foldl]; [exact Hv|].
    cbv zeta. destruct (String.eqb seg ""); [now apply IH|].
    apply IH.
    destruct (v !! _) eqn:Hl; [exact Hv|].
    etransitivity; [exact Hv | now apply insert_subseteq]. }
  apply Hgen. reflexivity.
Qed.

Lemma createDirs_control dir w :
  let w' := snd (createDirsIfNotExists dir w) in
  readers w' = readers w /\ handleSuccess w' = handleSuccess w
  /\ finished w' = finished w /\ defaultPrevented w' = defaultPrevented w
  /\ editor w' = editor w /\ notices w' = notices w.
Proof. cbn. auto 7. Qed.


Lemma stable_no_readers : stable (fun w => readers w = []).
Proof.
  split; [intros w s Hw; exact Hw|].
  intros w i r Hnil Hr. rewrite Hnil in Hr. discriminate.
Qed.

Lemma fileName_image_assoc base suffix ext :
  ((base ++ "-image") ++ suffix ++ "." ++ ext
   = base ++ "-image" ++ suffix ++ "." ++ ext)%string.
Proof. now rewrite !StringFacts.append_assoc. Qed.

(** X13.  The name [handleSingleFile] gives an image, when no read is in
    flight: the base name of the note, "-image", a suffix, ".", and the
    part of the file's name after its last dot, in the image folder.  The
    file is the dropped one when the size limit is -1 and the compressor's
    output otherwise.  The suffix is empty when
    [countFilesWithSamePrefix], called with the empty directory path and
    the note's base name, gives 0 on the vault, and "-" and that count
    otherwise: the count is over the whole vault.  When a size limit is
    set and the compression fails, the call throws instead: no read is
    started and the vault is as it was. *)
Theorem image_stored_as
    (settings : BetterDailyNotesSettings) (file : File) (viewFile : TFile) (w : World) :
  Js.startsWith "image" (file_type file) = true ->
  readers w = [] ->
  let call := handleSingleFile settings file (Some (mkView (Some viewFile))) w in
  let count := countFilesWithSamePrefix (vault w) "" (tf_basename viewFile) in
  let suffix := if count =? 0 then "" else ("-" ++ Js.ofNumber count)%string in
  let dir := normalizePath (viewParentPathOf viewFile ++ "/" ++ imageSubDir settings)%string in
  (maxImageSizeKB settings = -1 -> limitedImage settings file = Some file)
  /\ (maxImageSizeKB settings <> -1 ->
      limitedImage settings file
      = imageCompression file (maxImageSizeKB settings) (preserveExifData settings))
  /\ match limitedImage settings file with
     | Some file' =>
         let fileName := (tf_basename viewFile ++ "-image" ++ suffix ++ "."
                          ++ afterLastDot (file_name file'))%string in
         exists b w',
           call = (Normal b, w')
           /\ readers w'
              = [mkReader file' (normalizePath (dir ++ "/" ++ fileName)%string)
                          (resizeWidth settings) (length (handleSuccess w))]
     | None =>
         exists w',
           call = (Throw, w') /\ readers w' = [] /\ vault w' = vault w
     end.
Proof.
  intros Hi Hnil. cbv zeta.
  split; [intros Hsize; unfold limitedImage; rewrite Hsize; reflexivity|].
  split.
  { intros Hsize. unfold limitedImage.
    destruct (Z.eqb_spec (maxImageSizeKB settings) (-1)); [contradiction | reflexivity]. }
  destruct (limitedImage settings file) as [file'|] eqn:Hlim.
  - destruct (handleSingleFile_run
                (fun w0 => (readers w0 = [] /\ vault w0 = vault w)
                           /\ length (handleSuccess w0) = length (handleSuccess w))
                (fun w0 => readers w0 = [])
                (length (handleSuccess w)) settings file viewFile) with (w := w)
      as (b & w' & Hrun & w1 & file'' & path & Hw1 & -> & _ & _ & Himage).
    + apply stable_and; [apply stable_quiet | apply stable_variables].
    + intros w0 ns Hw0. exact Hw0.
    + intros w0 [_ Hm]. exact Hm.
    + intros w0 [[Hr _] _]. exact Hr.
    + apply stable_no_readers.
    + intros w0 dir Hw0. exact Hw0.
    + intros Hfails. apply compressionFails_limitedImage in Hfails as [_ Hnone].
      congruence.
    + auto.
    + destruct (Himage Hi) as (wc & [[_ Hv] _] & Hsame & ->).
      assert (file'' = file') as -> by congruence.
      exists b. eexists. split; [exact Hrun|]. cbn [readers set_readers].
      rewrite Hw1, Hv, fileName_image_assoc. reflexivity.
  - destruct (handleSingleFile_rejects
                (fun w0 => readers w0 = [] /\ vault w0 = vault w)
                settings file viewFile w) as (w' & Hrun & [Hr Hv]).
    + apply stable_quiet.
    + intros w0 ns Hw0. exact Hw0.
    + apply compressionFails_limitedImage. auto.
    + auto.
    + exists w'. auto.
Qed.

(** *** Batches *)

Lemma stable_counted n m v0 : stable (counted n m v0).
Proof.
  apply stable_and; apply stable_and;
    [apply stable_readsStarted | apply stable_variables
    | apply stable_defaultPrevented | apply stable_vault_grows].
Qed.

Lemma handleSingleFile_counted settings file viewFile n m v0 :
  ~ compressionFails settings file ->
  triple (counted n m v0)
    (handleSingleFile settings file (Some (mkView (Some viewFile))))
    (fun _ => counted (S n) (S m) v0).
Proof.
  intros Hok. eapply triple_weaken.
  - apply (handleSingleFile_run (counted n m v0)
             (fun w => (readsStarted w = n /\ length (handleSuccess w) = S m)
                       /\ (defaultPrevented w = true /\ v0 ⊆ vault w)) m).
    + apply stable_counted.
    + intros w ns Hw. exact Hw.
    + intros w [[_ Hm] _]. exact Hm.
    + intros w [[Hn Hm] Hrest]. split; [split; [exact Hn|] | exact Hrest].
      cbn. rewrite length_app, Hm. cbn. lia.
    + apply (stable_counted n (S m) v0).
    + intros w dir [Hc [Hd Hv]]. split; [exact Hc|]. split; [exact Hd|].
      etransitivity; [exact Hv | apply createDirs_vault_grows].
    + exact Hok.
  - auto.
  - intros b w' (w1 & file' & path & [[Hn Hm] Hrest] & -> & _).
    split; [|exact Hrest]. unfold readsStarted in *. cbn.
    rewrite length_app. cbn. split; lia.
Qed.


(** The loop stops at the first file whose compression fails: the files
    before it have their reads, the files after it are not looked at. *)
Lemma handleEach_aborts settings viewFile before file after : forall n m v0 w,
  Forall (fun f => ~ compressionFails settings f) before ->
  compressionFails settings file ->
  counted n m v0 w ->
  exists w',
    handleEach settings (Some (mkView (Some viewFile))) (before ++ file :: after)%list w
      = (Throw, w')
    /\ counted (n + length before) (m + length before) v0 w'.
Proof.
  induction before as [|f before IH]; intros n m v0 w Hok Hfails Hw;
    cbn [app handleEach length].
  - destruct (handleSingleFile_rejects (counted n m v0) settings file viewFile w)
      as (w' & Hrun & Hw'); auto using stable_counted.
    exists w'. rewrite !Nat.add_0_r. split; [|exact Hw'].
    unfold mbind, M_bind, bind. now rewrite Hrun.
  - apply Forall_cons in Hok as [Hf Hrest].
    destruct (handleSingleFile_counted settings f viewFile n m v0 Hf w Hw)
      as (b & w1 & Hrun1 & Hw1).
    destruct (triple_await _ (stable_counted (S n) (S m) v0) w1 Hw1)
      as ([] & w2 & Hrun2 & Hw2).
    destruct (IH (S n) (S m) v0 w2 Hrest Hfails Hw2) as (w' & Hrun & Hw').
    exists w'. rewrite <- !Nat.add_succ_comm. split; [|exact Hw'].
    unfold mbind, M_bind, bind. now rewrite Hrun1, Hrun2.
Qed.

Lemma view_is_file_backed settings markdownView :
  shouldHandleAccordingToConfig settings markdownView = true ->
  exists viewFile, markdownView = Some (mkView (Some viewFile)).
Proof.
  unfold shouldHandleAccordingToConfig.
  destruct markdownView as [[[viewFile|]]|]; cbn; [eauto | discriminate | discriminate].
Qed.

Lemma supported_none_found files :
  Forall (fun f => supportedType f = true) files ->
  find (fun file => negb (supportedType file)) files = None.
Proof.
  induction 1 as [|f files Hf _ IH]; cbn [find]; [reflexivity|].
  now rewrite Hf.
Qed.


(** X19.  A failed compression ends the batch.  When the compression of
    one image of an accepted batch fails, and of none before it,
    [handleFiles] throws at that file: the event's default has been
    prevented, the files before it have their variables and their reads,
    and the files after it get none. *)
Theorem failed_compression_ends_batch
    (dataTransfer : option DataTransfer) (settings : BetterDailyNotesSettings)
    (markdownView : option MarkdownView) (before : list File) (file : File)
    (after : list File) (w : World) :
  dataTransfer ≫= dt_files = Some (before ++ file :: after)%list ->
  shouldHandleAccordingToConfig settings markdownView = true ->
  Forall (fun f => supportedType f = true) (before ++ file :: after)%list ->
  Forall (fun f => ~ compressionFails settings f) before ->
  compressionFails settings file ->
  exists w',
    handleFiles dataTransfer settings markdownView w = (Throw, w')
    /\ defaultPrevented w' = true
    /\ readsStarted w' = (readsStarted w + length before)%nat
    /\ length (handleSuccess w') = (length (handleSuccess w) + length before)%nat
    /\ length (finished (settle w')) = (readsStarted w + length before)%nat.
Proof.
  intros Hfiles Hgate Hall Hok Hfails.
  destruct (view_is_file_backed _ _ Hgate) as [viewFile ->].
  unfold handleFiles. rewrite Hfiles, Hgate. cbn [negb].
  replace (length (before ++ file :: after)%list =? 0)%nat with false
    by (symmetry; apply Nat.eqb_neq; rewrite length_app; cbn; lia).
  rewrite (supported_none_found _ Hall).
  destruct (handleEach_aborts settings viewFile before file after
              (readsStarted w) (length (handleSuccess w)) (vault w)
              (set_defaultPrevented true w) Hok Hfails)
    as (w' & Hrun & [Hn Hm] & [Hd _]).
  { repeat split; reflexivity. }
  exists w'. split.
  { unfold mbind, M_bind, bind, preventDefault, modify. exact Hrun. }
  destruct (settle_all w') as (_ & Hfin & _).
  repeat split; try assumption. now rewrite Hfin.
Qed.

(** *** What the module keeps, whether it returns or throws

    A property of the vault and the editor that the handler of a read and
    the creation of directories keep is kept by all that the module
    does. *)
Section Invariant.
Variable Inv : World -> Prop.
Hypothesis Inv_frame :
  forall w w', vault w' = vault w -> editor w' = editor w -> Inv w -> Inv w'.
Hypothesis Inv_handler : forall r w, Inv w -> Inv (onloadend r w).
Hypothesis Inv_dirs : forall dir w, Inv w -> Inv (snd (createDirsIfNotExists dir w)).

Lemma stable_Inv : stable Inv.
Proof.
  split.
  - intros w s Hw. now apply (Inv_frame w).
  - intros w i r Hw Hr. apply Inv_handler. now apply (Inv_frame w).
Qed.

Lemma settle_keeps w : Inv w -> Inv (settle w).
Proof.
  intros Hw. unfold settle.
  assert (Inv (set_readers [] w)) as Hw0 by now apply (Inv_frame w).
  revert Hw0. generalize (set_readers [] w).
  induction (readers w) as [|r rs IH]; intros w0 Hw0; cbn [foldl]; [exact Hw0|].
  apply IH. now apply Inv_handler.
Qed.

Lemma handleSingleFile_keeps settings file viewFile w :
  Inv w -> Inv (snd (handleSingleFile settings file (Some (mkView (Some viewFile))) w)).
Proof.
  intros Hw. destruct (compressionFails_dec settings file) as [Hfails|Hok].
  - destruct (handleSingleFile_rejects Inv settings file viewFile w)
      as (w' & Hrun & Hw'); auto using stable_Inv.
    + intros w0 ns Hw0. now apply (Inv_frame w0).
    + now rewrite Hrun.
  - destruct (handleSingleFile_run
                (fun w0 => Inv w0 /\ length (handleSuccess w0) = length (handleSuccess w))
                Inv (length (handleSuccess w)) settings file viewFile) with (w := w)
      as (b & w' & Hrun & w1 & file' & path & Hw1 & -> & _).
    + apply stable_and; [apply stable_Inv | apply stable_variables].
    + intros w0 ns [Hw0 Hm]. split; [now apply (Inv_frame w0) | exact Hm].
    + intros w0 [_ Hm]. exact Hm.
    + intros w0 [Hw0 _]. now apply (Inv_frame w0).
    + apply stable_Inv.
    + intros w0 dir Hw0. now apply Inv_dirs.
    + exact Hok.
    + auto.
    + rewrite Hrun. cbn [snd]. now apply (Inv_frame w1).
Qed.

Lemma handleEach_keeps settings viewFile files : forall w,
  Inv w -> Inv (snd (handleEach settings (Some (mkView (Some viewFile))) files w)).
Proof.
  induction files as [|file rest IH]; intros w Hw; cbn [handleEach]; [exact Hw|].
  pose proof (handleSingleFile_keeps settings file viewFile w Hw) as Hfile.
  unfold mbind, M_bind, bind.
  destruct (handleSingleFile settings file _ w) as [[b|] w1]; cbn [snd] in *;
    [|exact Hfile].
  destruct (triple_await Inv stable_Inv w1 Hfile) as ([] & w2 & Hrun & Hnext).
  rewrite Hrun. now apply IH.
Qed.

Lemma handleFiles_keeps dataTransfer settings markdownView w :
  Inv w ->
  Inv (snd (handleFiles dataTransfer settings markdownView w))
  /\ Inv (settle (snd (handleFiles dataTransfer settings markdownView w))).
Proof.
  intros Hw.
  assert (Inv (snd (handleFiles dataTransfer settings markdownView w))) as Hrun.
  { unfold handleFiles.
    destruct (dataTransfer ≫= dt_files) as [files|]; [|exact Hw].
    destruct (shouldHandleAccordingToConfig settings markdownView) eqn:Hgate;
      cbn [negb]; [|exact Hw].
    destruct (length files =? 0)%nat; [exact Hw|].
    destruct (find _ files); [now apply (Inv_frame w)|].
    destruct (view_is_file_backed _ _ Hgate) as [viewFile ->].
    unfold mbind, M_bind, bind, preventDefault, modify.
    apply handleEach_keeps. now apply (Inv_frame w). }
  split; [exact Hrun | now apply settle_keeps].
Qed.

End Invariant.

(** X15.  Neither [handleFiles] nor the handlers that run after it change
    or remove an entry of the vault: every entry that was there before the
    event is there, unchanged, when [handleFiles] has returned or thrown
    and when all reads have ended, for every batch, view, schedule and
    host. *)
Theorem pipeline_never_overwrites
    (dataTransfer : option DataTransfer) (settings : BetterDailyNotesSettings)
    (markdownView : option MarkdownView) (w : World) :
  let w' := snd (handleFiles dataTransfer settings markdownView w) in
  vault w ⊆ vault w'
  /\ vault w ⊆ vault (settle w')
  /\ (forall q e, vault w !! q = Some e -> vault w' !! q = Some e)
  /\ (forall q e, vault w !! q = Some e -> vault (settle w') !! q = Some e).
Proof.
  cbv zeta.
  destruct (handleFiles_keeps (fun w0 => vault w ⊆ vault w0)) with
    (dataTransfer := dataTransfer) (settings := settings)
    (markdownView := markdownView) (w := w) as [Hrun Hend].
  - intros w0 w1 Hv _ Hw0. now rewrite Hv.
  - intros r w0 Hw0. etransitivity; [exact Hw0 | apply onloadend_vault_grows].
  - intros dir w0 Hw0. etransitivity; [exact Hw0 | apply createDirs_vault_grows].
  - reflexivity.
  - split; [exact Hrun|]. split; [exact Hend|].
    split; intros q e Hq; eapply lookup_weaken; eassumption.
Qed.

(** X16.  [shouldHandleAccordingToConfig] lets a view through exactly when
    it has a file, the scenario is not "disabled", and, if the scenario is
    "daily notes only", the path of the file is a daily note path; any
    other scenario string is treated like "all notes".  When the gate is
    closed, or the event carries no file list or an empty one,
    [handleFiles] leaves the world as it is: no notice, and the event's
    default is not prevented. *)
Theorem gate_closed_means_untouched
    (dataTransfer : option DataTransfer) (settings : BetterDailyNotesSettings)
    (markdownView : option MarkdownView) (w : World) :
  (shouldHandleAccordingToConfig settings markdownView = true <->
     exists viewFile,
       markdownView ≫= view_file = Some viewFile
       /\ fileHandlingScenario settings <> "disabled"
       /\ (fileHandlingScenario settings = "daily notes only" ->
           is_Some (Utils.checkValidDailyNotePath (tf_path viewFile)
                                                  (dateFormat settings))))
  /\ (shouldHandleAccordingToConfig settings markdownView = false
      \/ dataTransfer ≫= dt_files = None
      \/ dataTransfer ≫= dt_files = Some [] ->
      handleFiles dataTransfer settings markdownView w = (Normal tt, w)).
Proof.
  split.
  - unfold shouldHandleAccordingToConfig.
    destruct (markdownView ≫= view_file) as [viewFile|].
    2:{ split; [discriminate | intros (vf & Hvf & _); discriminate]. }
    destruct (String.eqb_spec (fileHandlingScenario settings) "disabled") as [Hd|Hd].
    { split; [discriminate | intros (vf & _ & Hne & _); congruence]. }
    destruct (String.eqb_spec (fileHandlingScenario settings) "daily notes only") as [Ho|Ho];
      cbn [andb].
    + destruct (bool_decide_reflect
                  (is_Some (Utils.checkValidDailyNotePath (tf_path viewFile)
                                                          (dateFormat settings))))
        as [Hs|Hs]; cbn [negb].
      * split; [|reflexivity]. intros _. exists viewFile. auto.
      * split; [discriminate|]. intros (vf & Hvf & _ & Himp).
        injection Hvf as <-. exfalso. auto.
    + split; [|reflexivity]. intros _. exists viewFile.
      split; [reflexivity|]. split; [exact Hd|]. intros Heq. congruence.
  - unfold handleFiles. intros [Hg|[Hn|He]].
    + destruct (dataTransfer ≫= dt_files); [|reflexivity]. now rewrite Hg.
    + now rewrite Hn.
    + rewrite He. destruct (negb _); reflexivity.
Qed.
(** *** The document *)

Lemma createAndInsert_editor rr p n flag rw w :
  editor (snd (createAndInsertWithFileReader rr p n flag rw w)) = editor w
  \/ editor (snd (createAndInsertWithFileReader rr p n flag rw w))
     = replaceSelectionIn (fileLinkOf p rw) (editor w).
Proof.
  destruct (createAndInsert_cases rr p n flag rw w)
    as [[_ ->]|[(_ & _ & ->)|[[_ ->]|[[_ ->]|(b64 & bin & _ & _ & _ & ->)]]]];
    cbn; auto.
Qed.

Lemma onloadend_editor r w :
  editor (onloadend r w) = editor w
  \/ editor (onloadend r w)
     = replaceSelectionIn (fileLinkOf (rd_filePath r) (rd_resizeWidth r)) (editor w).
Proof.
  unfold onloadend.
  pose proof (createAndInsert_editor (readAsDataURL (rd_file r)) (rd_filePath r)
                (file_name (rd_file r)) true (rd_resizeWidth r) w) as He.
  destruct (createAndInsertWithFileReader _ _ _ _ _ w) as [[b|] w1]; exact He.
Qed.

(** X18.  Whatever is dropped, the document outside the selection is
    kept: when all reads have ended the text after the selection is as it
    was, the text before it is the old text with the inserted references
    appended, and either nothing was inserted or the selection is
    empty. *)
Theorem document_outside_selection_is_kept
    (dataTransfer : option DataTransfer) (settings : BetterDailyNotesSettings)
    (markdownView : option MarkdownView) (w : World) :
  let after := settle (snd (handleFiles dataTransfer settings markdownView w)) in
  ed_after (editor after) = ed_after (editor w)
  /\ (exists inserted,
        ed_before (editor after) = (ed_before (editor w) ++ inserted)%string)
  /\ (editor after = editor w \/ ed_selection (editor after) = "").
Proof.
  cbv zeta.
  set (P := fun e => ed_after e = ed_after (editor w)
                     /\ (exists inserted,
                           ed_before e = (ed_before (editor w) ++ inserted)%string)
                     /\ (e = editor w \/ ed_selection e = "")).
  assert (forall e text, P e -> P (replaceSelectionIn text e)) as P_insert.
  { intros e text (Ha & [ins Hb] & _). split; [exact Ha|]. split; [|right; reflexivity].
    exists (ins ++ text)%string. cbn. rewrite Hb. apply StringFacts.append_assoc. }
  apply (handleFiles_keeps (fun w0 => P (editor w0))).
  - intros w0 w1 _ He Hw0. now rewrite He.
  - intros r w0 Hw0. destruct (onloadend_editor r w0) as [->| ->]; auto.
  - intros dir w0 Hw0. exact Hw0.
  - split; [reflexivity|]. split; [|left; reflexivity].
    exists "". clear. induction (ed_before (editor w)) as [|c s IH]; [reflexivity|].
    rewrite StringFacts.append_cons, <- IH. reflexivity.
Qed.

End WithHost.

(** *** Runs on the executable host *)

Lemma count_after_new_attachment_witness :
  ((∅ : gmap string Entry) !! "notes/2024/Jan/images/2024-01-15-image.png" = None
   /\ Js.startsWith "" "notes/2024/Jan/images/2024-01-15-image.png" = true
   /\ Js.contains "2024-01-15" "notes/2024/Jan/images/2024-01-15-image.png" = true
   /\ Js.endsWith ".md" "notes/2024/Jan/images/2024-01-15-image.png" = false)
  /\ countFilesWithSamePrefix
       (<["notes/2024/Jan/images/2024-01-15-image.png" := EFile [1; 2]]> ∅)
       "" "2024-01-15" = 1.
Proof.
  split; [repeat split; reflexivity|].
  exact (count_after_new_attachment ∅ "" "2024-01-15"
           "notes/2024/Jan/images/2024-01-15-image.png" [1; 2]
           eq_refl eq_refl eq_refl eq_refl).
Defined.

Lemma count_leaves_out_witness :
  ((∅ : gmap string Entry) !! "notes/2024/Jan/2024-01-15.md" = None
   /\ Js.endsWith ".md" "notes/2024/Jan/2024-01-15.md" = true)
  /\ countFilesWithSamePrefix
       (<["notes/2024/Jan/2024-01-15.md" := EFile [35]]> ∅) "" "2024-01-15" = 0.
Proof.
  assert ((∅ : gmap string Entry) !! "notes/2024/Jan/2024-01-15.md" = None) as Hnone
    by reflexivity.
  assert (Js.endsWith ".md" "notes/2024/Jan/2024-01-15.md" = true) as Hmd
    by reflexivity.
  split; [split; assumption|].
  destruct (count_leaves_out ∅ "" "2024-01-15" "notes/2024/Jan/2024-01-15.md"
              (EFile [35]) Hnone (or_intror (or_intror (or_intror Hmd))))
    as (Hsame & _ & Hzero).
  rewrite Hsame. exact Hzero.
Defined.

Lemma empty_payload_is_refused_witness :
  fst (createAndInsertWithFileReader None "files/report.pdf" "report.pdf" true (-1)
         Sample.withReport) = Normal false
  /\ editor (snd (createAndInsertWithFileReader None "files/report.pdf" "report.pdf"
                    true (-1) Sample.withReport)) = editor Sample.withReport.
Proof.
  destruct (empty_payload_is_refused None "files/report.pdf" "report.pdf" true (-1)
              Sample.withReport (or_introl eq_refl)) as [Hrun _].
  rewrite Hrun. split; reflexivity.
Defined.

Lemma handler_result_meaning_witness :
  let run := createAndInsertWithFileReader (readAsDataURL Sample.pdf) "files/report.pdf"
               "report.pdf" true (-1) SampleHost.emptyWorld in
  run = (Normal true, snd run)
  /\ is_Some (vault (snd run) !! "files/report.pdf")
  /\ ed_before (editor (snd run)) = "![[files/report.pdf]]".
Proof.
  cbv zeta.
  assert (createAndInsertWithFileReader (readAsDataURL Sample.pdf) "files/report.pdf"
            "report.pdf" true (-1) SampleHost.emptyWorld
          = (Normal true,
             snd (createAndInsertWithFileReader (readAsDataURL Sample.pdf)
                    "files/report.pdf" "report.pdf" true (-1) SampleHost.emptyWorld)))
    as Hrun by (vm_compute; reflexivity).
  split; [exact Hrun|].
  destruct (handler_result_meaning _ _ _ _ _ _ _ _ Hrun) as (Htrue & _ & _).
  destruct (Htrue eq_refl) as [Hsome Hed].
  split; [exact Hsome|]. rewrite Hed. reflexivity.
Defined.

Lemma second_drop_reuses_first_witness :
  let w1 := snd (createAndInsertWithFileReader (readAsDataURL Sample.pdf)
                   "files/report.pdf" "report.pdf" true (-1) SampleHost.emptyWorld) in
  let run2 := createAndInsertWithFileReader (readAsDataURL Sample.png)
                "files/report.pdf" "image.png" true (-1) w1 in
  (payloadOf (readAsDataURL Sample.pdf) = Some "JVBERg=="
   /\ Js.truthyString "JVBERg==" = true
   /\ atob "JVBERg==" = Some "%PDF"
   /\ vault SampleHost.emptyWorld !! storagePathOf "files/report.pdf" = None
   /\ adapterWriteFails (vault SampleHost.emptyWorld) (storagePathOf "files/report.pdf")
        (Utils.charCodes "%PDF") = false
   /\ Js.truthyOptString (payloadOf (readAsDataURL Sample.png)) = true)
  /\ fst run2 = Normal true
  /\ vault (snd run2) !! "files/report.pdf" = Some (EFile (file_bytes Sample.pdf)).
Proof.
  cbv zeta.
  assert (payloadOf (readAsDataURL Sample.pdf) = Some "JVBERg==") as H1
    by (vm_compute; reflexivity).
  assert (Js.truthyString "JVBERg==" = true) as H2 by reflexivity.
  assert (atob "JVBERg==" = Some "%PDF") as H3 by (vm_compute; reflexivity).
  assert (vault SampleHost.emptyWorld !! storagePathOf "files/report.pdf" = None) as H4
    by (vm_compute; reflexivity).
  assert (adapterWriteFails (vault SampleHost.emptyWorld)
            (storagePathOf "files/report.pdf") (Utils.charCodes "%PDF") = false) as H5
    by (vm_compute; reflexivity).
  assert (Js.truthyOptString (payloadOf (readAsDataURL Sample.png)) = true) as H6
    by (vm_compute; reflexivity).
  split; [repeat split; assumption|].
  destruct (second_drop_reuses_first (readAsDataURL Sample.pdf) (readAsDataURL Sample.png)
              "files/report.pdf" "report.pdf" "image.png" (-1) (-1)
              SampleHost.emptyWorld "JVBERg==" "%PDF" H1 H2 H3 H4 H5 H6)
    as (Hstored & Hres & Hv & _).
  split; [exact Hres|]. rewrite Hv. exact Hstored.
Defined.

Lemma image_stored_as_witness :
  (Js.startsWith "image" (file_type Sample.png) = true
   /\ readers SampleHost.emptyWorld = [])
  /\ (exists b w',
        handleSingleFile Sample.settings Sample.png Sample.view SampleHost.emptyWorld
          = (Normal b, w')
        /\ rd_filePath <$> readers w' = ["notes/2024/Jan/images/2024-01-15-image.png"])
  /\ (exists w',
        handleSingleFile Sample.limited Sample.emptyPng Sample.view SampleHost.emptyWorld
          = (Throw, w')
        /\ readers w' = []).
Proof.
  split; [split; reflexivity|]. split.
  - destruct (image_stored_as Sample.settings Sample.png Sample.note SampleHost.emptyWorld
                eq_refl eq_refl) as (_ & _ & Hcall).
    destruct Hcall as (b & w' & Hrun & Hrd).
    exists b, w'. split; [exact Hrun|]. rewrite Hrd. reflexivity.
  - destruct (image_stored_as Sample.limited Sample.emptyPng Sample.note
                SampleHost.emptyWorld eq_refl eq_refl) as (_ & _ & Hcall).
    destruct Hcall as (w' & Hrun & Hrd & _).
    exists w'. split; [exact Hrun | exact Hrd].
Defined.

(** With one image of the note in the vault, the next one gets "-1". *)
Example second_image_gets_a_suffix :
  let w := set_vault {[ "notes/2024/Jan/images/2024-01-15-image.png" := EFile [1] ]}
                     SampleHost.emptyWorld in
  rd_filePath <$> readers (snd (handleSingleFile Sample.settings Sample.png
                                  Sample.view w))
  = ["notes/2024/Jan/images/2024-01-15-image-1.png"].
Proof. vm_compute. reflexivity. Qed.

(** With a size limit the read is that of the compressor's output. *)
Example limited_image_is_compressed :
  rd_file <$> readers (snd (handleSingleFile Sample.limited Sample.png Sample.view
                              SampleHost.emptyWorld))
  = [Sample.png]
  /\ notice_message <$> notices (snd (handleSingleFile Sample.limited Sample.png
                                        Sample.view SampleHost.emptyWorld))
     = [("Compressing image " ++ dq ++ "image.png" ++ dq ++ " to 100KB")%string].
Proof. vm_compute. split; reflexivity. Qed.


Lemma failed_compression_ends_batch_witness :
  let files := [Sample.pdf; Sample.emptyPng; Sample.png] in
  (Sample.drop files ≫= dt_files = Some ([Sample.pdf] ++ Sample.emptyPng :: [Sample.png])%list
   /\ shouldHandleAccordingToConfig Sample.limited Sample.view = true
   /\ Forall (fun f => supportedType f = true) files
   /\ Forall (fun f => ~ compressionFails Sample.limited f) [Sample.pdf]
   /\ compressionFails Sample.limited Sample.emptyPng)
  /\ exists w',
       handleFiles (Sample.drop files) Sample.limited Sample.view SampleHost.emptyWorld
         = (Throw, w')
       /\ defaultPrevented w' = true
       /\ length (finished (settle w')) = 1%nat.
Proof.
  cbv zeta.
  assert (shouldHandleAccordingToConfig Sample.limited Sample.view = true) as Hgate
    by (vm_compute; reflexivity).
  assert (Forall (fun f => supportedType f = true)
            ([Sample.pdf] ++ Sample.emptyPng :: [Sample.png])%list) as Hall
    by (repeat constructor).
  assert (Forall (fun f => ~ compressionFails Sample.limited f) [Sample.pdf]) as Hok.
  { repeat constructor; intros (Hi & _); vm_compute in Hi; discriminate. }
  assert (compressionFails Sample.limited Sample.emptyPng) as Hfails
    by (repeat split; vm_compute; reflexivity).
  split; [repeat split; solve [reflexivity | assumption]|].
  destruct (failed_compression_ends_batch
              (Sample.drop [Sample.pdf; Sample.emptyPng; Sample.png])
              Sample.limited Sample.view [Sample.pdf] Sample.emptyPng [Sample.png]
              SampleHost.emptyWorld eq_refl Hgate Hall Hok Hfails)
    as (w' & Hrun & Hd & _ & _ & Hfin).
  exists w'. split; [exact Hrun|]. split; [exact Hd | exact Hfin].
Defined.

(** The batch of the witness: report.pdf is written, the references of the
    two images are never inserted, and the event's default was
    prevented. *)
Example batch_with_failing_compression :
  let w' := settle (snd (handleFiles
                           (Sample.drop [Sample.pdf; Sample.emptyPng; Sample.png])
                           Sample.limited Sample.view SampleHost.emptyWorld)) in
  ed_before (editor w') = "![[notes/2024/Jan/files/2024-01-15-report.pdf]]"
  /\ finished w' = [(0%nat, Some true)]
  /\ defaultPrevented w' = true.
Proof. vm_compute. repeat split; reflexivity. Qed.

End PipelineMore.
